(** * Global-Holiday-parser: the fetch / filter / write pipeline of
      [parse_calendarific.py], embedded and verified.

    The script is a sequential pipeline around one HTTP endpoint.  The
    embedding keeps its shape: every Python function is a computation in a
    small exception-and-state monad over a [world] (standard output, the log
    of requests sent, the files on disk), exceptions are values of [exn]
    matched by [except] clauses through the class hierarchy, and the values
    decoded from the provider's JSON are an inductive type [pyval].

    Scope of the model.
    - The two date arguments are sequences of Unicode code points: the
      regular expression of [strptime] and [int] accept the decimal digits
      of every script.  The ASCII digits are fixed; the decimal digits above
      ASCII are those of the interpreter's Unicode tables, a parameter.
    - Text elsewhere (country codes, the strings inside JSON values, file
      names) is a Rocq [string]: a sequence of code points below 256.
      [json.dumps] escapes every code point above [~].
    - Only exceptions deriving from [Exception] are modelled (no
      [KeyboardInterrupt], no interpreter exit).
    - [datetime] objects are naive (no [tzinfo]), as the constructor call and
      [strptime] with the format [%Y-%m-%d] of the script build them.
    - [strftime] prints [%Y] as the C library does: the year in decimal,
      not padded.
    - [json.dumps] raises on an integer of more than 4300 digits and on
      containers nested deeper than the interpreter's recursion limit
      allows; the depth left to the encoder is a parameter.
    - The network, the disk, path resolution and [float.__repr__] are
      parameters: what the n-th request answers, whether the n-th file
      operation fails, which file a name designates, the text of a finite
      float.

    Layout: the embedding of the script, function by function; the
    vocabulary the properties are stated in; sample data; then the facts,
    component by component (Filter, Validator, Fetcher, Writer,
    Orchestrator), each property followed by an instance on the sample
    data. *)

From Stdlib Require Import ZArith List Bool Ascii String Lia SpecFloat.
From Stdlib Require Import DecimalString DecimalZ DecimalPos.
From stdpp Require Import gmap strings.

Open Scope string_scope.
Open Scope list_scope.
Open Scope Z_scope.

(* ===================================================================== *)
(** * Python values *)
(* ===================================================================== *)

(** What [response.json()] can return: JSON decoded by Python.  A [dict]
    keeps insertion order, which [json.dumps] follows, hence the
    association list. *)
#[warnings="-register-all"]
Inductive pyval : Type :=
| VNone
| VBool (b : bool)
| VInt (z : Z)
| VFloat (f : spec_float)
| VStr (s : string)
| VList (items : list pyval)
| VDict (entries : list (string * pyval)).

(** Exceptions, by class.  The payload is what the script's messages show. *)
Inductive exn : Type :=
| KeyError (key : string)
| TypeError
| ValueError
| OverflowError
| HTTPError (status : Z)
| JSONDecodeError
| RequestException
| OSError
| RecursionError
| OtherException.

(** [isinstance(e, ValueError)]: [requests.exceptions.JSONDecodeError]
    derives from [json.JSONDecodeError], a [ValueError]. *)
Definition is_ValueError (e : exn) : bool :=
  match e with ValueError | JSONDecodeError => true | _ => false end.

Definition is_KeyError (e : exn) : bool :=
  match e with KeyError _ => true | _ => false end.

Definition is_HTTPError (e : exn) : bool :=
  match e with HTTPError _ => true | _ => false end.

(** [requests.exceptions.RequestException] and its subclasses. *)
Definition is_RequestException (e : exn) : bool :=
  match e with
  | HTTPError _ | JSONDecodeError | RequestException => true
  | _ => false
  end.

(** [IOError] is [OSError]; [RequestException] derives from it. *)
Definition is_IOError (e : exn) : bool :=
  match e with
  | OSError | HTTPError _ | JSONDecodeError | RequestException => true
  | _ => false
  end.

Inductive result (A : Type) : Type :=
| Ok (a : A)
| Raise (e : exn).
Arguments Ok {A} a.
Arguments Raise {A} e.

Definition rbind {A B} (r : result A) (k : A -> result B) : result B :=
  match r with
  | Ok a => k a
  | Raise e => Raise e
  end.

(** ** Subscripting, membership, iteration *)

Fixpoint assoc (k : string) (entries : list (string * pyval)) : option pyval :=
  match entries with
  | [] => None
  | (k', v) :: rest => if String.eqb k k' then Some v else assoc k rest
  end.

(** [container[key]] with a [str] key: only a [dict] accepts it. *)
Definition getitem (container : pyval) (key : string) : result pyval :=
  match container with
  | VDict entries =>
      match assoc key entries with
      | Some v => Ok v
      | None => Raise (KeyError key)
      end
  | _ => Raise TypeError
  end.

Fixpoint is_prefix (p s : string) : bool :=
  match p, s with
  | EmptyString, _ => true
  | String a p', String b s' => Ascii.eqb a b && is_prefix p' s'
  | String _ _, EmptyString => false
  end.

Fixpoint is_substring (p s : string) : bool :=
  is_prefix p s ||
  match s with
  | EmptyString => false
  | String _ s' => is_substring p s'
  end.

Definition is_str (needle : string) (v : pyval) : bool :=
  match v with
  | VStr s => String.eqb needle s
  | _ => false
  end.

(** [needle in container] for a [str] needle: key membership on a [dict],
    element equality on a [list], substring on a [str]; every other JSON
    value is not a container. *)
Definition contains (needle : string) (container : pyval) : result bool :=
  match container with
  | VDict entries =>
      Ok (match assoc needle entries with Some _ => true | None => false end)
  | VList items => Ok (existsb (is_str needle) items)
  | VStr s => Ok (is_substring needle s)
  | _ => Raise TypeError
  end.

Fixpoint chars (s : string) : list pyval :=
  match s with
  | EmptyString => []
  | String c s' => VStr (String c EmptyString) :: chars s'
  end.

(** What [list.extend(v)] appends: the items [iter(v)] yields. *)
Definition iterate (v : pyval) : result (list pyval) :=
  match v with
  | VList items => Ok items
  | VDict entries => Ok (map (fun kv => VStr (fst kv)) entries)
  | VStr s => Ok (chars s)
  | _ => Raise TypeError
  end.

(* ===================================================================== *)
(** * Calendar and [datetime] *)
(* ===================================================================== *)

Record datetime : Type := mk_datetime {
  year : Z; month : Z; day : Z;
  hour : Z; minute : Z; second : Z; microsecond : Z
}.

Definition MINYEAR : Z := 1.
Definition MAXYEAR : Z := 9999.

Definition is_leap (y : Z) : bool :=
  (y mod 4 =? 0) && (negb (y mod 100 =? 0) || (y mod 400 =? 0)).

Definition days_in_month (y m : Z) : Z :=
  if (m =? 2) && is_leap y then 29
  else nth (Z.to_nat m) [-1; 31; 28; 31; 30; 31; 30; 31; 31; 30; 31; 30; 31] 0.

Definition days_before_year (y : Z) : Z :=
  let y' := y - 1 in y' * 365 + y' / 4 - y' / 100 + y' / 400.

Definition days_before_month (y m : Z) : Z :=
  nth (Z.to_nat m) [-1; 0; 31; 59; 90; 120; 151; 181; 212; 243; 273; 304; 334] 0
  + (if (2 <? m) && is_leap y then 1 else 0).

(** [date.toordinal()]: day 1 is 0001-01-01.  [d - timedelta(days=1)] is the
    date whose ordinal is one less. *)
Definition toordinal (d : datetime) : Z :=
  days_before_year (year d) + days_before_month (year d) (month d) + day d.

(** The range checks of the [datetime] constructor on its date part. *)
Definition check_date_args (y m d : Z) : result unit :=
  if negb ((MINYEAR <=? y) && (y <=? MAXYEAR)) then Raise ValueError
  else if negb ((1 <=? m) && (m <=? 12)) then Raise ValueError
  else if negb ((1 <=? d) && (d <=? days_in_month y m)) then Raise ValueError
  else Ok tt.

Definition valid_date (d : datetime) : Prop :=
  MINYEAR <= year d <= MAXYEAR /\ 1 <= month d <= 12 /\
  1 <= day d <= days_in_month (year d) (month d).

Definition at_midnight (d : datetime) : Prop :=
  hour d = 0 /\ minute d = 0 /\ second d = 0 /\ microsecond d = 0.

(** An argument of the constructor is converted to a C [int]: an [int] or a
    [bool] is accepted, any other JSON value is a [TypeError], an integer
    that does not fit 32 bits an [OverflowError]. *)
Definition as_c_int (v : pyval) : result Z :=
  match v with
  | VInt z =>
      if (- 2 ^ 31 <=? z) && (z <? 2 ^ 31) then Ok z else Raise OverflowError
  | VBool b => Ok (if b then 1 else 0)
  | _ => Raise TypeError
  end.

(** [datetime(year=..., month=..., day=...)] *)
Definition datetime_new (vy vm vd : pyval) : result datetime :=
  rbind (as_c_int vy) (fun y =>
  rbind (as_c_int vm) (fun m =>
  rbind (as_c_int vd) (fun d =>
  rbind (check_date_args y m d) (fun _ =>
  Ok (mk_datetime y m d 0 0 0 0))))).

(** Comparison of naive [datetime] objects: lexicographic on the seven
    fields. *)
Fixpoint lex_compare (a b : list Z) : comparison :=
  match a, b with
  | x :: a', y :: b' =>
      match x ?= y with
      | Eq => lex_compare a' b'
      | c => c
      end
  | [], [] => Eq
  | [], _ :: _ => Lt
  | _ :: _, [] => Gt
  end.

Definition fields (d : datetime) : list Z :=
  [year d; month d; day d; hour d; minute d; second d; microsecond d].

Definition datetime_cmp (a b : datetime) : comparison :=
  lex_compare (fields a) (fields b).

(** [a <= b] *)
Definition datetime_le (a b : datetime) : bool :=
  match datetime_cmp a b with Gt => false | _ => true end.

(** [a > b] *)
Definition datetime_gt (a b : datetime) : bool :=
  match datetime_cmp a b with Gt => true | _ => false end.

(* ===================================================================== *)
(** * The world and the monad of the script *)
(* ===================================================================== *)

(** One constructor per [print] call of the script, with the values its
    f-string interpolates. *)
Inductive message : Type :=
| MsgNoHolidays (country : string) (year : Z)
| MsgHTTPError (e : exn)
| MsgRequestError (e : exn)
| MsgFetchUnexpected (e : exn)
| MsgMissingKey (e : exn)
| MsgProcessingError (e : exn)
| MsgSaved (filename : string)
| MsgWriteFailed (filename : string) (e : exn)
| MsgSaveUnexpected (e : exn)
| MsgInvalidDates (e : exn).

(** The query parameters of one GET. *)
Record request : Type := mk_request {
  req_api_key : option string;
  req_country : string;
  req_year : Z
}.

Record world : Type := mk_world {
  stdout : list message;          (* lines printed so far *)
  requests : list request;        (* GET requests sent so far *)
  opened : list string;           (* names passed to open(..., 'w') so far *)
  files : gmap string string;     (* content of the files on disk, by path *)
  io_ops : nat                    (* file operations attempted so far *)
}.

Definition M (A : Type) : Type := world -> result A * world.

Definition ret {A} (a : A) : M A := fun w => (Ok a, w).

Definition raise {A} (e : exn) : M A := fun w => (Raise e, w).

Definition bind {A B} (c : M A) (k : A -> M B) : M B :=
  fun w =>
    match c w with
    | (Ok a, w') => k a w'
    | (Raise e, w') => (Raise e, w')
    end.

Notation "'let*' x ':=' c 'in' k" := (bind c (fun x => k))
  (at level 10, x pattern, c at level 100, k at level 200).

Definition lift {A} (r : result A) : M A := fun w => (r, w).

(** [try: body except ...]: [handlers e] is the first matching clause, or
    [None] when no clause matches and [e] propagates. *)
Definition try_except {A} (body : M A) (handlers : exn -> option (M A)) : M A :=
  fun w =>
    match body w with
    | (Ok a, w') => (Ok a, w')
    | (Raise e, w') =>
        match handlers e with
        | Some h => h w'
        | None => (Raise e, w')
        end
    end.

Definition print (m : message) : M unit :=
  fun w => (Ok tt, mk_world (stdout w ++ [m]) (requests w) (opened w)
                            (files w) (io_ops w)).

(** [for x in l: body], threading the local variables the body assigns. *)
Fixpoint for_each {A S} (l : list A) (s : S) (body : S -> A -> M S) : M S :=
  match l with
  | [] => ret s
  | x :: l' => let* s' := body s x in for_each l' s' body
  end.

(* ===================================================================== *)
(** * [filter_holidays_by_date] *)
(* ===================================================================== *)

(** The three subscript chains, evaluated left to right before the
    constructor is called (lines 51-55). *)
Definition holiday_datetime (holiday : pyval) : result datetime :=
  rbind (rbind (rbind (getitem holiday "date")
                      (fun d => getitem d "datetime"))
               (fun dt => getitem dt "year")) (fun vy =>
  rbind (rbind (rbind (getitem holiday "date")
                      (fun d => getitem d "datetime"))
               (fun dt => getitem dt "month")) (fun vm =>
  rbind (rbind (rbind (getitem holiday "date")
                      (fun d => getitem d "datetime"))
               (fun dt => getitem dt "day")) (fun vd =>
  datetime_new vy vm vd))).

Definition filter_holidays_by_date (holidays : list pyval)
    (start_date end_date : datetime) : M (list pyval) :=
  for_each holidays [] (fun filtered_holidays holiday =>
    try_except
      (let* holiday_date := lift (holiday_datetime holiday) in
       if datetime_le start_date holiday_date
          && datetime_le holiday_date end_date
       then ret (filtered_holidays ++ [holiday])
       else ret filtered_holidays)
      (fun err =>
         if is_KeyError err
         then Some (let* _ := print (MsgMissingKey err) in
                    ret filtered_holidays)
         else Some (let* _ := print (MsgProcessingError err) in
                    ret filtered_holidays))).


(* ===================================================================== *)
(** * Text *)
(* ===================================================================== *)

Definition code (c : ascii) : Z := Z.of_N (N_of_ascii c).

(** A [str] given on the command line, as its code points. *)
Definition unicode : Type := list Z.

(** The code points of a text below 256. *)
Fixpoint codes (s : string) : unicode :=
  match s with
  | EmptyString => []
  | String c r => code c :: codes r
  end.

Definition in_class (lo hi : Z) (c : Z) : bool := (lo <=? c) && (c <=? hi).

(** [int.__repr__] without the limit on digits, and [%d] of the C library:
    the decimal digits, after a minus sign for a negative number. *)
Definition decimal (z : Z) : string := NilEmpty.string_of_int (Z.to_int z).

Definition digit_char (n : Z) : ascii := ascii_of_N (Z.to_N (48 + n mod 10)).

Definition two_digits (n : Z) : string :=
  String (digit_char (n / 10)) (String (digit_char n) "").

(** [d.strftime('%d-%m-%Y')]: day and month zero-padded to two digits, the
    year in decimal as the C library prints it, not padded. *)
Definition strftime_dmY (d : datetime) : string :=
  two_digits (day d) +:+ "-" +:+ two_digits (month d) +:+ "-"
  +:+ decimal (year d).

(** [range(a, b)] *)
Definition range (a b : Z) : list Z :=
  map (fun i => a + Z.of_nat i) (seq 0 (Z.to_nat (b - a))).

(* ===================================================================== *)
(** * [json.dumps], the encoder's helpers *)
(* ===================================================================== *)

Definition LF : ascii := ascii_of_nat 10.
Definition QUOTE : ascii := ascii_of_nat 34.
Definition BACKSLASH : ascii := ascii_of_nat 92.

Definition hex_char (n : Z) : ascii :=
  let d := n mod 16 in
  ascii_of_N (Z.to_N (if d <? 10 then 48 + d else 87 + d)).

(** One character of [py_encode_basestring_ascii]: the short escapes, the
    printable ASCII characters as they are, [\u00XX] for the rest. *)
Definition escape_char (c : ascii) : string :=
  let n := code c in
  if n =? 34 then String BACKSLASH (String QUOTE "")
  else if n =? 92 then String BACKSLASH (String BACKSLASH "")
  else if n =? 10 then String BACKSLASH "n"
  else if n =? 13 then String BACKSLASH "r"
  else if n =? 9 then String BACKSLASH "t"
  else if n =? 8 then String BACKSLASH "b"
  else if n =? 12 then String BACKSLASH "f"
  else if (32 <=? n) && (n <=? 126) then String c ""
  else String BACKSLASH ("u00" +:+ String (hex_char (n / 16))
                                       (String (hex_char n) "")).

Fixpoint escape (s : string) : string :=
  match s with
  | EmptyString => EmptyString
  | String c r => escape_char c +:+ escape r
  end.

Definition encode_basestring_ascii (s : string) : string :=
  String QUOTE (escape s +:+ String QUOTE "").

(** [sep.join(parts)] *)
Fixpoint join (sep : string) (parts : list string) : string :=
  match parts with
  | [] => EmptyString
  | [p] => p
  | p :: rest => p +:+ sep +:+ join sep rest
  end.

(** [int.__repr__]: an integer of more than 4300 decimal digits is refused
    ([sys.int_info.default_max_str_digits]). *)
Definition int_repr (z : Z) : result string :=
  if 4300 <? Z.of_nat (String.length (decimal (Z.abs z)))
  then Raise ValueError else Ok (decimal z).

(** The results of a sequence of steps, up to the first that raises. *)
Fixpoint sequence {A} (steps : list (result A)) : result (list A) :=
  match steps with
  | [] => Ok []
  | r :: rest =>
      rbind r (fun a => rbind (sequence rest) (fun l => Ok (a :: l)))
  end.

(** The outcome of one GET: [requests.get] raises, or there is a response
    with its status code and what [response.json()] returns or raises. *)
Inductive http_outcome : Type :=
| GetRaises (e : exn)
| Response (status_code : Z) (body : result pyval).

Section Pipeline.

(** [Py_UNICODE_TODECIMAL] above ASCII: the value of a code point that is a
    decimal digit of some script (category Nd), by the Unicode tables of
    the interpreter. *)
Variable unicode_decimal : Z -> option Z.

(** [float.__repr__] on finite floats: the shortest decimal text that reads
    back as the same float.  It is not computed here. *)
Variable float_repr : spec_float -> string.

(** How many containers, one inside the other, the encoder of [json] can
    enter before the interpreter's recursion limit stops it. *)
Variable recursion_budget : nat.

(** [API_KEY = os.getenv('CALENDARIFIC_API_KEY')] *)
Variable API_KEY : option string.

(** What the network and the provider answer to the [n]-th GET of the run,
    sent for a country and a year. *)
Variable http : nat -> string -> Z -> http_outcome.

(** The file a name designates: [open] resolves the name (working
    directory, [.] and [..], links), so two names can be one file. *)
Variable resolve : string -> string.

(** Whether the [n]-th file operation of the run fails, and how. *)
Variable io_fault : nat -> option exn.

(* ===================================================================== *)
(** * [validate_dates] *)
(* ===================================================================== *)

(** The decimal value of a code point, if it is a decimal digit. *)
Definition decimal_value (c : Z) : option Z :=
  if in_class 48 57 c then Some (c - 48)
  else if c <? 128 then None
  else unicode_decimal c.

(** [\d] of a [str] pattern: a decimal digit of any script. *)
Definition is_digit (c : Z) : bool :=
  match decimal_value c with Some _ => true | None => false end.

(** A regular expression is run as the list of its matches at the start of
    the input, in the order a backtracking matcher tries them; a match is
    the text captured and the text left. *)
Definition matches : Type := list (unicode * unicode).

(** [(?P<Y>\d\d\d\d)] *)
Definition re_Y (s : unicode) : matches :=
  match s with
  | a :: b :: c :: d :: r =>
      if is_digit a && is_digit b && is_digit c && is_digit d
      then [([a; b; c; d], r)] else []
  | _ => []
  end.

(** Two characters, the first fixed, the second in a range. *)
Definition re_pair (first : Z) (lo hi : Z) (s : unicode) : matches :=
  match s with
  | a :: b :: r =>
      if (a =? first) && in_class lo hi b then [([a; b], r)] else []
  | _ => []
  end.

(** Two characters, the first fixed, the second [\d]. *)
Definition re_pair_digit (first : Z) (s : unicode) : matches :=
  match s with
  | a :: b :: r => if (a =? first) && is_digit b then [([a; b], r)] else []
  | _ => []
  end.

Definition re_one (lo hi : Z) (s : unicode) : matches :=
  match s with
  | a :: r => if in_class lo hi a then [([a], r)] else []
  | _ => []
  end.

(** [(?P<m>1[0-2]|0[1-9]|[1-9])] *)
Definition re_m (s : unicode) : matches :=
  re_pair 49 48 50 s ++ re_pair 48 49 57 s ++ re_one 49 57 s.

(** [(?P<d>3[01]|[12]\d|0[1-9]|[1-9]| [1-9])] *)
Definition re_d (s : unicode) : matches :=
  re_pair 51 48 49 s ++ (re_pair_digit 49 s ++ re_pair_digit 50 s)
  ++ re_pair 48 49 57 s ++ re_one 49 57 s ++ re_pair 32 49 57 s.

(** The literal [-] of the format *)
Definition re_dash (s : unicode) : list unicode :=
  match s with
  | a :: r => if a =? 45 then [r] else []
  | _ => []
  end.

(** The regular expression [strptime] compiles from [%Y-%m-%d]. *)
Definition format_regex (s : unicode)
    : list (unicode * unicode * unicode * unicode) :=
  flat_map (fun Yr =>
  flat_map (fun r1 =>
  flat_map (fun mr =>
  flat_map (fun r2 =>
  map (fun dr => (fst Yr, fst mr, fst dr, snd dr)) (re_d r2))
  (re_dash (snd mr))) (re_m r1)) (re_dash (snd Yr))) (re_Y s).

(** [int(text)] for text the regular expression captured: decimal digits,
    with the one leading space the day alternative allows stripped. *)
Fixpoint int_digits (acc : Z) (s : unicode) : Z :=
  match s with
  | [] => acc
  | c :: r =>
      match decimal_value c with
      | Some v => int_digits (10 * acc + v) r
      | None => int_digits acc r
      end
  end.

Definition int_of (s : unicode) : Z := int_digits 0 s.

(** [datetime.strptime(s, '%Y-%m-%d')]: match at the start, refuse
    unconverted text, then build the date (which checks it). *)
Definition strptime (s : unicode) : result datetime :=
  match format_regex s with
  | [] => Raise ValueError
  | (Y, m, d, rest) :: _ =>
      match rest with
      | _ :: _ => Raise ValueError
      | [] =>
          rbind (check_date_args (int_of Y) (int_of m) (int_of d)) (fun _ =>
          Ok (mk_datetime (int_of Y) (int_of m) (int_of d) 0 0 0 0))
      end
  end.

Definition validate_dates (start_date end_date : unicode)
    : M (datetime * datetime) :=
  try_except
    (let* start_date_obj := lift (strptime start_date) in
     let* end_date_obj := lift (strptime end_date) in
     if datetime_gt start_date_obj end_date_obj
     then raise ValueError
     else ret (start_date_obj, end_date_obj))
    (fun val_err =>
       if is_ValueError val_err
       then Some (let* _ := print (MsgInvalidDates val_err) in raise val_err)
       else None).

(* ===================================================================== *)
(** * [json.dumps] *)
(* ===================================================================== *)

Definition floatstr (f : spec_float) : string :=
  match f with
  | S754_nan => "NaN"
  | S754_infinity false => "Infinity"
  | S754_infinity true => "-Infinity"
  | _ => float_repr f
  end.

(** The encoder with [budget] containers left to enter; the items of a
    container are encoded in order, and the first that raises ends the
    call. *)
Fixpoint encode_value (budget : nat) (v : pyval) : result string :=
  match v with
  | VNone => Ok "null"
  | VBool true => Ok "true"
  | VBool false => Ok "false"
  | VInt z => int_repr z
  | VFloat f => Ok (floatstr f)
  | VStr s => Ok (encode_basestring_ascii s)
  | VList items =>
      match budget with
      | O => Raise RecursionError
      | S budget' =>
          rbind (sequence (map (encode_value budget') items)) (fun parts =>
          Ok ("[" +:+ join ", " parts +:+ "]"))
      end
  | VDict entries =>
      match budget with
      | O => Raise RecursionError
      | S budget' =>
          rbind (sequence
                   (map (fun kv =>
                           rbind (encode_value budget' (snd kv)) (fun text =>
                           Ok (encode_basestring_ascii (fst kv)
                               +:+ ": " +:+ text)))
                        entries)) (fun parts =>
          Ok ("{" +:+ join ", " parts +:+ "}"))
      end
  end.

(** [json.dumps(v)] with the default separators and [ensure_ascii]. *)
Definition json_dumps (v : pyval) : result string :=
  encode_value recursion_budget v.

(* ===================================================================== *)
(** * [fetch_holidays] *)
(* ===================================================================== *)

(** [requests.get(BASE_URL, params=params)] *)
Definition requests_get (country : string) (year : Z)
    : M (Z * result pyval) :=
  fun w =>
    let w' := mk_world (stdout w)
                (requests w ++ [mk_request API_KEY country year])
                (opened w) (files w) (io_ops w) in
    match http (length (requests w)) country year with
    | GetRaises e => (Raise e, w')
    | Response status_code body => (Ok (status_code, body), w')
    end.

(** [response.raise_for_status()]: client and server error codes raise. *)
Definition raise_for_status (response : Z * result pyval) : result unit :=
  if (400 <=? fst response) && (fst response <? 600)
  then Raise (HTTPError (fst response)) else Ok tt.

Definition fetch_holidays (country : string) (year : Z) : M (list pyval) :=
  let holidays : list pyval := [] in
  let* holidays :=
    try_except
      (let* response := requests_get country year in
       let* _ := lift (raise_for_status response) in
       let* data := lift (snd response) in
       let* has_response := lift (contains "response" data) in
       let* has_holidays :=
         (if has_response
          then lift (rbind (getitem data "response") (contains "holidays"))
          else ret false) in
       if has_holidays
       then let* items := lift (rbind (rbind (getitem data "response")
                                         (fun r => getitem r "holidays"))
                                      iterate) in
            ret (holidays ++ items)
       else let* _ := print (MsgNoHolidays country year) in
            ret holidays)
      (fun err =>
         if is_HTTPError err
         then Some (let* _ := print (MsgHTTPError err) in ret holidays)
         else if is_RequestException err
         then Some (let* _ := print (MsgRequestError err) in ret holidays)
         else Some (let* _ := print (MsgFetchUnexpected err) in ret holidays))
  in ret holidays.

(* ===================================================================== *)
(** * [save_to_file] *)
(* ===================================================================== *)

(** One file operation: it fails as [io_fault] says, else it has its effect
    on the disk. *)
Definition file_op (effect : gmap string string -> gmap string string)
    : M unit :=
  fun w =>
    match io_fault (io_ops w) with
    | Some e => (Raise e, mk_world (stdout w) (requests w) (opened w)
                                   (files w) (S (io_ops w)))
    | None => (Ok tt, mk_world (stdout w) (requests w) (opened w)
                               (effect (files w)) (S (io_ops w)))
    end.

(** [open(filename, 'w')] creates or truncates the file the name
    designates. *)
Definition open_w (filename : string) : M unit :=
  let* _ := (fun w => (Ok tt, mk_world (stdout w) (requests w)
                                (opened w ++ [filename]) (files w)
                                (io_ops w))) in
  file_op (fun fs => <[resolve filename := EmptyString]> fs).

(** [file.write(text)] appends to what the file holds. *)
Definition file_write (filename text : string) : M unit :=
  file_op (fun fs =>
             <[resolve filename :=
                 default EmptyString (fs !! resolve filename) +:+ text]> fs).

Definition file_close : M unit := file_op (fun fs => fs).

(** [with open(filename, 'w') as file: body]: the file is closed on both
    ways out of the block. *)
Definition with_open (filename : string) (body : M unit) : M unit :=
  let* _ := open_w filename in
  fun w =>
    match body w with
    | (Ok _, w') => file_close w'
    | (Raise e, w') =>
        match file_close w' with
        | (Ok _, w'') => (Raise e, w'')
        | (Raise e', w'') => (Raise e', w'')
        end
    end.

(** The body of the loop of the Writer (line 70): the text of the record
    is computed, then written with a line feed. *)
Definition write_record (filename : string) (_ : unit) (holiday : pyval)
    : M unit :=
  let* text := lift (json_dumps holiday) in
  file_write filename (text +:+ String LF "").

Definition save_to_file (filename : string) (data : list pyval) : M unit :=
  try_except
    (let* _ := with_open filename
         (for_each data tt (write_record filename)) in
     print (MsgSaved filename))
    (fun err =>
       if is_IOError err
       then Some (print (MsgWriteFailed filename err))
       else Some (print (MsgSaveUnexpected err))).

(* ===================================================================== *)
(** * [main] *)
(* ===================================================================== *)

(** The body of the loop over countries (lines 97-107). *)
Definition main_country (start_date_obj end_date_obj : datetime)
    (country : string) : M unit :=
  let start_year := year start_date_obj in
  let end_year := year end_date_obj in
  let* all_holidays :=
    for_each (range start_year (end_year + 1)) []
      (fun all_holidays year =>
         let* holidays := fetch_holidays country year in
         ret (all_holidays ++ holidays)) in
  let* filtered_holidays :=
    filter_holidays_by_date all_holidays start_date_obj end_date_obj in
  let filename := country +:+ "_" +:+ strftime_dmY start_date_obj
                  +:+ "_" +:+ strftime_dmY end_date_obj +:+ ".txt" in
  save_to_file filename filtered_holidays.

Definition main (countries_list : list string)
    (start_date end_date : unicode) : M unit :=
  let* validated :=
    try_except
      (let* dates := validate_dates start_date end_date in ret (Some dates))
      (fun err => if is_ValueError err then Some (ret None) else None) in
  match validated with
  | None => ret tt
  | Some (start_date_obj, end_date_obj) =>
      for_each countries_list tt (fun _ country =>
        main_country start_date_obj end_date_obj country)
  end.

End Pipeline.

(* ===================================================================== *)
(** * Vocabulary of the specification *)
(* ===================================================================== *)

(** ** Worlds *)

(** Printing [msgs], and nothing else. *)
Definition say (msgs : list message) (w : world) : world :=
  mk_world (stdout w ++ msgs) (requests w) (opened w) (files w) (io_ops w).

(** Sending [reqs] and printing [msgs], and nothing else. *)
Definition after_requests (reqs : list request) (msgs : list message)
    (w : world) : world :=
  mk_world (stdout w ++ msgs) (requests w ++ reqs) (opened w) (files w)
           (io_ops w).

(** The world after [n] file operations that left [content] in the file at
    [path]. *)
Definition wrote (path content : string) (n : nat) (w : world) : world :=
  mk_world (stdout w) (requests w) (opened w)
           (<[path := content]> (files w)) (io_ops w + n)%nat.

(** [w'] differs from [w] at most in the file at [path] and the count of
    file operations. *)
Definition only_file (path : string) (w w' : world) : Prop :=
  stdout w' = stdout w /\ requests w' = requests w /\
  opened w' = opened w /\
  forall other, other <> path -> files w' !! other = files w !! other.

(** ** Dates and records *)

(** The date part of two [datetime] values, compared as the first three
    fields of the tuple comparison. *)
Definition date_le (a b : datetime) : Prop :=
  year a < year b \/
  (year a = year b /\
   (month a < month b \/ (month a = month b /\ day a <= day b))).

(** [a] is the calendar day before [b]. *)
Definition day_before (a b : datetime) : Prop :=
  valid_date a /\ valid_date b /\ toordinal a + 1 = toordinal b.

(** The two dates are the same calendar day. *)
Definition same_day (a b : datetime) : Prop :=
  year a = year b /\ month a = month b /\ day a = day b.

(** The value under a path of [dict] keys, if every step exists. *)
Fixpoint lookup_path (path : list string) (v : pyval) : option pyval :=
  match path with
  | [] => Some v
  | k :: path' =>
      match v with
      | VDict entries =>
          match assoc k entries with
          | Some v' => lookup_path path' v'
          | None => None
          end
      | _ => None
      end
  end.

Definition date_field (name : string) (holiday : pyval) : option pyval :=
  lookup_path ["date"; "datetime"; name] holiday.

(** A record lacks a date field when one of the three paths does not
    exist. *)
Definition lacks_date_field (holiday : pyval) : Prop :=
  date_field "year" holiday = None \/ date_field "month" holiday = None \/
  date_field "day" holiday = None.

(** The record resolves to a date inside the inclusive window. *)
Definition in_window (start_date end_date : datetime) (holiday : pyval) : bool :=
  match holiday_datetime holiday with
  | Ok d => datetime_le start_date d && datetime_le d end_date
  | Raise _ => false
  end.

(** The record resolves to a date outside the window. *)
Definition outside_window (start_date end_date : datetime) (holiday : pyval)
    : bool :=
  match holiday_datetime holiday with
  | Ok d => negb (datetime_le start_date d && datetime_le d end_date)
  | Raise _ => false
  end.

(** The line the Filter prints when it skips a record. *)
Definition skip_report (holiday : pyval) : list message :=
  match holiday_datetime holiday with
  | Ok _ => []
  | Raise e => [if is_KeyError e then MsgMissingKey e else MsgProcessingError e]
  end.

(** ** Date strings *)

(** [YYYY]: the year on four ASCII digits, zero-padded. *)
Definition four_digits (n : Z) : string :=
  String (digit_char (n / 1000)) (String (digit_char (n / 100))
    (String (digit_char (n / 10)) (String (digit_char n) ""))).

(** The canonical text of a date: [YYYY-MM-DD]. *)
Definition isoformat (d : datetime) : string :=
  four_digits (year d) +:+ "-" +:+ two_digits (month d) +:+ "-"
  +:+ two_digits (day d).

(** The string is in the format [YYYY-MM-DD]: it is the canonical text of
    the calendar date [d]. *)
Definition iso_text (s : unicode) (d : datetime) : Prop :=
  valid_date d /\ at_midnight d /\ s = codes (isoformat d).

(** Four decimal digits, of any script, that read as the year. *)
Definition year_text (unicode_decimal : Z -> option Z) (y : Z) (t : unicode)
    : Prop :=
  exists a b c d va vb vc vd,
    t = [a; b; c; d] /\
    decimal_value unicode_decimal a = Some va /\
    decimal_value unicode_decimal b = Some vb /\
    decimal_value unicode_decimal c = Some vc /\
    decimal_value unicode_decimal d = Some vd /\
    y = 1000 * va + 100 * vb + 10 * vc + vd.

(** The month on two ASCII digits, or on one below ten. *)
Definition month_text (m : Z) (t : unicode) : Prop :=
  t = codes (two_digits m) \/ (m < 10 /\ t = [48 + m]).

(** The day on two ASCII digits; or below ten on one digit, alone or after a
    space; or from ten to twenty-nine (by the value of the digit), [1] or
    [2] and then a decimal digit of any script. *)
Definition day_text (unicode_decimal : Z -> option Z) (d : Z) (t : unicode)
    : Prop :=
  t = codes (two_digits d) \/
  (d < 10 /\ (t = [48 + d] \/ t = [32; 48 + d])) \/
  exists tens c v,
    (tens = 1 \/ tens = 2) /\ decimal_value unicode_decimal c = Some v /\
    d = 10 * tens + v /\ t = [48 + tens; c].

(** The text is a date string for [d]: year, dash, month, dash, day, and
    [d] is that calendar date at midnight. *)
Definition date_text (unicode_decimal : Z -> option Z) (s : unicode)
    (d : datetime) : Prop :=
  valid_date d /\ at_midnight d /\
  exists yt mt dt,
    year_text unicode_decimal (year d) yt /\ month_text (month d) mt /\
    day_text unicode_decimal (day d) dt /\
    s = yt ++ [45] ++ mt ++ [45] ++ dt.

Fixpoint same_codes (a b : unicode) : bool :=
  match a, b with
  | [], [] => true
  | x :: a', y :: b' => (x =? y) && same_codes a' b'
  | _, _ => false
  end.

(** The first match of the day alternatives is the whole text, and it reads
    as the day [d]. *)
Definition re_d_whole (unicode_decimal : Z -> option Z) (t : unicode) (d : Z)
    : bool :=
  match re_d unicode_decimal t with
  | (text, []) :: _ => same_codes text t && (int_of unicode_decimal text =? d)
  | _ => false
  end.

(** The string is a date string for no date. *)
Definition malformed (unicode_decimal : Z -> option Z) (s : unicode) : Prop :=
  forall d, ~ date_text unicode_decimal s d.

(** [strptime] returns [d] on the string. *)
Definition parses (unicode_decimal : Z -> option Z) (s : unicode)
    (d : datetime) : Prop :=
  strptime unicode_decimal s = Ok d.

(** ** Decimal texts and file names *)

Definition is_ascii_digit (c : ascii) : bool := in_class 48 57 (code c).

Fixpoint all_digits (s : string) : bool :=
  match s with
  | EmptyString => true
  | String c r => is_ascii_digit c && all_digits r
  end.

(** The number a text of ASCII digits reads as. *)
Fixpoint number_from (acc : Z) (s : string) : Z :=
  match s with
  | EmptyString => acc
  | String c r => number_from (10 * acc + (code c - 48)) r
  end.

Definition number_of (s : string) : Z := number_from 0 s.

(** The text is [width] ASCII digits that read as [n]. *)
Definition renders (text : string) (width : nat) (n : Z) : Prop :=
  String.length text = width /\ all_digits text = true /\ number_of text = n.

(** The number of digits of a year, as [%Y] prints it. *)
Definition year_width (y : Z) : nat :=
  if y <? 10 then 1 else if y <? 100 then 2 else if y <? 1000 then 3 else 4.

(** The decimal text of the year has the width of the year and reads as
    the year. *)
Definition year_printed (y : Z) : bool :=
  (String.length (decimal y) =? year_width y)%nat
  && all_digits (decimal y) && (number_of (decimal y) =? y).

(** The destination name of a country for a window. *)
Definition output_name (country : string) (start_date end_date : datetime)
    : string :=
  country +:+ "_" +:+ strftime_dmY start_date +:+ "_"
  +:+ strftime_dmY end_date +:+ ".txt".

(** [DD-MM-YYYY]: day and month on two digits, the year on four. *)
Definition dd_mm_yyyy (d : datetime) : string :=
  two_digits (day d) +:+ "-" +:+ two_digits (month d) +:+ "-"
  +:+ four_digits (year d).

(** The name [{country}_{start:DD-MM-YYYY}_{end:DD-MM-YYYY}.txt]. *)
Definition dd_mm_yyyy_name (country : string) (start_date end_date : datetime)
    : string :=
  country +:+ "_" +:+ dd_mm_yyyy start_date +:+ "_"
  +:+ dd_mm_yyyy end_date +:+ ".txt".

(** ** Requests and answers *)

(** The status codes [raise_for_status] raises on. *)
Definition error_status (status_code : Z) : bool :=
  (400 <=? status_code) && (status_code <? 600).

(** A failure the script detects: the request raised, the status is an
    error status (400 to 599), or the body is no JSON. *)
Definition transport_failure (o : http_outcome) : Prop :=
  match o with
  | GetRaises _ => True
  | Response status_code body =>
      error_status status_code = true \/ exists e, body = Raise e
  end.

(** A status of the success class, 200 to 299. *)
Definition status_2xx (status_code : Z) : bool :=
  (200 <=? status_code) && (status_code <? 300).

(** A transport- or protocol-level failure: a connection error, a status
    that is not 2xx, or a malformed response body. *)
Definition protocol_failure (o : http_outcome) : Prop :=
  match o with
  | GetRaises _ => True
  | Response status_code body =>
      status_2xx status_code = false \/ exists e, body = Raise e
  end.

(** What a decoded body holds under [response.holidays], as the items the
    accumulator is extended with. *)
Definition holidays_of_body (data : pyval) : list pyval :=
  match lookup_path ["response"; "holidays"] data with
  | Some v => match iterate v with Ok items => items | Raise _ => [] end
  | None => []
  end.

(** What one call of the Fetcher returns, by the outcome of its request. *)
Definition holidays_of (o : http_outcome) : list pyval :=
  match o with
  | GetRaises _ => []
  | Response status_code body =>
      if error_status status_code then []
      else match body with
           | Ok data => holidays_of_body data
           | Raise _ => []
           end
  end.

(** The outcomes of the requests for [years], the first being the [n]-th
    request of the run. *)
Fixpoint outcomes (http : nat -> string -> Z -> http_outcome)
    (country : string) (years : list Z) (n : nat) : list http_outcome :=
  match years with
  | [] => []
  | y :: rest => http n country y :: outcomes http country rest (S n)
  end.

(** The line a handler of the Fetcher prints for [e]: the clauses are tried
    in the order [HTTPError], [RequestException], [Exception]. *)
Definition fetch_failure (e : exn) : message :=
  if is_HTTPError e then MsgHTTPError e
  else if is_RequestException e then MsgRequestError e
  else MsgFetchUnexpected e.

(** The exception a detected failure raises inside the [try] block. *)
Definition failure_of (o : http_outcome) : option exn :=
  match o with
  | GetRaises e => Some e
  | Response status_code body =>
      if error_status status_code then Some (HTTPError status_code)
      else match body with
           | Raise e => Some e
           | Ok _ => None
           end
  end.

(** ** Text files *)

(** The character occurs in the text. *)
Fixpoint mentions (c : ascii) (s : string) : bool :=
  match s with
  | EmptyString => false
  | String a r => Ascii.eqb a c || mentions c r
  end.

(** The lines of a text, each ended by a line feed (a last line may lack
    it). *)
Fixpoint lines (s : string) : list string :=
  match s with
  | EmptyString => []
  | String c r =>
      if Ascii.eqb c LF then EmptyString :: lines r
      else match lines r with
           | [] => [String c EmptyString]
           | l :: ls => String c l :: ls
           end
  end.

(** The text made of the given lines, each ended by a line feed. *)
Fixpoint unlines (texts : list string) : string :=
  match texts with
  | [] => EmptyString
  | t :: rest => (t +:+ String LF "") +:+ unlines rest
  end.

(** The line the Writer prints when it gives up on [e]. *)
Definition write_failure (filename : string) (e : exn) : message :=
  if is_IOError e then MsgWriteFailed filename e else MsgSaveUnexpected e.

(** Every character of the text is a printable ASCII character. *)
Fixpoint printable (s : string) : bool :=
  match s with
  | EmptyString => true
  | String c r => in_class 32 126 (code c) && printable r
  end.

(** Every character of the text is printable ASCII or a line feed. *)
Fixpoint ascii_text (s : string) : bool :=
  match s with
  | EmptyString => true
  | String c r => (Ascii.eqb c LF || in_class 32 126 (code c)) && ascii_text r
  end.

(** ** Reading JSON

    What a JSON text denotes is said by a reader written from the grammar
    of JSON (with the three literals [NaN], [Infinity], [-Infinity] of
    Python), not from the encoder. *)

Definition is_ws (c : ascii) : bool :=
  let n := code c in (n =? 32) || (n =? 9) || (n =? 10) || (n =? 13).

Fixpoint skip_ws (s : string) : string :=
  match s with
  | EmptyString => EmptyString
  | String c r => if is_ws c then skip_ws r else s
  end.

(** The text after [p], when the text starts with [p]. *)
Fixpoint strip_prefix (p s : string) : option string :=
  match p, s with
  | EmptyString, _ => Some s
  | String a p', String b s' =>
      if Ascii.eqb a b then strip_prefix p' s' else None
  | String _ _, EmptyString => None
  end.

Definition hex_value (c : ascii) : option Z :=
  let n := code c in
  if in_class 48 57 n then Some (n - 48)
  else if in_class 97 102 n then Some (n - 87)
  else if in_class 65 70 n then Some (n - 55)
  else None.

(** The character a two-character escape stands for. *)
Definition short_escape (c : ascii) : option ascii :=
  let n := code c in
  if n =? 34 then Some QUOTE
  else if n =? 92 then Some BACKSLASH
  else if n =? 47 then Some "/"%char
  else if n =? 98 then Some (ascii_of_nat 8)
  else if n =? 102 then Some (ascii_of_nat 12)
  else if n =? 110 then Some LF
  else if n =? 114 then Some (ascii_of_nat 13)
  else if n =? 116 then Some (ascii_of_nat 9)
  else None.

Definition push (c : ascii) (r : option (string * string))
    : option (string * string) :=
  match r with
  | Some (text, rest) => Some (String c text, rest)
  | None => None
  end.

(** A string literal after its opening quote: the characters it denotes and
    the text after its closing quote.  A [\uXXXX] escape must denote a code
    point below 256. *)
Fixpoint read_string (s : string) : option (string * string) :=
  match s with
  | EmptyString => None
  | String c r =>
      if code c =? 34 then Some (EmptyString, r)
      else if code c =? 92 then
        match r with
        | EmptyString => None
        | String e r' =>
            if code e =? 117 then
              match r' with
              | String h1 (String h2 (String h3 (String h4 r''))) =>
                  match hex_value h1, hex_value h2, hex_value h3,
                        hex_value h4 with
                  | Some a, Some b, Some c', Some d =>
                      let n := ((a * 16 + b) * 16 + c') * 16 + d in
                      if n <? 256
                      then push (ascii_of_N (Z.to_N n)) (read_string r'')
                      else None
                  | _, _, _, _ => None
                  end
              | _ => None
              end
            else match short_escape e with
                 | Some ch => push ch (read_string r')
                 | None => None
                 end
        end
      else if code c <? 32 then None
      else push c (read_string r)
  end.

(** The characters a number is written with. *)
Definition number_char (c : ascii) : bool :=
  let n := code c in
  in_class 48 57 n || (n =? 45) || (n =? 43) || (n =? 46) || (n =? 101)
  || (n =? 69).

(** The longest prefix of number characters, and the rest. *)
Fixpoint read_token (s : string) : string * string :=
  match s with
  | EmptyString => (EmptyString, EmptyString)
  | String c r =>
      if number_char c
      then let (t, rest) := read_token r in (String c t, rest)
      else (EmptyString, s)
  end.

Fixpoint number_text (s : string) : bool :=
  match s with
  | EmptyString => true
  | String c r => number_char c && number_text r
  end.

(** A number with a fraction or an exponent *)
Definition is_float_token (t : string) : bool :=
  mentions "." t || mentions "e" t || mentions "E" t.

(** A number: an integer in canonical decimal form (or [-0]), else a
    float, read by [float_parse], Python's [float]. *)
Definition read_number (float_parse : string -> option spec_float)
    (s : string) : option (pyval * string) :=
  let (t, rest) := read_token s in
  if is_float_token t
  then match float_parse t with
       | Some f => Some (VFloat f, rest)
       | None => None
       end
  else match NilEmpty.int_of_string t with
       | Some i =>
           if String.eqb (decimal (Z.of_int i)) t
           then Some (VInt (Z.of_int i), rest)
           else if String.eqb t "-0" then Some (VInt 0, rest)
           else None
       | None => None
       end.

Definition read_literal (s : string) : option (pyval * string) :=
  match strip_prefix "null" s with
  | Some r => Some (VNone, r)
  | None =>
  match strip_prefix "true" s with
  | Some r => Some (VBool true, r)
  | None =>
  match strip_prefix "false" s with
  | Some r => Some (VBool false, r)
  | None =>
  match strip_prefix "NaN" s with
  | Some r => Some (VFloat S754_nan, r)
  | None =>
  match strip_prefix "Infinity" s with
  | Some r => Some (VFloat (S754_infinity false), r)
  | None =>
  match strip_prefix "-Infinity" s with
  | Some r => Some (VFloat (S754_infinity true), r)
  | None => None
  end end end end end end.

(** The items of an array after its opening bracket, up to the closing
    bracket; [read] reads one value. *)
Fixpoint read_items (read : string -> option (pyval * string)) (fuel : nat)
    (s : string) : option (list pyval * string) :=
  match fuel with
  | O => None
  | S fuel' =>
      match read (skip_ws s) with
      | None => None
      | Some (v, r) =>
          match skip_ws r with
          | EmptyString => None
          | String c r' =>
              if code c =? 44
              then match read_items read fuel' r' with
                   | Some (vs, rest) => Some (v :: vs, rest)
                   | None => None
                   end
              else if code c =? 93 then Some ([v], r')
              else None
          end
      end
  end.

(** The members of an object after its opening brace, up to the closing
    brace. *)
Fixpoint read_members (read : string -> option (pyval * string)) (fuel : nat)
    (s : string) : option (list (string * pyval) * string) :=
  match fuel with
  | O => None
  | S fuel' =>
      match skip_ws s with
      | EmptyString => None
      | String q r0 =>
          if negb (code q =? 34) then None
          else
            match read_string r0 with
            | None => None
            | Some (key, r1) =>
                match skip_ws r1 with
                | EmptyString => None
                | String colon r2 =>
                    if negb (code colon =? 58) then None
                    else
                      match read (skip_ws r2) with
                      | None => None
                      | Some (v, r3) =>
                          match skip_ws r3 with
                          | EmptyString => None
                          | String c r4 =>
                              if code c =? 44
                              then match read_members read fuel' r4 with
                                   | Some (kvs, rest) =>
                                       Some ((key, v) :: kvs, rest)
                                   | None => None
                                   end
                              else if code c =? 125
                              then Some ([(key, v)], r4)
                              else None
                          end
                      end
                end
            end
      end
  end.

(** One JSON value at the start of the text, and the text after it. *)
Fixpoint read_value (float_parse : string -> option spec_float) (fuel : nat)
    (s : string) : option (pyval * string) :=
  match fuel with
  | O => None
  | S fuel' =>
      match s with
      | EmptyString => None
      | String c r =>
          if code c =? 34
          then match read_string r with
               | Some (text, rest) => Some (VStr text, rest)
               | None => None
               end
          else if code c =? 91
          then match skip_ws r with
               | EmptyString => None
               | String d r' =>
                   if code d =? 93 then Some (VList [], r')
                   else match read_items (read_value float_parse fuel')
                                         fuel' r with
                        | Some (items, rest) => Some (VList items, rest)
                        | None => None
                        end
               end
          else if code c =? 123
          then match skip_ws r with
               | EmptyString => None
               | String d r' =>
                   if code d =? 125 then Some (VDict [], r')
                   else match read_members (read_value float_parse fuel')
                                           fuel' r with
                        | Some (entries, rest) => Some (VDict entries, rest)
                        | None => None
                        end
               end
          else match read_literal s with
               | Some vr => Some vr
               | None => read_number float_parse s
               end
      end
  end.

(** [json.loads]: the value the whole text denotes, if it is one JSON
    value. *)
Definition json_loads (float_parse : string -> option spec_float)
    (s : string) : option pyval :=
  match read_value float_parse (S (String.length s)) (skip_ws s) with
  | Some (v, rest) =>
      match skip_ws rest with
      | EmptyString => Some v
      | String _ _ => None
      end
  | None => None
  end.

(** The head of a number: a digit or a minus sign. *)
Definition number_head (t : string) : bool :=
  match t with
  | EmptyString => false
  | String c _ => is_ascii_digit c || (code c =? 45)
  end.

(** The text of an integer: digits, after a minus sign for a negative
    number; at least one digit. *)
Definition int_text (t : string) : bool :=
  match t with
  | EmptyString => false
  | String c r =>
      if code c =? 45
      then match r with
           | EmptyString => false
           | String _ _ => all_digits r
           end
      else all_digits t
  end.

(** A value is followed by the end of the text, a comma or a closing
    bracket or brace. *)
Definition delimited (rest : string) : bool :=
  match rest with
  | EmptyString => true
  | String c _ => (code c =? 44) || (code c =? 93) || (code c =? 125)
  end.

(** The text starts with a character that is no white space and closes
    nothing. *)
Definition value_head (t : string) : bool :=
  match t with
  | EmptyString => false
  | String c _ =>
      negb (is_ws c) && negb (code c =? 93) && negb (code c =? 125)
  end.

(** The texts of the members of an object, from the texts of their
    values. *)
Definition member_texts (entries : list (string * pyval))
    (texts : list string) : list string :=
  map (fun p => encode_basestring_ascii (fst (fst p)) +:+ ": " +:+ snd p)
      (combine entries texts).

(** The text of a finite float: it starts with a digit or a minus sign, is
    made of number characters and has a fraction or an exponent. *)
Definition float_text (t : string) : bool :=
  number_head t && number_text t && is_float_token t.

(** [float(repr(f)) == f], and [repr(f)] is the text of a number: the
    contract of [float.__repr__].  Nothing is asked of [nan] and the
    infinities, which [json] writes itself. *)
Definition float_round_trips (float_repr : spec_float -> string)
    (float_parse : string -> option spec_float) (f : spec_float) : Prop :=
  match f with
  | S754_nan | S754_infinity _ => True
  | _ => float_text (float_repr f) = true /\
         float_parse (float_repr f) = Some f
  end.

(** The floats inside a value. *)
Fixpoint floats_of (v : pyval) : list spec_float :=
  match v with
  | VFloat f => [f]
  | VList items => flat_map floats_of items
  | VDict entries => flat_map (fun kv => floats_of (snd kv)) entries
  | _ => []
  end.

(** The fuel that reading a value back takes. *)
Fixpoint weight (v : pyval) : nat :=
  match v with
  | VList items => S (length items + list_sum (map weight items))
  | VDict entries =>
      S (length entries + list_sum (map (fun kv => weight (snd kv)) entries))
  | _ => 1
  end.

(** What reading back one value means: the text starts with a value
    character and, followed by a delimiter, is read as the value. *)
Definition reads_back (read : string -> option (pyval * string)) (v : pyval)
    (t : string) : Prop :=
  value_head t = true /\
  forall rest, delimited rest = true -> read (t +:+ rest) = Some (v, rest).

(** The text is read back as the value, whatever follows it and with any
    fuel above the weight of the value, given the contract of [repr] on the
    floats inside. *)
Definition read_back (float_repr : spec_float -> string)
    (float_parse : string -> option spec_float) (v : pyval) (text : string)
    : Prop :=
  (forall f, In f (floats_of v) ->
             float_round_trips float_repr float_parse f) ->
  value_head text = true /\
  (weight v <= String.length text)%nat /\
  forall fuel rest,
    (weight v <= fuel)%nat -> delimited rest = true ->
    read_value float_parse fuel (text +:+ rest) = Some (v, rest).

(* ===================================================================== *)
(** * Sample data *)
(* ===================================================================== *)

(** A provider record, as far as the script reads it. *)
Definition holiday_record (name : string) (vy vm vd : pyval) : pyval :=
  VDict [("name", VStr name);
         ("date", VDict [("iso", VStr name);
                         ("datetime", VDict [("year", vy); ("month", vm);
                                             ("day", vd)])])].

Definition holiday_on (name : string) (y m d : Z) : pyval :=
  holiday_record name (VInt y) (VInt m) (VInt d).

Definition midnight (y m d : Z) : datetime := mk_datetime y m d 0 0 0 0.

Definition empty_world : world := mk_world [] [] [] ∅ 0.

(** The boundary days of the window 2023-01-01 .. 2023-01-02. *)
Definition boundary_sample : list pyval :=
  [holiday_on "eve" 2022 12 31; holiday_on "first" 2023 1 1;
   holiday_on "second" 2023 1 2; holiday_on "third" 2023 1 3].

(** The provider cannot be reached. *)
Definition unreachable (n : nat) (country : string) (year : Z)
    : http_outcome :=
  GetRaises RequestException.

(** The provider answers 200 with a body that has no [response] key. *)
Definition bare_answer (n : nat) (country : string) (year : Z)
    : http_outcome :=
  Response 200 (Ok (VDict [("meta", VDict [("code", VInt 200)])])).

(** A provider with three holidays in 2023 and two records in 2024, one of
    them without a date. *)
Definition sample_provider (n : nat) (country : string) (year : Z)
    : http_outcome :=
  if year =? 2023
  then Response 200
         (Ok (VDict [("meta", VDict [("code", VInt 200)]);
                     ("response",
                      VDict [("holidays",
                              VList [holiday_on "New Year" 2023 1 1;
                                     holiday_on "Midsummer" 2023 6 15;
                                     holiday_on "Christmas" 2023 12 25])])]))
  else Response 200
         (Ok (VDict [("response",
                      VDict [("holidays",
                              VList [holiday_on "New Year" 2024 1 1;
                                     VDict [("name", VStr "undated")]])])])).

(** The provider answers every request with these holidays. *)
Definition steady_provider (items : list pyval) (n : nat) (country : string)
    (year : Z) : http_outcome :=
  Response 200 (Ok (VDict [("response", VDict [("holidays", VList items)])])).

(** The provider answers with a status outside 200 to 299 that is no error
    status, and a body that holds a holiday. *)
Definition odd_status (status_code : Z) (n : nat) (country : string)
    (year : Z) : http_outcome :=
  Response status_code
    (Ok (VDict [("response",
                 VDict [("holidays", VList [holiday_on "New Year" 2023 1 1])])])).

(** No file operation fails. *)
Definition no_fault (n : nat) : option exn := None.

(** The disk is full from the third file operation on. *)
Definition disk_full (n : nat) : option exn :=
  if (n <? 2)%nat then None else Some OSError.

(** A stand-in for [float.__repr__] and its inverse in examples whose only
    finite float is zero. *)
Definition plain_float_repr (f : spec_float) : string := "0.0".

Definition plain_float_parse (t : string) : option spec_float :=
  if String.eqb t "0.0" then Some (S754_zero false) else None.

(** Unicode tables without a decimal digit above ASCII, and with the
    fullwidth digits only. *)
Definition ascii_digits_only (c : Z) : option Z := None.

Definition fullwidth_digits (c : Z) : option Z :=
  if in_class 65296 65305 c then Some (c - 65296) else None.

(** Every name is its own file; and names resolved by dropping a leading
    [./]. *)
Definition plain_names (name : string) : string := name.

Definition without_dot_slash (name : string) : string :=
  match strip_prefix "./" name with
  | Some r => r
  | None => name
  end.

(** A recursion limit that leaves the encoder a thousand levels. *)
Definition deep : nat := 1000.

(* ===================================================================== *)
(** * Laws of the monad and of worlds *)
(* ===================================================================== *)

(** An exception raised by the first command of a [try] block goes to the
    handlers; else the block goes on under the same handlers. *)
Lemma try_except_bind {A B} (c : M A) (k : A -> M B)
    (handlers : exn -> option (M B)) (w : world) :
  try_except (let* x := c in k x) handlers w
  = match c w with
    | (Ok a, w') => try_except (k a) handlers w'
    | (Raise e, w') =>
        match handlers e with
        | Some h => h w'
        | None => (Raise e, w')
        end
    end.
Proof. unfold try_except, bind. now destruct (c w) as [[a|e] w']. Qed.

Lemma say_nil (w : world) : say [] w = w.
Proof. destruct w; unfold say; cbn. now rewrite app_nil_r. Qed.

Lemma say_say (a b : list message) (w : world) :
  say b (say a w) = say (a ++ b) w.
Proof. unfold say; cbn. now rewrite app_assoc. Qed.

Lemma after_requests_twice (r1 r2 : list request) (m1 m2 : list message)
    (w : world) :
  after_requests r2 m2 (after_requests r1 m1 w)
  = after_requests (r1 ++ r2) (m1 ++ m2) w.
Proof. unfold after_requests; cbn. now rewrite !app_assoc. Qed.

Lemma after_requests_none (w : world) : after_requests [] [] w = w.
Proof. destruct w; unfold after_requests; cbn. now rewrite !app_nil_r. Qed.

(* ===================================================================== *)
(** * Calendar facts *)
(* ===================================================================== *)

Lemma days_before_year_succ (y : Z) :
  days_before_year (y + 1)
  = days_before_year y + 365 + (if is_leap y then 1 else 0).
Proof.
  unfold days_before_year, is_leap.
  replace (y + 1 - 1) with y by lia.
  destruct (Z.eqb_spec (y mod 4) 0), (Z.eqb_spec (y mod 100) 0),
    (Z.eqb_spec (y mod 400) 0); cbn [negb andb orb];
    Z.div_mod_to_equations; lia.
Qed.

Lemma days_before_year_mono (y y' : Z) :
  y <= y' -> days_before_year y <= days_before_year y'.
Proof.
  intros Hle. replace y' with (y + Z.of_nat (Z.to_nat (y' - y))) by lia.
  induction (Z.to_nat (y' - y)) as [|n IH].
  - replace (y + Z.of_nat 0) with y by lia. lia.
  - replace (y + Z.of_nat (S n)) with (y + Z.of_nat n + 1) by lia.
    rewrite days_before_year_succ. destruct (is_leap _); lia.
Qed.

Lemma month_cases (m : Z) :
  1 <= m <= 12 ->
  m = 1 \/ m = 2 \/ m = 3 \/ m = 4 \/ m = 5 \/ m = 6 \/ m = 7 \/ m = 8 \/
  m = 9 \/ m = 10 \/ m = 11 \/ m = 12.
Proof. lia. Qed.

Ltac split_month H :=
  apply month_cases in H;
  repeat (destruct H as [H | H]); subst.

(** The last day of a month is before the first day of the next, and the
    last day of December is the last day of the year. *)
Lemma days_before_month_step (y m : Z) :
  1 <= m <= 12 ->
  days_before_month y m + days_in_month y m
  = if m =? 12 then 365 + (if is_leap y then 1 else 0)
    else days_before_month y (m + 1).
Proof.
  intros Hm. unfold days_before_month, days_in_month.
  split_month Hm; destruct (is_leap y); reflexivity.
Qed.

Lemma days_before_month_mono (y m m' : Z) :
  1 <= m -> m <= m' -> m' <= 12 ->
  days_before_month y m <= days_before_month y m'.
Proof.
  intros H1 Hle H12.
  assert (Hm : 1 <= m <= 12) by lia. assert (Hm' : 1 <= m' <= 12) by lia.
  unfold days_before_month.
  split_month Hm; split_month Hm'; try lia;
    destruct (is_leap y); apply Z.leb_le; reflexivity.
Qed.

Lemma days_in_year_bound (y m : Z) :
  1 <= m <= 12 ->
  days_before_month y m + days_in_month y m
  <= 365 + (if is_leap y then 1 else 0).
Proof.
  intros Hm. rewrite days_before_month_step by exact Hm.
  destruct (Z.eqb_spec m 12) as [->|Hne]; [lia|].
  assert (H12 : days_before_month y 12 + days_in_month y 12
                = 365 + (if is_leap y then 1 else 0))
    by (rewrite days_before_month_step by lia; reflexivity).
  assert (Hmono := days_before_month_mono y (m + 1) 12 ltac:(lia) ltac:(lia) ltac:(lia)).
  assert (days_in_month y 12 = 31) by reflexivity.
  lia.
Qed.

Lemma datetime_le_date_le (a b : datetime) :
  datetime_le a b = true -> date_le a b.
Proof.
  unfold datetime_le, datetime_cmp, fields, date_le. cbn [lex_compare].
  destruct (Z.compare_spec (year a) (year b)); [|lia|discriminate].
  destruct (Z.compare_spec (month a) (month b)); [|lia|discriminate].
  destruct (Z.compare_spec (day a) (day b)); [lia|lia|discriminate].
Qed.

Lemma lex_compare_refl (l : list Z) : lex_compare l l = Eq.
Proof. induction l as [|x l IH]; cbn; [|rewrite Z.compare_refl]; auto. Qed.

Lemma datetime_le_refl (a : datetime) : datetime_le a a = true.
Proof. unfold datetime_le, datetime_cmp. now rewrite lex_compare_refl. Qed.

(** The ordinal is monotone along the comparison of dates. *)
Lemma toordinal_mono (a b : datetime) :
  valid_date a -> valid_date b -> date_le a b -> toordinal a <= toordinal b.
Proof.
  unfold valid_date, MINYEAR, MAXYEAR, toordinal.
  intros (Hya & Hma & Hda) (Hyb & Hmb & Hdb) [Hy | [Hy [Hm | [Hm Hd]]]].
  - assert (Hb := days_in_year_bound (year a) (month a) Hma).
    assert (Hs := days_before_year_succ (year a)).
    assert (Hmono := days_before_year_mono (year a + 1) (year b) ltac:(lia)).
    assert (0 <= days_before_month (year b) (month b)).
    { assert (H1 := days_before_month_mono (year b) 1 (month b)
                      ltac:(lia) ltac:(lia) ltac:(lia)).
      change (days_before_month (year b) 1) with 0 in H1. lia. }
    lia.
  - rewrite <- Hy in *.
    assert (Hs := days_before_month_step (year a) (month a) Hma).
    destruct (Z.eqb_spec (month a) 12); [lia|].
    assert (Hmono := days_before_month_mono (year a) (month a + 1) (month b)
                       ltac:(lia) ltac:(lia) ltac:(lia)).
    lia.
  - rewrite Hy, Hm. lia.
Qed.

Lemma days_in_month_bound (y m : Z) : days_in_month y m <= 31.
Proof.
  unfold days_in_month.
  destruct ((m =? 2) && is_leap y); [lia|].
  destruct (Z.to_nat m) as [|[|[|[|[|[|[|[|[|[|[|[|[|k]]]]]]]]]]]]];
    cbn; try lia. destruct k; cbn; lia.
Qed.

Example new_year_eve :
  day_before (midnight 2022 12 31) (midnight 2023 1 1).
Proof. repeat split; vm_compute; congruence. Qed.

Example leap_day :
  day_before (midnight 2024 2 29) (midnight 2024 3 1) /\
  day_before (midnight 2023 2 28) (midnight 2023 3 1).
Proof. repeat split; vm_compute; congruence. Qed.

(* ===================================================================== *)
(** * Digits and ranges *)
(* ===================================================================== *)

Lemma range_length (a b : Z) : length (range a b) = Z.to_nat (b - a).
Proof. unfold range. now rewrite length_map, length_seq. Qed.

Lemma range_nth (a b : Z) (i : nat) :
  (i < length (range a b))%nat -> nth i (range a b) 0 = a + Z.of_nat i.
Proof.
  rewrite range_length. intros Hi. unfold range.
  rewrite (nth_indep _ 0 (a + Z.of_nat 0)) by now rewrite length_map, length_seq.
  rewrite (map_nth (fun i => a + Z.of_nat i)), seq_nth by exact Hi.
  reflexivity.
Qed.

Lemma range_In (a b y : Z) : In y (range a b) <-> a <= y < b.
Proof.
  unfold range. rewrite in_map_iff. split.
  - intros (i & <- & Hi). apply in_seq in Hi. lia.
  - intros Hy. exists (Z.to_nat (y - a)). split; [lia|].
    apply in_seq. lia.
Qed.


Lemma digit_char_code (n : Z) : code (digit_char n) = 48 + n mod 10.
Proof.
  unfold code, digit_char.
  assert (0 <= n mod 10 < 10) by (apply Z.mod_pos_bound; lia).
  rewrite N_ascii_embedding by lia. lia.
Qed.

Lemma digit_char_is_digit (n : Z) : is_ascii_digit (digit_char n) = true.
Proof.
  unfold is_ascii_digit, in_class. rewrite digit_char_code.
  assert (0 <= n mod 10 < 10) by (apply Z.mod_pos_bound; lia).
  apply andb_true_iff. split; apply Z.leb_le; lia.
Qed.

Lemma two_digits_renders (n : Z) : 0 <= n < 100 -> renders (two_digits n) 2 n.
Proof.
  intros Hn. unfold renders, two_digits, number_of.
  cbn [String.length all_digits number_from].
  rewrite !digit_char_is_digit, !digit_char_code.
  repeat split. Z.div_mod_to_equations. lia.
Qed.

Lemma four_digits_renders (n : Z) :
  0 <= n < 10000 -> renders (four_digits n) 4 n.
Proof.
  intros Hn. unfold renders, four_digits, number_of.
  cbn [String.length all_digits number_from].
  rewrite !digit_char_is_digit, !digit_char_code.
  repeat split. Z.div_mod_to_equations. lia.
Qed.

Lemma code_inj (a b : ascii) : code a = code b -> a = b.
Proof.
  unfold code. intros H. apply N2Z.inj in H.
  rewrite <- (ascii_N_embedding a), <- (ascii_N_embedding b). now rewrite H.
Qed.

Lemma code_range (a : ascii) : 0 <= code a < 256.
Proof. unfold code. pose proof (N_ascii_bounded a). lia. Qed.

(** An ASCII digit has its value in every table. *)
Lemma decimal_value_ascii (unicode_decimal : Z -> option Z) (c : Z) :
  48 <= c <= 57 -> decimal_value unicode_decimal c = Some (c - 48).
Proof.
  intros Hc. unfold decimal_value, in_class.
  destruct (Z.leb_spec 48 c); [|lia]. destruct (Z.leb_spec c 57); [|lia].
  reflexivity.
Qed.

(** Below 128 only the ASCII digits are decimal digits. *)
Lemma decimal_value_below_128 (unicode_decimal : Z -> option Z) (c v : Z) :
  c < 128 -> decimal_value unicode_decimal c = Some v ->
  48 <= c <= 57 /\ v = c - 48.
Proof.
  intros Hc. unfold decimal_value, in_class.
  destruct (Z.leb_spec 48 c), (Z.leb_spec c 57); cbn [andb];
    try (destruct (Z.ltb_spec c 128); [discriminate|lia]).
  intros [= <-]. lia.
Qed.

(** The year as [%Y] prints it: its decimal digits, as many as it has;
    checked on the years of [datetime]. *)
Lemma decimal_year_renders (y : Z) :
  MINYEAR <= y <= MAXYEAR -> renders (decimal y) (year_width y) y.
Proof.
  unfold MINYEAR, MAXYEAR. intros Hy.
  assert (Hall : forallb year_printed (range 1 10000) = true)
    by (vm_compute; reflexivity).
  rewrite forallb_forall in Hall.
  specialize (Hall y ltac:(apply range_In; lia)).
  unfold year_printed in Hall.
  apply andb_true_iff in Hall as [Hall Hn].
  apply andb_true_iff in Hall as [Hl Hd].
  apply Nat.eqb_eq in Hl. apply Z.eqb_eq in Hn.
  unfold renders. auto.
Qed.

(* ===================================================================== *)
(** * Texts *)
(* ===================================================================== *)

Lemma append_cons (c : ascii) (a b : string) :
  String c a +:+ b = String c (a +:+ b).
Proof. reflexivity. Qed.

Lemma append_nil_l (b : string) : "" +:+ b = b.
Proof. reflexivity. Qed.

Lemma append_nil_r (s : string) : s +:+ "" = s.
Proof.
  induction s as [|c s IH]; [reflexivity|]. now rewrite append_cons, IH.
Qed.

Lemma append_assoc (a b c : string) : (a +:+ b) +:+ c = a +:+ (b +:+ c).
Proof.
  induction a as [|x a IH]; [reflexivity|]. now rewrite !append_cons, IH.
Qed.

Lemma length_append (a b : string) :
  String.length (a +:+ b) = (String.length a + String.length b)%nat.
Proof.
  induction a as [|x a IH]; [reflexivity|].
  rewrite append_cons. cbn [String.length]. now rewrite IH.
Qed.

Lemma codes_append (a b : string) : codes (a +:+ b) = codes a ++ codes b.
Proof.
  induction a as [|x a IH]; [reflexivity|].
  rewrite append_cons. cbn [codes app]. now rewrite IH.
Qed.

Lemma codes_inj (a b : string) : codes a = codes b -> a = b.
Proof.
  revert b. induction a as [|x a IH]; intros [|y b] H; try discriminate H.
  - reflexivity.
  - cbn [codes] in H. injection H as Hc Hr.
    now rewrite (code_inj _ _ Hc), (IH b Hr).
Qed.

Lemma mentions_append (c : ascii) (a b : string) :
  mentions c (a +:+ b) = mentions c a || mentions c b.
Proof.
  induction a as [|x a IH]; [reflexivity|].
  rewrite append_cons. cbn [mentions]. now rewrite IH, orb_assoc.
Qed.

(** Two texts that end in suffixes of one length are equal part by part. *)
Lemma append_eq_suffix (a1 a2 b1 b2 : string) :
  String.length b1 = String.length b2 ->
  a1 +:+ b1 = a2 +:+ b2 -> a1 = a2 /\ b1 = b2.
Proof.
  intros Hlen. revert a2. induction a1 as [|x a1 IH]; intros [|y a2] Heq.
  - now rewrite !append_nil_l in Heq.
  - apply (f_equal String.length) in Heq.
    rewrite append_nil_l, length_append in Heq. cbn [String.length] in Heq.
    lia.
  - apply (f_equal String.length) in Heq.
    rewrite append_nil_l, length_append in Heq. cbn [String.length] in Heq.
    lia.
  - rewrite !append_cons in Heq. injection Heq as -> Heq.
    destruct (IH a2 Heq) as [-> ->]. auto.
Qed.

(** Two texts that start with prefixes of one length are equal part by
    part. *)
Lemma append_eq_prefix (a1 a2 b1 b2 : string) :
  String.length a1 = String.length a2 ->
  a1 +:+ b1 = a2 +:+ b2 -> a1 = a2 /\ b1 = b2.
Proof.
  revert a2. induction a1 as [|x a1 IH]; intros [|y a2] Hlen Heq;
    try discriminate Hlen.
  - now rewrite !append_nil_l in Heq.
  - rewrite !append_cons in Heq. injection Heq as -> Heq.
    cbn [String.length] in Hlen. injection Hlen as Hlen.
    destruct (IH a2 Hlen Heq) as [-> ->]. auto.
Qed.

(** Two texts cut at the last place of a character are equal part by
    part. *)
Lemma append_eq_last (c : ascii) (a1 a2 b1 b2 : string) :
  mentions c b1 = false -> mentions c b2 = false ->
  a1 +:+ String c b1 = a2 +:+ String c b2 -> a1 = a2 /\ b1 = b2.
Proof.
  intros H1 H2. revert a2. induction a1 as [|x a1 IH]; intros [|y a2] Heq.
  - rewrite !append_nil_l in Heq. now injection Heq as ->.
  - rewrite append_nil_l, append_cons in Heq. injection Heq as <- Heq.
    rewrite Heq, mentions_append in H1. cbn [mentions] in H1.
    rewrite Ascii.eqb_refl, orb_true_r in H1. discriminate.
  - rewrite append_nil_l, append_cons in Heq. injection Heq as -> Heq.
    rewrite <- Heq, mentions_append in H2. cbn [mentions] in H2.
    rewrite Ascii.eqb_refl, orb_true_r in H2. discriminate.
  - rewrite !append_cons in Heq. injection Heq as -> Heq.
    destruct (IH a2 Heq) as [-> ->]. auto.
Qed.
(** * The Filter *)
(* ===================================================================== *)

(** One iteration of the loop of the Filter. *)
Lemma filter_step (start_date end_date : datetime) (acc : list pyval)
    (holiday : pyval) (w : world) :
  try_except
    (let* holiday_date := lift (holiday_datetime holiday) in
     if datetime_le start_date holiday_date
        && datetime_le holiday_date end_date
     then ret (acc ++ [holiday])
     else ret acc)
    (fun err =>
       if is_KeyError err
       then Some (let* _ := print (MsgMissingKey err) in ret acc)
       else Some (let* _ := print (MsgProcessingError err) in ret acc)) w
  = (Ok (acc ++ List.filter (in_window start_date end_date) [holiday]),
     say (skip_report holiday) w).
Proof.
  unfold try_except, bind, lift, in_window, skip_report. cbn [List.filter].
  destruct (holiday_datetime holiday) as [d|e].
  - rewrite say_nil.
    destruct (datetime_le start_date d && datetime_le d end_date);
      unfold ret; now rewrite ?app_nil_r.
  - rewrite app_nil_r. destruct (is_KeyError e); reflexivity.
Qed.

Lemma filter_loop (start_date end_date : datetime) (holidays acc : list pyval)
    (w : world) :
  for_each holidays acc (fun filtered_holidays holiday =>
    try_except
      (let* holiday_date := lift (holiday_datetime holiday) in
       if datetime_le start_date holiday_date
          && datetime_le holiday_date end_date
       then ret (filtered_holidays ++ [holiday])
       else ret filtered_holidays)
      (fun err =>
         if is_KeyError err
         then Some (let* _ := print (MsgMissingKey err) in
                    ret filtered_holidays)
         else Some (let* _ := print (MsgProcessingError err) in
                    ret filtered_holidays))) w
  = (Ok (acc ++ List.filter (in_window start_date end_date) holidays),
     say (flat_map skip_report holidays) w).
Proof.
  revert acc w. induction holidays as [|h hs IH]; intros acc w.
  - cbn. now rewrite app_nil_r, say_nil.
  - cbn [for_each]. unfold bind at 1. rewrite filter_step.
    rewrite IH, say_say, <- app_assoc. cbn [List.filter flat_map].
    destruct (in_window start_date end_date h); reflexivity.
Qed.

(** The Filter as a function: the records in the window, in their order,
    and one report per record skipped. *)
Lemma filter_holidays_by_date_run (holidays : list pyval)
    (start_date end_date : datetime) (w : world) :
  filter_holidays_by_date holidays start_date end_date w
  = (Ok (List.filter (in_window start_date end_date) holidays),
     say (flat_map skip_report holidays) w).
Proof. unfold filter_holidays_by_date. now rewrite filter_loop. Qed.

(** The subscript chain of one field follows [lookup_path]. *)
Lemma subscript_chain (name : string) (holiday : pyval) :
  match date_field name holiday with
  | Some v =>
      rbind (rbind (getitem holiday "date") (fun d => getitem d "datetime"))
            (fun dt => getitem dt name) = Ok v
  | None =>
      exists e,
        rbind (rbind (getitem holiday "date") (fun d => getitem d "datetime"))
              (fun dt => getitem dt name) = Raise e
  end.
Proof.
  unfold date_field. cbn [lookup_path].
  destruct holiday; cbn; eauto.
  destruct (assoc "date" entries) as [d|]; cbn; eauto.
  destruct d; cbn; eauto.
  destruct (assoc "datetime" entries0) as [dt|]; cbn; eauto.
  destruct dt; cbn; eauto.
  destruct (assoc name entries1); cbn; eauto.
Qed.

Lemma subscript_chain_some (name : string) (holiday v : pyval) :
  date_field name holiday = Some v ->
  rbind (rbind (getitem holiday "date") (fun d => getitem d "datetime"))
        (fun dt => getitem dt name) = Ok v.
Proof. intros H. pose proof (subscript_chain name holiday) as Hc. now rewrite H in Hc. Qed.

Lemma subscript_chain_none (name : string) (holiday : pyval) :
  date_field name holiday = None ->
  exists e,
    rbind (rbind (getitem holiday "date") (fun d => getitem d "datetime"))
          (fun dt => getitem dt name) = Raise e.
Proof. intros H. pose proof (subscript_chain name holiday) as Hc. now rewrite H in Hc. Qed.

Lemma holiday_datetime_fields (holiday vy vm vd : pyval) :
  date_field "year" holiday = Some vy ->
  date_field "month" holiday = Some vm ->
  date_field "day" holiday = Some vd ->
  holiday_datetime holiday = datetime_new vy vm vd.
Proof.
  intros Hy Hm Hd. unfold holiday_datetime.
  rewrite (subscript_chain_some _ _ _ Hy), (subscript_chain_some _ _ _ Hm),
    (subscript_chain_some _ _ _ Hd). reflexivity.
Qed.

Lemma holiday_datetime_lacking (holiday : pyval) :
  lacks_date_field holiday -> exists e, holiday_datetime holiday = Raise e.
Proof.
  unfold holiday_datetime. intros Hlack.
  pose proof (subscript_chain "year" holiday) as Hy.
  pose proof (subscript_chain "month" holiday) as Hm.
  pose proof (subscript_chain "day" holiday) as Hd.
  destruct (date_field "year" holiday) as [vy|] eqn:Ey;
    [rewrite Hy | destruct Hy as [e ->]; cbn; eauto].
  destruct (date_field "month" holiday) as [vm|] eqn:Em;
    [rewrite Hm | destruct Hm as [e ->]; cbn; eauto].
  destruct (date_field "day" holiday) as [vd|] eqn:Ed;
    [|destruct Hd as [e ->]; cbn; eauto].
  destruct Hlack as [H | [H | H]]; congruence.
Qed.

(** The constructor returns a valid date at midnight when it returns. *)
Lemma datetime_new_valid (vy vm vd : pyval) (d : datetime) :
  datetime_new vy vm vd = Ok d -> valid_date d /\ at_midnight d.
Proof.
  unfold datetime_new, check_date_args, valid_date, at_midnight.
  destruct (as_c_int vy) as [y|]; [cbn [rbind]|discriminate].
  destruct (as_c_int vm) as [m|]; [cbn [rbind]|discriminate].
  destruct (as_c_int vd) as [dd|]; [cbn [rbind]|discriminate].
  destruct (Z.leb_spec MINYEAR y), (Z.leb_spec y MAXYEAR);
    cbn [negb andb rbind]; try discriminate.
  destruct (Z.leb_spec 1 m), (Z.leb_spec m 12);
    cbn [negb andb rbind]; try discriminate.
  destruct (Z.leb_spec 1 dd), (Z.leb_spec dd (days_in_month y m));
    cbn [negb andb rbind]; try discriminate.
  intros [= <-]. cbn [year month day hour minute second microsecond]. lia.
Qed.

Lemma datetime_new_not_KeyError (vy vm vd : pyval) (e : exn) :
  datetime_new vy vm vd = Raise e -> is_KeyError e = false.
Proof.
  unfold datetime_new, check_date_args, as_c_int.
  repeat (cbn [rbind];
          match goal with
          | |- context [match ?v with VNone => _ | _ => _ end] => destruct v
          | |- context [if ?b then _ else _] => destruct b
          end);
    cbn [rbind]; intros H; try discriminate H;
    injection H as <-; reflexivity.
Qed.

Lemma holiday_datetime_valid (holiday : pyval) (d : datetime) :
  holiday_datetime holiday = Ok d -> valid_date d /\ at_midnight d.
Proof.
  unfold holiday_datetime.
  destruct (rbind (rbind (getitem holiday "date") _) (fun dt => getitem dt "year"));
    [cbn [rbind]|discriminate].
  destruct (rbind (rbind (getitem holiday "date") _) (fun dt => getitem dt "month"));
    [cbn [rbind]|discriminate].
  destruct (rbind (rbind (getitem holiday "date") _) (fun dt => getitem dt "day"));
    [cbn [rbind]|discriminate].
  apply datetime_new_valid.
Qed.

Lemma in_window_true (s e : datetime) (h : pyval) :
  in_window s e h = true <->
  exists d, holiday_datetime h = Ok d /\
            datetime_le s d = true /\ datetime_le d e = true.
Proof.
  unfold in_window. destruct (holiday_datetime h) as [d|err].
  - rewrite andb_true_iff. split; [eauto|]. now intros (d' & [= <-] & H).
  - split; [discriminate|]. now intros (d' & [=] & _).
Qed.

Lemma skip_report_in_window (s e : datetime) (h : pyval) :
  in_window s e h = true -> skip_report h = [].
Proof.
  unfold in_window, skip_report. now destruct (holiday_datetime h).
Qed.

(** C1: for every list of records and every window with start <= end, the
    Filter returns exactly the records whose resolved date [d] satisfies
    start <= d <= end, in their order; a record dated exactly start or
    exactly end is kept, one dated the day before start or the day after end
    is dropped. *)
Theorem filter_keeps_inclusive_window (holidays : list pyval)
    (start_date end_date : datetime) (w : world) :
  datetime_le start_date end_date = true ->
  exists kept,
    fst (filter_holidays_by_date holidays start_date end_date w) = Ok kept /\
    kept = List.filter (in_window start_date end_date) holidays /\
    (forall h, In h kept <->
       In h holidays /\
       exists d, holiday_datetime h = Ok d /\
                 datetime_le start_date d = true /\
                 datetime_le d end_date = true) /\
    (forall h d, In h holidays -> holiday_datetime h = Ok d ->
       (d = start_date -> In h kept) /\
       (d = end_date -> In h kept) /\
       (day_before d start_date -> ~ In h kept) /\
       (day_before end_date d -> ~ In h kept)).
Proof.
  intros Hse. rewrite filter_holidays_by_date_run. cbn [fst].
  eexists; split; [reflexivity|]. split; [reflexivity|].
  assert (Hin : forall h,
    In h (List.filter (in_window start_date end_date) holidays) <->
    In h holidays /\
    exists d, holiday_datetime h = Ok d /\
              datetime_le start_date d = true /\ datetime_le d end_date = true).
  { intros h. now rewrite filter_In, in_window_true. }
  split; [exact Hin|].
  intros h d Hh Hd. repeat split.
  - intros ->. apply Hin. split; [exact Hh|].
    exists start_date. now rewrite datetime_le_refl.
  - intros ->. apply Hin. split; [exact Hh|].
    exists end_date. now rewrite datetime_le_refl.
  - intros (Hvd & Hvs & Hord) Hkept. apply Hin in Hkept.
    destruct Hkept as (_ & d' & Hd' & Hle & _).
    rewrite Hd in Hd'. injection Hd' as <-.
    apply datetime_le_date_le in Hle.
    pose proof (toordinal_mono _ _ Hvs Hvd Hle). lia.
  - intros (Hve & Hvd & Hord) Hkept. apply Hin in Hkept.
    destruct Hkept as (_ & d' & Hd' & _ & Hle).
    rewrite Hd in Hd'. injection Hd' as <-.
    apply datetime_le_date_le in Hle.
    pose proof (toordinal_mono _ _ Hvd Hve Hle). lia.
Qed.

Lemma filter_keeps_inclusive_window_witness :
  exists kept,
    fst (filter_holidays_by_date boundary_sample
           (midnight 2023 1 1) (midnight 2023 1 2) empty_world) = Ok kept /\
    In (holiday_on "first" 2023 1 1) kept /\
    In (holiday_on "second" 2023 1 2) kept /\
    ~ In (holiday_on "eve" 2022 12 31) kept /\
    ~ In (holiday_on "third" 2023 1 3) kept.
Proof.
  destruct (filter_keeps_inclusive_window boundary_sample
              (midnight 2023 1 1) (midnight 2023 1 2) empty_world eq_refl)
    as (kept & Hrun & _ & _ & Hbounds).
  exists kept. split; [exact Hrun|].
  split; [|split; [|split]].
  - destruct (Hbounds (holiday_on "first" 2023 1 1) (midnight 2023 1 1)
                ltac:(cbn; tauto) eq_refl) as (Hstart & _).
    apply Hstart. reflexivity.
  - destruct (Hbounds (holiday_on "second" 2023 1 2) (midnight 2023 1 2)
                ltac:(cbn; tauto) eq_refl) as (_ & Hend & _).
    apply Hend. reflexivity.
  - destruct (Hbounds (holiday_on "eve" 2022 12 31) (midnight 2022 12 31)
                ltac:(cbn; tauto) eq_refl) as (_ & _ & Hbefore & _).
    apply Hbefore. repeat split; vm_compute; congruence.
  - destruct (Hbounds (holiday_on "third" 2023 1 3) (midnight 2023 1 3)
                ltac:(cbn; tauto) eq_refl) as (_ & _ & _ & Hafter).
    apply Hafter. repeat split; vm_compute; congruence.
Defined.

Example boundary_sample_filtered :
  fst (filter_holidays_by_date boundary_sample
         (midnight 2023 1 1) (midnight 2023 1 2) empty_world)
  = Ok [holiday_on "first" 2023 1 1; holiday_on "second" 2023 1 2].
Proof. reflexivity. Qed.

(** C6: the Filter is idempotent: run again on its own output with the same
    window, it returns that output (and skips nothing). *)
Theorem filter_idempotent (holidays : list pyval)
    (start_date end_date : datetime) (w w' : world) :
  exists kept,
    fst (filter_holidays_by_date holidays start_date end_date w) = Ok kept /\
    filter_holidays_by_date kept start_date end_date w' = (Ok kept, w').
Proof.
  rewrite filter_holidays_by_date_run. cbn [fst].
  eexists; split; [reflexivity|].
  rewrite filter_holidays_by_date_run. f_equal.
  - f_equal. induction holidays as [|h hs IH]; [reflexivity|].
    cbn [List.filter].
    destruct (in_window start_date end_date h) eqn:Hw; [|exact IH].
    cbn [List.filter]. now rewrite Hw, IH.
  - rewrite <- (say_nil w') at 2. f_equal.
    induction holidays as [|h hs IH]; [reflexivity|].
    cbn [List.filter].
    destruct (in_window start_date end_date h) eqn:Hw; [|exact IH].
    cbn [flat_map]. now rewrite (skip_report_in_window _ _ _ Hw), IH.
Qed.

(** A record whose date does not resolve is skipped with one report, and
    the records around it are filtered as without it. *)
Lemma filter_skips_unresolved (before after : list pyval) (h : pyval)
    (err : exn) (start_date end_date : datetime) (w : world) :
  holiday_datetime h = Raise err ->
  let kept := List.filter (in_window start_date end_date) (before ++ after) in
  let report := if is_KeyError err then MsgMissingKey err
                else MsgProcessingError err in
  filter_holidays_by_date (before ++ h :: after) start_date end_date w
  = (Ok kept, say (flat_map skip_report before
                   ++ report :: flat_map skip_report after) w) /\
  filter_holidays_by_date (before ++ after) start_date end_date w
  = (Ok kept, say (flat_map skip_report before
                   ++ flat_map skip_report after) w) /\
  ~ In h kept.
Proof.
  intros Herr kept report. subst kept report.
  rewrite !filter_holidays_by_date_run.
  rewrite !List.filter_app, !List.flat_map_app. cbn [List.filter flat_map].
  unfold in_window at 2, skip_report at 2. rewrite Herr.
  repeat split.
  rewrite <- List.filter_app, filter_In, in_window_true.
  intros (_ & d & Hd & _). congruence.
Qed.

(** C7: a record that lacks one of the nested year / month / day fields is
    dropped without raising (one line reports it), and the other records
    are filtered exactly as if it were absent. *)
Theorem filter_drops_record_lacking_date_field (before after : list pyval)
    (h : pyval) (start_date end_date : datetime) (w : world) :
  lacks_date_field h ->
  exists kept report,
    filter_holidays_by_date (before ++ h :: after) start_date end_date w
    = (Ok kept, say (flat_map skip_report before
                     ++ report :: flat_map skip_report after) w) /\
    filter_holidays_by_date (before ++ after) start_date end_date w
    = (Ok kept, say (flat_map skip_report before
                     ++ flat_map skip_report after) w) /\
    ~ In h kept.
Proof.
  intros Hlack. destruct (holiday_datetime_lacking h Hlack) as [err Herr].
  pose proof (filter_skips_unresolved before after h err start_date end_date
                w Herr) as H.
  cbv zeta in H. eauto.
Qed.

Lemma filter_drops_record_lacking_date_field_witness :
  exists kept report,
    filter_holidays_by_date
      ([holiday_on "first" 2023 1 1] ++ VDict [("name", VStr "no date")]
         :: [holiday_on "second" 2023 1 2])
      (midnight 2023 1 1) (midnight 2023 1 2) empty_world
    = (Ok kept, say (flat_map skip_report [holiday_on "first" 2023 1 1]
                     ++ report
                        :: flat_map skip_report [holiday_on "second" 2023 1 2])
                    empty_world) /\
    filter_holidays_by_date
      ([holiday_on "first" 2023 1 1] ++ [holiday_on "second" 2023 1 2])
      (midnight 2023 1 1) (midnight 2023 1 2) empty_world
    = (Ok kept, say (flat_map skip_report [holiday_on "first" 2023 1 1]
                     ++ flat_map skip_report [holiday_on "second" 2023 1 2])
                    empty_world) /\
    ~ In (VDict [("name", VStr "no date")]) kept.
Proof.
  apply (filter_drops_record_lacking_date_field
           [holiday_on "first" 2023 1 1] [holiday_on "second" 2023 1 2]
           (VDict [("name", VStr "no date")])
           (midnight 2023 1 1) (midnight 2023 1 2) empty_world).
  left. reflexivity.
Defined.

(** C10: a record whose date fields are all present but do not make a date
    (the constructor raises [err], never a [KeyError]) is skipped through
    the catch-all handler: the Filter still returns, reports the error, and
    filters the other records as if the record were absent. *)
Theorem filter_skips_invalid_date_components (before after : list pyval)
    (h vy vm vd : pyval) (err : exn) (start_date end_date : datetime)
    (w : world) :
  date_field "year" h = Some vy ->
  date_field "month" h = Some vm ->
  date_field "day" h = Some vd ->
  datetime_new vy vm vd = Raise err ->
  exists kept,
    filter_holidays_by_date (before ++ h :: after) start_date end_date w
    = (Ok kept, say (flat_map skip_report before
                     ++ MsgProcessingError err
                        :: flat_map skip_report after) w) /\
    filter_holidays_by_date (before ++ after) start_date end_date w
    = (Ok kept, say (flat_map skip_report before
                     ++ flat_map skip_report after) w) /\
    ~ In h kept.
Proof.
  intros Hy Hm Hd Hnew.
  pose proof (holiday_datetime_fields h vy vm vd Hy Hm Hd) as Hres.
  rewrite Hnew in Hres.
  pose proof (filter_skips_unresolved before after h err start_date end_date
                w Hres) as H.
  cbv zeta in H. rewrite (datetime_new_not_KeyError _ _ _ _ Hnew) in H.
  eauto.
Qed.

Lemma filter_skips_invalid_date_components_witness :
  exists kept,
    filter_holidays_by_date
      ([holiday_on "first" 2023 1 1] ++ holiday_on "thirteenth month" 2023 13 1
         :: [holiday_on "second" 2023 1 2])
      (midnight 2023 1 1) (midnight 2023 1 2) empty_world
    = (Ok kept, say (flat_map skip_report [holiday_on "first" 2023 1 1]
                     ++ MsgProcessingError ValueError
                        :: flat_map skip_report [holiday_on "second" 2023 1 2])
                    empty_world) /\
    filter_holidays_by_date
      ([holiday_on "first" 2023 1 1] ++ [holiday_on "second" 2023 1 2])
      (midnight 2023 1 1) (midnight 2023 1 2) empty_world
    = (Ok kept, say (flat_map skip_report [holiday_on "first" 2023 1 1]
                     ++ flat_map skip_report [holiday_on "second" 2023 1 2])
                    empty_world) /\
    ~ In (holiday_on "thirteenth month" 2023 13 1) kept.
Proof.
  apply (filter_skips_invalid_date_components
           [holiday_on "first" 2023 1 1] [holiday_on "second" 2023 1 2]
           (holiday_on "thirteenth month" 2023 13 1)
           (VInt 2023) (VInt 13) (VInt 1) ValueError
           (midnight 2023 1 1) (midnight 2023 1 2) empty_world);
    reflexivity.
Defined.

(** The Filter returns on every list of JSON values. *)
Lemma filter_total (holidays : list pyval) (start_date end_date : datetime)
    (w : world) :
  exists kept w',
    filter_holidays_by_date holidays start_date end_date w = (Ok kept, w').
Proof. rewrite filter_holidays_by_date_run. eauto. Qed.

(** What the constructor answers to components that are no date. *)
Example month_13 :
  datetime_new (VInt 2024) (VInt 13) (VInt 1) = Raise ValueError.
Proof. reflexivity. Qed.

Example day_40 :
  datetime_new (VInt 2024) (VInt 1) (VInt 40) = Raise ValueError.
Proof. reflexivity. Qed.

Example february_30 :
  datetime_new (VInt 2024) (VInt 2) (VInt 30) = Raise ValueError.
Proof. reflexivity. Qed.

Example year_as_text :
  datetime_new (VStr "2024") (VInt 1) (VInt 1) = Raise TypeError.
Proof. reflexivity. Qed.

Example day_as_float :
  datetime_new (VInt 2024) (VInt 1) (VFloat (S754_zero false))
  = Raise TypeError.
Proof. reflexivity. Qed.

Example year_too_large :
  datetime_new (VInt (2 ^ 40)) (VInt 1) (VInt 1) = Raise OverflowError.
Proof. reflexivity. Qed.

(** A [bool] is an [int] for the constructor. *)
Example month_as_bool :
  datetime_new (VInt 2024) (VBool true) (VBool true) = Ok (midnight 2024 1 1).
Proof. reflexivity. Qed.

(** Lacking fields at each depth: no [date], a [date] that is no [dict], a
    [datetime] without [day]. *)
Example lacking_date :
  holiday_datetime (VDict [("name", VStr "New Year")]) = Raise (KeyError "date").
Proof. reflexivity. Qed.

Example date_as_text :
  holiday_datetime (VDict [("date", VStr "2024-01-01")]) = Raise TypeError.
Proof. reflexivity. Qed.

Example lacking_day :
  holiday_datetime
    (VDict [("date", VDict [("datetime", VDict [("year", VInt 2024);
                                                 ("month", VInt 1)])])])
  = Raise (KeyError "day").
Proof. reflexivity. Qed.

(* ===================================================================== *)

(* ===================================================================== *)
(** * The Validator *)
(* ===================================================================== *)

Lemma datetime_gt_le (a b : datetime) :
  datetime_gt a b = negb (datetime_le a b).
Proof. unfold datetime_gt, datetime_le. now destruct (datetime_cmp a b). Qed.

Lemma check_date_args_valid (d : datetime) :
  valid_date d -> check_date_args (year d) (month d) (day d) = Ok tt.
Proof.
  unfold valid_date, check_date_args. intros (Hy & Hm & Hd).
  destruct (Z.leb_spec MINYEAR (year d)), (Z.leb_spec (year d) MAXYEAR);
    try lia.
  destruct (Z.leb_spec 1 (month d)), (Z.leb_spec (month d) 12); try lia.
  destruct (Z.leb_spec 1 (day d)),
    (Z.leb_spec (day d) (days_in_month (year d) (month d))); try lia.
  reflexivity.
Qed.

Lemma codes_two_digits (n : Z) :
  codes (two_digits n) = [48 + (n / 10) mod 10; 48 + n mod 10].
Proof. unfold two_digits. cbn [codes]. now rewrite !digit_char_code. Qed.

Lemma codes_four_digits (n : Z) :
  codes (four_digits n)
  = [48 + (n / 1000) mod 10; 48 + (n / 100) mod 10; 48 + (n / 10) mod 10;
     48 + n mod 10].
Proof. unfold four_digits. cbn [codes]. now rewrite !digit_char_code. Qed.

Section ValidatorFacts.

Variable unicode_decimal : Z -> option Z.

Lemma strptime_raises_ValueError (s : unicode) (e : exn) :
  strptime unicode_decimal s = Raise e -> e = ValueError.
Proof.
  unfold strptime, check_date_args.
  destruct (format_regex unicode_decimal s) as [|[[[Y m] d] rest] ?];
    [now intros [= <-]|].
  destruct rest; [|now intros [= <-]].
  repeat match goal with
         | |- context [if ?b then _ else _] => destruct b; cbn [rbind]
         end; intros H; try discriminate H; now injection H as <-.
Qed.

Lemma strptime_valid (s : unicode) (d : datetime) :
  strptime unicode_decimal s = Ok d -> valid_date d /\ at_midnight d.
Proof.
  unfold strptime, check_date_args, valid_date, at_midnight.
  destruct (format_regex unicode_decimal s) as [|[[[Y m] dd] rest] ?];
    [discriminate|].
  destruct rest; [|discriminate].
  destruct (Z.leb_spec MINYEAR (int_of unicode_decimal Y)),
    (Z.leb_spec (int_of unicode_decimal Y) MAXYEAR);
    cbn [negb andb rbind]; try discriminate.
  destruct (Z.leb_spec 1 (int_of unicode_decimal m)),
    (Z.leb_spec (int_of unicode_decimal m) 12);
    cbn [negb andb rbind]; try discriminate.
  destruct (Z.leb_spec 1 (int_of unicode_decimal dd)),
    (Z.leb_spec (int_of unicode_decimal dd)
       (days_in_month (int_of unicode_decimal Y) (int_of unicode_decimal m)));
    cbn [negb andb rbind]; try discriminate.
  intros [= <-]. cbn [year month day hour minute second microsecond]. lia.
Qed.

(** The Validator as a function of what [strptime] answers. *)
Lemma validate_dates_run (start_date end_date : unicode) (w : world) :
  validate_dates unicode_decimal start_date end_date w
  = match strptime unicode_decimal start_date,
          strptime unicode_decimal end_date with
    | Ok s, Ok e =>
        if datetime_gt s e
        then (Raise ValueError, say [MsgInvalidDates ValueError] w)
        else (Ok (s, e), w)
    | _, _ => (Raise ValueError, say [MsgInvalidDates ValueError] w)
    end.
Proof.
  unfold validate_dates, try_except, bind, lift.
  destruct (strptime unicode_decimal start_date) as [s|err] eqn:Es.
  - destruct (strptime unicode_decimal end_date) as [e|err] eqn:Ee.
    + now destruct (datetime_gt s e).
    + now rewrite (strptime_raises_ValueError _ _ Ee).
  - now rewrite (strptime_raises_ValueError _ _ Es).
Qed.

Lemma validate_dates_ok (start_date end_date : unicode) (s e : datetime)
    (w : world) :
  fst (validate_dates unicode_decimal start_date end_date w) = Ok (s, e) ->
  validate_dates unicode_decimal start_date end_date w = (Ok (s, e), w) /\
  parses unicode_decimal start_date s /\ parses unicode_decimal end_date e /\
  datetime_le s e = true.
Proof.
  rewrite validate_dates_run. unfold parses.
  destruct (strptime unicode_decimal start_date) as [s'|]; [|discriminate].
  destruct (strptime unicode_decimal end_date) as [e'|]; [|discriminate].
  rewrite datetime_gt_le.
  destruct (datetime_le s' e') eqn:Hle; cbn; [|discriminate].
  now intros [= <- <-].
Qed.

(** ** What the regular expression matches *)

Lemma is_digit_value (c : Z) :
  is_digit unicode_decimal c = true ->
  exists v, decimal_value unicode_decimal c = Some v.
Proof.
  unfold is_digit. destruct (decimal_value unicode_decimal c) as [v|];
    [eauto|discriminate].
Qed.

Lemma re_Y_In (s t r : unicode) :
  In (t, r) (re_Y unicode_decimal s) ->
  s = t ++ r /\ year_text unicode_decimal (int_of unicode_decimal t) t.
Proof.
  unfold re_Y.
  destruct s as [|a [|b [|c [|d s]]]]; try (intros []).
  destruct (is_digit unicode_decimal a) eqn:Ha; [|intros []].
  destruct (is_digit unicode_decimal b) eqn:Hb; [|intros []].
  destruct (is_digit unicode_decimal c) eqn:Hc; [|intros []].
  destruct (is_digit unicode_decimal d) eqn:Hd; [|intros []].
  cbn [andb In]. intros [[= <- <-]|[]].
  split; [reflexivity|].
  apply is_digit_value in Ha as [va Ha], Hb as [vb Hb], Hc as [vc Hc],
    Hd as [vd Hd].
  exists a, b, c, d, va, vb, vc, vd.
  split; [reflexivity|]. do 4 (split; [assumption|]).
  unfold int_of. cbn [int_digits]. rewrite Ha, Hb, Hc, Hd. lia.
Qed.

Lemma re_dash_In (s r : unicode) : In r (re_dash s) -> s = 45 :: r.
Proof.
  unfold re_dash. destruct s as [|a s]; [intros []|].
  destruct (Z.eqb_spec a 45) as [->|]; [|intros []].
  now intros [<-|[]].
Qed.

Lemma re_pair_In (first lo hi : Z) (s t r : unicode) :
  In (t, r) (re_pair first lo hi s) ->
  exists b, t = [first; b] /\ s = t ++ r /\ lo <= b <= hi.
Proof.
  unfold re_pair. destruct s as [|a [|b s]]; try (intros []).
  destruct (Z.eqb_spec a first) as [->|]; [|intros []].
  unfold in_class. destruct (Z.leb_spec lo b); [|intros []].
  destruct (Z.leb_spec b hi); [|intros []].
  cbn [andb In]. intros [[= <- <-]|[]]. exists b. repeat split; auto.
Qed.

Lemma re_pair_digit_In (first : Z) (s t r : unicode) :
  In (t, r) (re_pair_digit unicode_decimal first s) ->
  exists b v, t = [first; b] /\ s = t ++ r /\
              decimal_value unicode_decimal b = Some v.
Proof.
  unfold re_pair_digit. destruct s as [|a [|b s]]; try (intros []).
  destruct (Z.eqb_spec a first) as [->|]; [|intros []].
  destruct (is_digit unicode_decimal b) eqn:Hb; [|intros []].
  cbn [andb In]. intros [[= <- <-]|[]].
  apply is_digit_value in Hb as [v Hb]. exists b, v. repeat split; auto.
Qed.

Lemma re_one_In (lo hi : Z) (s t r : unicode) :
  In (t, r) (re_one lo hi s) ->
  exists a, t = [a] /\ s = t ++ r /\ lo <= a <= hi.
Proof.
  unfold re_one. destruct s as [|a s]; [intros []|].
  unfold in_class. destruct (Z.leb_spec lo a); [|intros []].
  destruct (Z.leb_spec a hi); [|intros []].
  cbn [andb In]. intros [[= <- <-]|[]]. exists a. repeat split; auto.
Qed.

(** Two ASCII digits read as a number below one hundred, and are its
    text. *)
Lemma two_digit_text (a b : Z) :
  48 <= a <= 57 -> 48 <= b <= 57 ->
  int_of unicode_decimal [a; b] = 10 * (a - 48) + (b - 48) /\
  [a; b] = codes (two_digits (int_of unicode_decimal [a; b])).
Proof.
  intros Ha Hb.
  assert (Hint : int_of unicode_decimal [a; b] = 10 * (a - 48) + (b - 48)).
  { unfold int_of. cbn [int_digits].
    rewrite (decimal_value_ascii _ a Ha), (decimal_value_ascii _ b Hb). lia. }
  split; [exact Hint|]. rewrite Hint, codes_two_digits.
  f_equal; [|f_equal]; Z.div_mod_to_equations; lia.
Qed.

Lemma one_digit_text (a : Z) :
  49 <= a <= 57 -> int_of unicode_decimal [a] = a - 48.
Proof.
  intros Ha. unfold int_of. cbn [int_digits].
  rewrite (decimal_value_ascii _ a) by lia. lia.
Qed.

Lemma re_m_In (s t r : unicode) :
  In (t, r) (re_m s) ->
  s = t ++ r /\ month_text (int_of unicode_decimal t) t.
Proof.
  unfold re_m, month_text. rewrite !in_app_iff.
  intros [H | [H | H]].
  - apply re_pair_In in H as (b & -> & -> & Hb).
    split; [reflexivity|]. left. apply two_digit_text; lia.
  - apply re_pair_In in H as (b & -> & -> & Hb).
    split; [reflexivity|]. left. apply two_digit_text; lia.
  - apply re_one_In in H as (a & -> & -> & Ha).
    split; [reflexivity|]. right. rewrite (one_digit_text a Ha).
    split; [lia|]. f_equal. lia.
Qed.

Lemma re_d_In (s t r : unicode) :
  In (t, r) (re_d unicode_decimal s) ->
  s = t ++ r /\ day_text unicode_decimal (int_of unicode_decimal t) t.
Proof.
  unfold re_d, day_text. rewrite !in_app_iff.
  intros [H | [[H | H] | [H | [H | H]]]].
  - apply re_pair_In in H as (b & -> & -> & Hb).
    split; [reflexivity|]. left. apply two_digit_text; lia.
  - apply re_pair_digit_In in H as (b & v & -> & -> & Hb).
    split; [reflexivity|]. right. right. exists 1, b, v.
    split; [now left|]. split; [exact Hb|].
    unfold int_of. cbn [int_digits].
    rewrite (decimal_value_ascii _ 49) by lia. rewrite Hb.
    split; [lia|reflexivity].
  - apply re_pair_digit_In in H as (b & v & -> & -> & Hb).
    split; [reflexivity|]. right. right. exists 2, b, v.
    split; [now right|]. split; [exact Hb|].
    unfold int_of. cbn [int_digits].
    rewrite (decimal_value_ascii _ 50) by lia. rewrite Hb.
    split; [lia|reflexivity].
  - apply re_pair_In in H as (b & -> & -> & Hb).
    split; [reflexivity|]. left. apply two_digit_text; lia.
  - apply re_one_In in H as (a & -> & -> & Ha).
    split; [reflexivity|]. right. left. rewrite (one_digit_text a Ha).
    split; [lia|]. left. f_equal. lia.
  - apply re_pair_In in H as (b & -> & -> & Hb).
    split; [reflexivity|]. right. left.
    assert (Hint : int_of unicode_decimal [32; b] = b - 48).
    { unfold int_of. cbn [int_digits].
      change (decimal_value unicode_decimal 32) with (@None Z). cbn iota.
      rewrite (decimal_value_ascii _ b) by lia. lia. }
    rewrite Hint. split; [lia|]. right. do 2 f_equal. lia.
Qed.

Lemma format_regex_In (s Y m d rest : unicode) :
  In (Y, m, d, rest) (format_regex unicode_decimal s) ->
  s = Y ++ [45] ++ m ++ [45] ++ d ++ rest /\
  year_text unicode_decimal (int_of unicode_decimal Y) Y /\
  month_text (int_of unicode_decimal m) m /\
  day_text unicode_decimal (int_of unicode_decimal d) d.
Proof.
  unfold format_regex. rewrite in_flat_map.
  intros ([Y' r0] & HY & H). rewrite in_flat_map in H.
  destruct H as (r1 & H1 & H). rewrite in_flat_map in H.
  destruct H as ([m' r2] & Hm & H). rewrite in_flat_map in H.
  destruct H as (r3 & H3 & H). rewrite in_map_iff in H.
  destruct H as ([d' r4] & [= <- <- <- <-] & Hd).
  cbn [fst snd] in *.
  apply re_Y_In in HY as (-> & HYt).
  apply re_dash_In in H1 as ->.
  apply re_m_In in Hm as (-> & Hmt).
  apply re_dash_In in H3 as ->.
  apply re_d_In in Hd as (-> & Hdt).
  split; [reflexivity|]. split; [exact HYt|]. split; assumption.
Qed.

(** ** What the regular expression makes of a date string *)

Lemma re_Y_year_text (y : Z) (yt r : unicode) :
  year_text unicode_decimal y yt ->
  re_Y unicode_decimal (yt ++ r) = [(yt, r)] /\
  int_of unicode_decimal yt = y.
Proof.
  intros (a & b & c & d & va & vb & vc & vd & -> & Ha & Hb & Hc & Hd & ->).
  cbn [app re_Y]. unfold is_digit, int_of. cbn [int_digits].
  rewrite Ha, Hb, Hc, Hd. cbn [andb]. split; [reflexivity|lia].
Qed.

Lemma re_m_month_text (m : Z) (mt r : unicode) :
  1 <= m <= 12 -> month_text m mt ->
  (exists more, re_m (mt ++ 45 :: r) = (mt, 45 :: r) :: more) /\
  int_of unicode_decimal mt = m.
Proof.
  intros Hm [-> | [Hlt ->]].
  - split_month Hm; (split; [eexists|]; reflexivity).
  - split_month Hm; try lia; (split; [eexists|]; reflexivity).
Qed.

Lemma same_codes_eq (a b : unicode) : same_codes a b = true -> a = b.
Proof.
  revert b. induction a as [|x a IH]; intros [|y b]; cbn [same_codes];
    try discriminate; [reflexivity|].
  intros H. apply andb_true_iff in H as [Hx Ha].
  apply Z.eqb_eq in Hx. now rewrite Hx, (IH b Ha).
Qed.

(** The first match of the day alternatives on a day of ASCII digits is the
    whole text, and it reads as the day: checked on the days of a month. *)
Lemma re_d_whole_head (t : unicode) (d : Z) :
  re_d_whole unicode_decimal t d = true ->
  (exists more, re_d unicode_decimal t = (t, []) :: more) /\
  int_of unicode_decimal t = d.
Proof.
  unfold re_d_whole.
  destruct (re_d unicode_decimal t) as [|[text [|? ?]] more];
    try discriminate.
  intros H. apply andb_true_iff in H as [Ht Hd].
  apply same_codes_eq in Ht. apply Z.eqb_eq in Hd. subst text. eauto.
Qed.

Lemma re_d_day_text (d : Z) (dt : unicode) :
  1 <= d <= 31 -> day_text unicode_decimal d dt ->
  (exists more, re_d unicode_decimal dt = (dt, []) :: more) /\
  int_of unicode_decimal dt = d.
Proof.
  intros Hd [-> | [[Hlt [-> | ->]] | (tens & c & v & Ht & Hc & -> & ->)]].
  - apply re_d_whole_head.
    assert (Hall : forallb (fun d => re_d_whole unicode_decimal
                                 (codes (two_digits d)) d)
                     (range 1 32) = true) by (vm_compute; reflexivity).
    rewrite forallb_forall in Hall. apply Hall, range_In. lia.
  - apply re_d_whole_head.
    assert (Hall : forallb (fun d => re_d_whole unicode_decimal [48 + d] d)
                     (range 1 10) = true) by (vm_compute; reflexivity).
    rewrite forallb_forall in Hall. apply Hall, range_In. lia.
  - apply re_d_whole_head.
    assert (Hall : forallb
                     (fun d => re_d_whole unicode_decimal [32; 48 + d] d)
                     (range 1 10) = true) by (vm_compute; reflexivity).
    rewrite forallb_forall in Hall. apply Hall, range_In. lia.
  - unfold re_d, re_pair, re_pair_digit, is_digit, int_of.
    cbn [int_digits]. rewrite Hc.
    destruct Ht as [-> | ->].
    + change (48 + 1) with 49.
      rewrite (decimal_value_ascii _ 49) by lia.
      change (49 =? 51) with false. change (49 =? 49) with true.
      cbn [andb app]. split; [eexists; reflexivity|lia].
    + change (48 + 2) with 50.
      rewrite (decimal_value_ascii _ 50) by lia.
      change (50 =? 51) with false. change (50 =? 49) with false.
      change (50 =? 50) with true.
      cbn [andb app]. split; [eexists; reflexivity|lia].
Qed.

(** The date strings [strptime] accepts with this format, exactly. *)
Lemma strptime_accepts_exactly (s : unicode) (d : datetime) :
  parses unicode_decimal s d <-> date_text unicode_decimal s d.
Proof.
  unfold date_text. split.
  - intros Hp. pose proof (strptime_valid s d Hp) as [Hv Hm].
    split; [exact Hv|]. split; [exact Hm|].
    unfold parses, strptime in Hp.
    destruct (format_regex unicode_decimal s) as [|[[[Y m] dd] rest] more]
      eqn:Hre; [discriminate|].
    assert (Hin : In (Y, m, dd, rest) (format_regex unicode_decimal s))
      by (rewrite Hre; now left).
    apply format_regex_In in Hin as (Hs & HY & Hmt & Hdt).
    destruct rest; [|discriminate].
    destruct (check_date_args (int_of unicode_decimal Y)
                (int_of unicode_decimal m) (int_of unicode_decimal dd));
      [|discriminate].
    cbn [rbind] in Hp. injection Hp as <-. cbn [year month day].
    exists Y, m, dd. rewrite app_nil_r in Hs. auto.
  - intros (Hv & Hmid & yt & mt & dt & Hyt & Hmt & Hdt & ->).
    pose proof Hv as (_ & Hm & Hd).
    pose proof (days_in_month_bound (year d) (month d)) as Hdim.
    destruct (re_Y_year_text _ _ ([45] ++ mt ++ [45] ++ dt) Hyt) as [EY IY].
    destruct (re_m_month_text _ _ dt Hm Hmt) as [[more_m Em] Im].
    destruct (re_d_day_text (day d) dt ltac:(lia) Hdt) as [[more_d Ed] Id].
    unfold parses, strptime, format_regex.
    rewrite EY. cbn [flat_map fst snd app re_dash Z.eqb Pos.eqb].
    rewrite app_nil_r, Em. cbn [flat_map fst snd re_dash Z.eqb Pos.eqb].
    rewrite app_nil_r, Ed. cbn [map app fst snd].
    rewrite IY, Im, Id, (check_date_args_valid d Hv). cbn [rbind].
    destruct d as [y m dd h mi sec us]. destruct Hmid as (Hh & Hmi & Hs & Hus).
    cbn in *. now subst.
Qed.

Lemma malformed_raises (s : unicode) :
  malformed unicode_decimal s -> strptime unicode_decimal s = Raise ValueError.
Proof.
  intros Hm. destruct (strptime unicode_decimal s) as [d|e] eqn:E.
  - destruct (Hm d). now apply strptime_accepts_exactly.
  - now rewrite (strptime_raises_ValueError s e E).
Qed.

Lemma validate_dates_raises (start_date end_date : unicode) (w : world) :
  malformed unicode_decimal start_date \/
  malformed unicode_decimal end_date \/
  (exists s e, parses unicode_decimal start_date s /\
               parses unicode_decimal end_date e /\
               datetime_gt s e = true) ->
  validate_dates unicode_decimal start_date end_date w
  = (Raise ValueError, say [MsgInvalidDates ValueError] w).
Proof.
  rewrite validate_dates_run. unfold parses.
  intros [Hm | [Hm | (s & e & -> & -> & ->)]]; [| |reflexivity].
  - now rewrite (malformed_raises _ Hm).
  - rewrite (malformed_raises _ Hm).
    now destruct (strptime unicode_decimal start_date).
Qed.

(** ** Strings in the format [YYYY-MM-DD] *)

Lemma year_text_four_digits (y : Z) :
  0 <= y < 10000 -> year_text unicode_decimal y (codes (four_digits y)).
Proof.
  intros Hy. rewrite codes_four_digits.
  assert (Hd : forall n, 0 <= n mod 10 < 10)
    by (intros n; apply Z.mod_pos_bound; lia).
  pose proof (Hd (y / 1000)). pose proof (Hd (y / 100)).
  pose proof (Hd (y / 10)). pose proof (Hd y).
  do 4 eexists. exists ((y / 1000) mod 10), ((y / 100) mod 10),
    ((y / 10) mod 10), (y mod 10).
  split; [reflexivity|].
  do 4 (split; [rewrite decimal_value_ascii by lia; f_equal; lia|]).
  Z.div_mod_to_equations. lia.
Qed.

(** A string in the format [YYYY-MM-DD] is a date string. *)
Lemma iso_text_date_text (s : unicode) (d : datetime) :
  iso_text s d -> date_text unicode_decimal s d.
Proof.
  intros (Hv & Hmid & ->). split; [exact Hv|]. split; [exact Hmid|].
  pose proof Hv as (Hy & _ & _). unfold MINYEAR, MAXYEAR in Hy.
  exists (codes (four_digits (year d))), (codes (two_digits (month d))),
    (codes (two_digits (day d))).
  split; [apply year_text_four_digits; lia|].
  split; [now left|]. split; [now left|].
  unfold isoformat. now rewrite !codes_append.
Qed.

(** A date string is not always in the format [YYYY-MM-DD], and one date
    has several date strings. *)
Lemma iso_text_length (s : unicode) (d : datetime) :
  iso_text s d -> length s = 10%nat.
Proof. now intros (_ & _ & ->). Qed.

(** C2 (amended): the Validator returns the two dates unchanged (and prints
    nothing) when each string is a date string of its date and
    start <= end; it reports and fails with [ValueError], the script's
    validation error, when a string is a date string of no date, or when
    start is strictly after end.  Every string in the format [YYYY-MM-DD]
    of a calendar date is a date string, so every window of valid dates
    with start <= end comes back unchanged from its canonical strings; the
    date strings also include a month or a day on one digit, a day after a
    space and digits of other scripts.  The strings [2024-13-40] and
    [not-a-date] are date strings of no date. *)
Theorem validate_dates_returns_or_fails (start_date end_date : unicode)
    (w : world) :
  (forall s e,
     date_text unicode_decimal start_date s ->
     date_text unicode_decimal end_date e ->
     datetime_le s e = true ->
     validate_dates unicode_decimal start_date end_date w = (Ok (s, e), w)) /\
  (malformed unicode_decimal start_date \/
   malformed unicode_decimal end_date ->
     validate_dates unicode_decimal start_date end_date w
     = (Raise ValueError, say [MsgInvalidDates ValueError] w)) /\
  (forall s e,
     date_text unicode_decimal start_date s ->
     date_text unicode_decimal end_date e ->
     datetime_gt s e = true ->
     validate_dates unicode_decimal start_date end_date w
     = (Raise ValueError, say [MsgInvalidDates ValueError] w)) /\
  (forall s e,
     iso_text start_date s -> iso_text end_date e ->
     datetime_le s e = true ->
     validate_dates unicode_decimal start_date end_date w = (Ok (s, e), w)) /\
  malformed unicode_decimal (codes "2024-13-40") /\
  malformed unicode_decimal (codes "not-a-date").
Proof.
  assert (Hgood : forall s e,
            date_text unicode_decimal start_date s ->
            date_text unicode_decimal end_date e ->
            datetime_le s e = true ->
            validate_dates unicode_decimal start_date end_date w
            = (Ok (s, e), w)).
  { intros s e Hs He Hle. rewrite validate_dates_run.
    apply strptime_accepts_exactly in Hs, He. unfold parses in Hs, He.
    now rewrite Hs, He, datetime_gt_le, Hle. }
  split; [exact Hgood|]. split; [|split; [|split; [|split]]].
  - intros Hbad. apply validate_dates_raises. tauto.
  - intros s e Hs He Hgt. apply validate_dates_raises.
    right. right. exists s, e.
    apply strptime_accepts_exactly in Hs, He. auto.
  - intros s e Hs He Hle.
    apply Hgood; [now apply iso_text_date_text ..|exact Hle].
  - intros d Hd. apply strptime_accepts_exactly in Hd. discriminate Hd.
  - intros d Hd. apply strptime_accepts_exactly in Hd. discriminate Hd.
Qed.

End ValidatorFacts.

(** C2, as stated, fails: the string [2024-1- 5] (one digit of month, a
    space before the day) is not in the format [YYYY-MM-DD], whatever the
    date, and the Validator returns on it. *)
Lemma validate_dates_accepts_text_not_in_format :
  (forall d, ~ iso_text (codes "2024-1- 5") d) /\
  fst (validate_dates ascii_digits_only (codes "2024-1- 5")
         (codes "2024-01-05") empty_world)
  = Ok (midnight 2024 1 5, midnight 2024 1 5).
Proof.
  split; [|reflexivity].
  intros d H. apply iso_text_length in H. discriminate H.
Qed.

Lemma validate_dates_returns_or_fails_witness :
  validate_dates ascii_digits_only (codes "2023-12-20") (codes "2024-01-05")
    empty_world
  = (Ok (midnight 2023 12 20, midnight 2024 1 5), empty_world) /\
  validate_dates fullwidth_digits
    [65298; 65296; 65298; 65300; 45; 49; 45; 32; 53] (codes "2024-01-05")
    empty_world
  = (Ok (midnight 2024 1 5, midnight 2024 1 5), empty_world) /\
  validate_dates ascii_digits_only (codes "2024-13-40") (codes "2024-01-05")
    empty_world
  = (Raise ValueError, say [MsgInvalidDates ValueError] empty_world) /\
  validate_dates ascii_digits_only (codes "2024-05-10") (codes "2024-01-01")
    empty_world
  = (Raise ValueError, say [MsgInvalidDates ValueError] empty_world).
Proof.
  assert (Hiso : forall y m d,
            valid_date (midnight y m d) ->
            iso_text (codes (isoformat (midnight y m d))) (midnight y m d))
    by (intros y m d Hv; split; [exact Hv|]; split; [repeat split|reflexivity]).
  assert (Hv : forall y m d,
            check_date_args y m d = Ok tt -> valid_date (midnight y m d)).
  { intros y m d. unfold check_date_args, valid_date, midnight.
    cbn [year month day].
    destruct (Z.leb_spec MINYEAR y), (Z.leb_spec y MAXYEAR);
      cbn [andb negb]; try discriminate.
    destruct (Z.leb_spec 1 m), (Z.leb_spec m 12);
      cbn [andb negb]; try discriminate.
    destruct (Z.leb_spec 1 d), (Z.leb_spec d (days_in_month y m));
      cbn [andb negb]; try discriminate.
    lia. }
  split; [|split; [|split]].
  - apply (proj1 (proj2 (proj2 (proj2 (validate_dates_returns_or_fails
             ascii_digits_only (codes "2023-12-20") (codes "2024-01-05")
             empty_world))))).
    + apply (Hiso 2023 12 20), Hv. reflexivity.
    + apply (Hiso 2024 1 5), Hv. reflexivity.
    + reflexivity.
  - apply (proj1 (validate_dates_returns_or_fails fullwidth_digits
             [65298; 65296; 65298; 65300; 45; 49; 45; 32; 53]
             (codes "2024-01-05") empty_world)).
    + split; [apply Hv; reflexivity|]. split; [repeat split|].
      exists [65298; 65296; 65298; 65300], [49], [32; 53].
      split; [|split; [|split]].
      * exists 65298, 65296, 65298, 65300, 2, 0, 2, 4. repeat split.
      * right. split; [reflexivity|reflexivity].
      * right. left. split; [reflexivity|]. now right.
      * reflexivity.
    + apply iso_text_date_text, (Hiso 2024 1 5), Hv. reflexivity.
    + reflexivity.
  - apply (proj1 (proj2 (validate_dates_returns_or_fails ascii_digits_only
             (codes "2024-13-40") (codes "2024-01-05") empty_world))).
    left.
    exact (proj1 (proj2 (proj2 (proj2 (proj2 (validate_dates_returns_or_fails
             ascii_digits_only [] [] empty_world)))))).
  - apply (proj1 (proj2 (proj2 (validate_dates_returns_or_fails
             ascii_digits_only (codes "2024-05-10") (codes "2024-01-01")
             empty_world))) (midnight 2024 5 10) (midnight 2024 1 1)).
    + apply iso_text_date_text, (Hiso 2024 5 10), Hv. reflexivity.
    + apply iso_text_date_text, (Hiso 2024 1 1), Hv. reflexivity.
    + reflexivity.
Defined.

(** What [strptime] accepts beyond the canonical form, and what it
    refuses. *)
Example one_digit_month_and_day :
  strptime ascii_digits_only (codes "2024-1-5") = Ok (midnight 2024 1 5).
Proof. reflexivity. Qed.

Example fullwidth_year :
  strptime fullwidth_digits
    ([65298; 65296; 65298; 65300] ++ codes "-01-05")
  = Ok (midnight 2024 1 5) /\
  strptime ascii_digits_only
    ([65298; 65296; 65298; 65300] ++ codes "-01-05")
  = Raise ValueError.
Proof. split; reflexivity. Qed.

(** A digit of another script is read in the year and as the second digit
    of a day from ten to twenty-nine, nowhere else. *)
Example fullwidth_day_and_month :
  strptime fullwidth_digits (codes "2024-01-1" ++ [65301])
  = Ok (midnight 2024 1 15) /\
  strptime fullwidth_digits (codes "2024-01-3" ++ [65297])
  = Raise ValueError /\
  strptime fullwidth_digits (codes "2024-1" ++ [65297] ++ codes "-01")
  = Raise ValueError.
Proof. repeat split. Qed.

Example february_30_refused :
  strptime ascii_digits_only (codes "2024-02-30") = Raise ValueError.
Proof. reflexivity. Qed.

Example trailing_text_refused :
  strptime ascii_digits_only (codes "2024-01-011") = Raise ValueError.
Proof. reflexivity. Qed.

Example year_zero_refused :
  strptime ascii_digits_only (codes "0000-01-01") = Raise ValueError.
Proof. reflexivity. Qed.
(* ===================================================================== *)
(** * The Fetcher *)
(* ===================================================================== *)

Section FetcherFacts.

Variable API_KEY : option string.
Variable http : nat -> string -> Z -> http_outcome.

(** The part of the Fetcher that reads the decoded body (lines 31-34). *)
Lemma read_body (country : string) (year : Z) (data : pyval) (w : world) :
  exists msgs,
    try_except
      (let* has_response := lift (contains "response" data) in
       let* has_holidays :=
         (if has_response
          then lift (rbind (getitem data "response") (contains "holidays"))
          else ret false) in
       if has_holidays
       then let* items := lift (rbind (rbind (getitem data "response")
                                         (fun r => getitem r "holidays"))
                                      iterate) in
            ret ([] ++ items)
       else let* _ := print (MsgNoHolidays country year) in
            ret [])
      (fun err =>
         if is_HTTPError err
         then Some (let* _ := print (MsgHTTPError err) in ret [])
         else if is_RequestException err
         then Some (let* _ := print (MsgRequestError err) in ret [])
         else Some (let* _ := print (MsgFetchUnexpected err) in ret [])) w
    = (Ok (holidays_of_body data), say msgs w).
Proof.
  unfold holidays_of_body. cbn [lookup_path].
  unfold try_except, bind, lift, ret, print.
  destruct data as [| | | |s|items|entries]; cbn;
    try (eexists [_]; reflexivity).
  - destruct (is_substring "response" s); cbn; eexists [_]; reflexivity.
  - destruct (existsb (is_str "response") items); cbn;
      eexists [_]; reflexivity.
  - destruct (assoc "response" entries) as [r|]; cbn;
      [|eexists [_]; reflexivity].
    destruct r as [| | | |s|items|inner]; cbn;
      try (eexists [_]; reflexivity).
    + destruct (is_substring "holidays" s); cbn; eexists [_]; reflexivity.
    + destruct (existsb (is_str "holidays") items); cbn;
        eexists [_]; reflexivity.
    + destruct (assoc "holidays" inner) as [v|]; cbn;
        [|eexists [_]; reflexivity].
      destruct (iterate v) as [found|e]; cbn.
      * exists []. now rewrite say_nil.
      * destruct e; cbn; eexists [_]; reflexivity.
Qed.

(** One call of the Fetcher: it returns, having sent one request. *)
Lemma fetch_holidays_run (country : string) (year : Z) (w : world) :
  exists msgs,
    fetch_holidays API_KEY http country year w
    = (Ok (holidays_of (http (length (requests w)) country year)),
       after_requests [mk_request API_KEY country year] msgs w).
Proof.
  pose (w1 := after_requests [mk_request API_KEY country year] [] w).
  assert (Hsay : forall msgs,
            say msgs w1
            = after_requests [mk_request API_KEY country year] msgs w).
  { intros msgs. unfold w1, say, after_requests; cbn.
    now rewrite app_nil_r. }
  assert (Hw1 : mk_world (stdout w)
                  (requests w ++ [mk_request API_KEY country year])
                  (opened w) (files w) (io_ops w) = w1).
  { unfold w1, after_requests. now rewrite app_nil_r. }
  unfold fetch_holidays. cbv zeta. unfold bind at 1.
  rewrite try_except_bind. unfold requests_get at 1. rewrite Hw1.
  unfold holidays_of.
  destruct (http (length (requests w)) country year) as [e|status_code body].
  - destruct (is_HTTPError e); [|destruct (is_RequestException e)];
      eexists [_]; rewrite <- Hsay; reflexivity.
  - rewrite try_except_bind. unfold lift at 1, raise_for_status, error_status.
    cbn [fst snd].
    destruct ((400 <=? status_code) && (status_code <? 600)).
    { eexists [_]; rewrite <- Hsay; reflexivity. }
    rewrite try_except_bind. unfold lift at 1.
    destruct body as [data|e].
    + destruct (read_body country year data w1) as [msgs Hm].
      exists msgs. rewrite <- Hsay.
      match goal with
      | |- (let (r, w') := ?run in _) = _ =>
          replace run with (Ok (holidays_of_body data), say msgs w1)
            by (symmetry; exact Hm)
      end.
      reflexivity.
    + destruct (is_HTTPError e); [|destruct (is_RequestException e)];
        eexists [_]; rewrite <- Hsay; reflexivity.
Qed.

(** C3 (amended): for every country code and year the Fetcher returns a
    list and never raises; the list is empty on a failure the script
    detects (the request raised, the status is an error status, 400 to 599,
    or the body is no JSON), and also when the decoded body has no
    [response.holidays] path.  It sends exactly one request. *)
Theorem fetch_holidays_never_raises (country : string) (year : Z)
    (w : world) :
  exists holidays msgs,
    fetch_holidays API_KEY http country year w
    = (Ok holidays,
       after_requests [mk_request API_KEY country year] msgs w) /\
    (transport_failure (http (length (requests w)) country year) ->
     holidays = []) /\
    (forall status_code data,
       http (length (requests w)) country year
       = Response status_code (Ok data) ->
       lookup_path ["response"; "holidays"] data = None ->
       holidays = []).
Proof.
  destruct (fetch_holidays_run country year w) as [msgs Hrun].
  exists (holidays_of (http (length (requests w)) country year)), msgs.
  split; [exact Hrun|]. split.
  - unfold transport_failure, holidays_of.
    destruct (http (length (requests w)) country year)
      as [e|status_code body]; [reflexivity|].
    intros [-> | [e ->]]; [reflexivity|].
    now destruct (error_status status_code).
  - intros status_code data -> Hpath. unfold holidays_of, holidays_of_body.
    rewrite Hpath. now destruct (error_status status_code).
Qed.

End FetcherFacts.

Lemma fetch_holidays_never_raises_witness :
  fst (fetch_holidays None unreachable "UA" 2023 empty_world) = Ok [] /\
  fst (fetch_holidays None bare_answer "UA" 2023 empty_world) = Ok [].
Proof.
  split.
  - destruct (fetch_holidays_never_raises None unreachable "UA" 2023
                empty_world) as (holidays & msgs & Hrun & Hfail & _).
    rewrite Hrun. cbn [fst]. f_equal. apply Hfail. exact I.
  - destruct (fetch_holidays_never_raises None bare_answer "UA" 2023
                empty_world) as (holidays & msgs & Hrun & _ & Hshape).
    rewrite Hrun. cbn [fst]. f_equal.
    apply (Hshape 200 (VDict [("meta", VDict [("code", VInt 200)])]));
      reflexivity.
Defined.

(** C3, as stated, fails: a status outside 200 to 299 is a protocol
    failure, but [raise_for_status] raises on 400 to 599 only; on the
    statuses 300, 399 and 600 the Fetcher returns the holidays of the body,
    not an empty list. *)
Lemma fetch_holidays_returns_holidays_on_status_300 :
  protocol_failure (odd_status 300 0 "UA" 2023) /\
  fst (fetch_holidays None (odd_status 300) "UA" 2023 empty_world)
  = Ok [holiday_on "New Year" 2023 1 1] /\
  protocol_failure (odd_status 399 0 "UA" 2023) /\
  fst (fetch_holidays None (odd_status 399) "UA" 2023 empty_world)
  = Ok [holiday_on "New Year" 2023 1 1] /\
  protocol_failure (odd_status 600 0 "UA" 2023) /\
  fst (fetch_holidays None (odd_status 600) "UA" 2023 empty_world)
  = Ok [holiday_on "New Year" 2023 1 1].
Proof. repeat split; now left. Qed.

(** Bodies of other shapes: the path is there but holds no iterable, the
    body is a list, the body is text that mentions the key. *)
Example holidays_null :
  fst (fetch_holidays None
         (fun _ _ _ => Response 200
            (Ok (VDict [("response", VDict [("holidays", VNone)])])))
         "UA" 2023 empty_world) = Ok [].
Proof. reflexivity. Qed.

Example body_is_a_list :
  fst (fetch_holidays None
         (fun _ _ _ => Response 200 (Ok (VList [VStr "response"])))
         "UA" 2023 empty_world) = Ok [].
Proof. reflexivity. Qed.

Example body_is_text :
  fst (fetch_holidays None
         (fun _ _ _ => Response 200 (Ok (VStr "no response today")))
         "UA" 2023 empty_world) = Ok [].
Proof. reflexivity. Qed.

Example server_error :
  fetch_holidays None (fun _ _ _ => Response 503 (Raise JSONDecodeError))
    "UA" 2023 empty_world
  = (Ok [], after_requests [mk_request None "UA" 2023]
              [MsgHTTPError (HTTPError 503)] empty_world).
Proof. reflexivity. Qed.


(* ===================================================================== *)
(** * JSON texts *)
(* ===================================================================== *)

Lemma printable_append (a b : string) :
  printable (a +:+ b) = printable a && printable b.
Proof.
  induction a as [|x a IH]; [reflexivity|].
  rewrite append_cons. cbn [printable]. now rewrite IH, andb_assoc.
Qed.

Lemma ascii_text_append (a b : string) :
  ascii_text (a +:+ b) = ascii_text a && ascii_text b.
Proof.
  induction a as [|x a IH]; [reflexivity|].
  rewrite append_cons. cbn [ascii_text]. now rewrite IH, andb_assoc.
Qed.

Lemma printable_ascii_text (s : string) :
  printable s = true -> ascii_text s = true.
Proof.
  induction s as [|c s IH]; [reflexivity|]. cbn [printable ascii_text].
  intros H. apply andb_true_iff in H as [Hc Hs].
  now rewrite Hc, orb_true_r, IH.
Qed.

(** A printable text is on one line. *)
Lemma printable_one_line (s : string) :
  printable s = true -> mentions LF s = false.
Proof.
  induction s as [|c s IH]; [reflexivity|]. cbn [printable mentions].
  intros H. apply andb_true_iff in H as [Hc Hs]. rewrite (IH Hs).
  destruct (Ascii.eqb_spec c LF) as [->|]; [discriminate Hc|reflexivity].
Qed.

Lemma lines_terminated (l rest : string) :
  mentions LF l = false -> lines (l +:+ String LF rest) = l :: lines rest.
Proof.
  induction l as [|c l IH].
  - intros _. rewrite append_nil_l. cbn [lines].
    now rewrite Ascii.eqb_refl.
  - cbn [mentions]. intros H. apply orb_false_iff in H as [Hc Hl].
    rewrite append_cons. cbn [lines]. now rewrite Hc, (IH Hl).
Qed.

(** The lines of a text made of lines are these lines. *)
Lemma lines_unlines (texts : list string) :
  Forall (fun t => mentions LF t = false) texts ->
  lines (unlines texts) = texts.
Proof.
  induction 1 as [|t rest Ht _ IH]; [reflexivity|].
  cbn [unlines]. rewrite append_assoc, append_cons, append_nil_l.
  now rewrite (lines_terminated _ _ Ht), IH.
Qed.

Lemma escape_char_printable (c : ascii) : printable (escape_char c) = true.
Proof. destruct c as [[] [] [] [] [] [] [] []]; reflexivity. Qed.

Lemma escape_printable (s : string) : printable (escape s) = true.
Proof.
  induction s as [|c s IH]; cbn [escape]; [reflexivity|].
  now rewrite printable_append, escape_char_printable, IH.
Qed.

Lemma encode_basestring_ascii_printable (s : string) :
  printable (encode_basestring_ascii s) = true.
Proof.
  unfold encode_basestring_ascii. cbn [printable].
  now rewrite printable_append, escape_printable.
Qed.

Lemma join_printable (sep : string) (parts : list string) :
  printable sep = true ->
  Forall (fun p => printable p = true) parts ->
  printable (join sep parts) = true.
Proof.
  intros Hsep Hparts. induction Hparts as [|p rest Hp Hrest IH];
    [reflexivity|].
  destruct rest as [|q rest]; [exact Hp|].
  change (join sep (p :: q :: rest)) with (p +:+ sep +:+ join sep (q :: rest)).
  now rewrite !printable_append, Hp, Hsep, IH.
Qed.

(** ** Decimal texts *)

Lemma string_of_uint_digits (d : Decimal.uint) :
  all_digits (NilEmpty.string_of_uint d) = true.
Proof. induction d; cbn; auto. Qed.

Lemma string_of_uint_nonnil (d : Decimal.uint) :
  d <> Decimal.Nil ->
  exists c r, NilEmpty.string_of_uint d = String c r.
Proof. destruct d; cbn; [congruence|eauto ..]. Qed.

Lemma decimal_int_text (z : Z) : int_text (decimal z) = true.
Proof.
  unfold decimal, Z.to_int. destruct z as [|p|p]; [reflexivity| |].
  - cbn [NilEmpty.string_of_int].
    pose proof (string_of_uint_digits (Pos.to_uint p)) as Hd.
    destruct (string_of_uint_nonnil _ (Unsigned.to_uint_nonnil p))
      as (c & r & E).
    rewrite E in *. unfold int_text.
    cbn [all_digits] in Hd. apply andb_true_iff in Hd as [Hc Hr].
    unfold is_ascii_digit, in_class in Hc.
    apply andb_true_iff in Hc as [Hc1 Hc2]. apply Z.leb_le in Hc1, Hc2.
    destruct (Z.eqb_spec (code c) 45); [lia|].
    cbn [all_digits]. unfold is_ascii_digit, in_class.
    rewrite Hr, andb_true_r. apply andb_true_iff.
    split; apply Z.leb_le; lia.
  - cbn [NilEmpty.string_of_int].
    pose proof (string_of_uint_digits (Pos.to_uint p)) as Hd.
    destruct (string_of_uint_nonnil _ (Unsigned.to_uint_nonnil p))
      as (c & r & E).
    rewrite E in *. unfold int_text. cbn. exact Hd.
Qed.

(** The decimal text is read back as the number. *)
Lemma decimal_read_back (z : Z) :
  NilEmpty.int_of_string (decimal z) = Some (Z.to_int z) /\
  Z.of_int (Z.to_int z) = z.
Proof. split; [apply NilEmpty.isi|apply DecimalZ.of_to]. Qed.

Lemma decimal_inj (a b : Z) : decimal a = decimal b -> a = b.
Proof.
  intros H. apply DecimalZ.to_int_inj.
  pose proof (NilEmpty.isi (Z.to_int a)) as Ha.
  pose proof (NilEmpty.isi (Z.to_int b)) as Hb.
  unfold decimal in H. rewrite H in Ha. congruence.
Qed.

Lemma int_repr_Ok (z : Z) (t : string) : int_repr z = Ok t -> t = decimal z.
Proof.
  unfold int_repr.
  destruct (4300 <? Z.of_nat (String.length (decimal (Z.abs z))));
    [discriminate|]. now intros [= <-].
Qed.

Lemma int_repr_raises (z : Z) (e : exn) :
  int_repr z = Raise e -> e = ValueError.
Proof.
  unfold int_repr.
  destruct (4300 <? Z.of_nat (String.length (decimal (Z.abs z))));
    [now intros [= <-]|discriminate].
Qed.

Lemma all_digits_printable (s : string) :
  all_digits s = true -> printable s = true.
Proof.
  induction s as [|c s IH]; [reflexivity|]. cbn [all_digits printable].
  intros H. apply andb_true_iff in H as [Hc Hs]. rewrite (IH Hs), andb_true_r.
  unfold is_ascii_digit, in_class in *.
  apply andb_true_iff in Hc as [H1 H2]. apply Z.leb_le in H1, H2.
  apply andb_true_iff. split; apply Z.leb_le; lia.
Qed.

Lemma all_digits_number_text (s : string) :
  all_digits s = true -> number_text s = true.
Proof.
  induction s as [|c s IH]; [reflexivity|]. cbn [all_digits number_text].
  intros H. apply andb_true_iff in H as [Hc Hs]. rewrite (IH Hs), andb_true_r.
  unfold number_char. unfold is_ascii_digit in Hc. now rewrite Hc.
Qed.

Lemma all_digits_no_float (s : string) :
  all_digits s = true -> is_float_token s = false.
Proof.
  unfold is_float_token.
  induction s as [|c s IH]; [reflexivity|]. cbn [all_digits mentions].
  intros H. apply andb_true_iff in H as [Hc Hs].
  specialize (IH Hs). apply orb_false_iff in IH as [IH IH3].
  apply orb_false_iff in IH as [IH1 IH2]. rewrite IH1, IH2, IH3.
  unfold is_ascii_digit, in_class in Hc.
  apply andb_true_iff in Hc as [H1 H2]. apply Z.leb_le in H1, H2.
  destruct (Ascii.eqb_spec c "."), (Ascii.eqb_spec c "e"),
    (Ascii.eqb_spec c "E"); subst; try reflexivity;
    vm_compute in H1, H2; exfalso; auto.
Qed.

Lemma int_text_number (t : string) :
  int_text t = true ->
  number_head t = true /\ number_text t = true /\ is_float_token t = false /\
  printable t = true.
Proof.
  unfold int_text. destruct t as [|c r]; [discriminate|].
  destruct (Z.eqb_spec (code c) 45) as [Hc|Hc].
  - assert (c = "-"%char) as -> by (apply code_inj; rewrite Hc; reflexivity).
    destruct r as [|d r]; [discriminate|]. intros Hr.
    split; [reflexivity|].
    split.
    { change (number_text (String "-" (String d r)))
        with (true && number_text (String d r)).
      now rewrite all_digits_number_text. }
    split.
    + pose proof (all_digits_no_float _ Hr) as Hf.
      unfold is_float_token in *. cbn [mentions] in *.
      change (Ascii.eqb "-" ".") with false.
      change (Ascii.eqb "-" "e") with false.
      change (Ascii.eqb "-" "E") with false. exact Hf.
    + change (printable (String "-" (String d r)))
        with (true && printable (String d r)).
      now rewrite all_digits_printable.
  - intros Hd. split.
    + cbn [all_digits] in Hd. apply andb_true_iff in Hd as [Hd _].
      unfold number_head. now rewrite Hd.
    + split; [now apply all_digits_number_text|].
      split; [now apply all_digits_no_float|now apply all_digits_printable].
Qed.

Lemma number_text_printable (s : string) :
  number_text s = true -> printable s = true.
Proof.
  induction s as [|c s IH]; [reflexivity|]. cbn [number_text printable].
  intros H. apply andb_true_iff in H as [Hc Hs]. rewrite (IH Hs), andb_true_r.
  unfold number_char, in_class in *. pose proof (code_range c) as Hr.
  destruct (Z.leb_spec 32 (code c)), (Z.leb_spec (code c) 126);
    try reflexivity; exfalso;
    repeat (apply orb_true_iff in Hc as [Hc | Hc]);
    try (apply andb_true_iff in Hc as [H1 H2]; apply Z.leb_le in H1, H2);
    try apply Z.eqb_eq in Hc; lia.
Qed.

(** ** The encoder, by cases *)

Lemma sequence_Ok {A} (steps : list (result A)) (l : list A) :
  sequence steps = Ok l -> steps = map Ok l.
Proof.
  revert l. induction steps as [|r steps IH]; intros l; cbn [sequence].
  - now intros [= <-].
  - destruct r as [a|e]; cbn [rbind]; [|discriminate].
    destruct (sequence steps) as [l'|e]; cbn [rbind]; [|discriminate].
    intros [= <-]. cbn [map]. now rewrite (IH l' eq_refl).
Qed.

Lemma sequence_map_Ok {A} (l : list A) : sequence (map Ok l) = Ok l.
Proof.
  induction l as [|a l IH]; [reflexivity|].
  cbn [map sequence rbind]. now rewrite IH.
Qed.

Lemma sequence_raises {A} (steps : list (result A)) (e : exn) :
  sequence steps = Raise e -> In (Raise e) steps.
Proof.
  induction steps as [|r steps IH]; cbn [sequence]; [discriminate|].
  destruct r as [a|e']; cbn [rbind].
  - destruct (sequence steps) as [l'|e'']; cbn [rbind]; [discriminate|].
    intros [= <-]. right. now apply IH.
  - intros [= <-]. now left.
Qed.

Lemma map_Ok_Forall2 {A B} (f : A -> result B) (l : list A) (l' : list B) :
  map f l = map Ok l' -> Forall2 (fun a b => f a = Ok b) l l'.
Proof.
  revert l'. induction l as [|a l IH]; intros [|b l'] H; try discriminate H.
  - constructor.
  - cbn [map] in H. injection H as Ha Hl. constructor; auto.
Qed.

Section EncoderCases.

Variable float_repr : spec_float -> string.

(** A property of a value and its text that holds of every text the
    encoder returns, when it holds case by case. *)
Variable P : pyval -> string -> Prop.
Hypothesis none_case : P VNone "null".
Hypothesis true_case : P (VBool true) "true".
Hypothesis false_case : P (VBool false) "false".
Hypothesis int_case : forall z, P (VInt z) (decimal z).
Hypothesis float_case : forall f, P (VFloat f) (floatstr float_repr f).
Hypothesis str_case : forall s, P (VStr s) (encode_basestring_ascii s).
Hypothesis list_case :
  forall items texts,
    Forall2 P items texts ->
    P (VList items) ("[" +:+ join ", " texts +:+ "]").
Hypothesis dict_case :
  forall entries texts,
    Forall2 (fun kv t => P (snd kv) t) entries texts ->
    P (VDict entries) ("{" +:+ join ", " (member_texts entries texts) +:+ "}").

Lemma members_sequence (encode1 : pyval -> result string)
    (entries : list (string * pyval)) (parts : list string) :
  sequence (map (fun kv =>
                   rbind (encode1 (snd kv)) (fun text =>
                   Ok (encode_basestring_ascii (fst kv) +:+ ": " +:+ text)))
                entries) = Ok parts ->
  exists texts,
    Forall2 (fun kv t => encode1 (snd kv) = Ok t) entries texts /\
    parts = member_texts entries texts.
Proof.
  revert parts. induction entries as [|kv entries IH]; intros parts;
    cbn [map sequence].
  - intros [= <-]. exists []. split; [constructor|reflexivity].
  - destruct (encode1 (snd kv)) as [t|e] eqn:Et; cbn [rbind]; [|discriminate].
    destruct (sequence _) as [ps|e]; cbn [rbind]; [|discriminate].
    intros [= <-]. destruct (IH ps eq_refl) as (texts & Hall & ->).
    exists (t :: texts). split; [now constructor|reflexivity].
Qed.

Lemma encode_value_cases (budget : nat) (v : pyval) (text : string) :
  encode_value float_repr budget v = Ok text -> P v text.
Proof.
  revert v text. induction budget as [|budget IH]; intros v text;
    destruct v as [| [] | z | f | s | items | entries];
    cbn [encode_value]; intros H;
    try (injection H as <-; auto; fail);
    try (apply int_repr_Ok in H; subst; apply int_case);
    try discriminate H.
  - destruct (sequence _) as [parts|e] eqn:E; cbn [rbind] in H;
      [|discriminate]. injection H as <-. apply list_case.
    apply sequence_Ok, map_Ok_Forall2 in E.
    induction E; constructor; auto.
  - destruct (sequence _) as [parts|e] eqn:E; cbn [rbind] in H;
      [|discriminate]. injection H as <-.
    apply members_sequence in E as (texts & Hall & ->).
    apply dict_case. induction Hall; constructor; auto.
Qed.

End EncoderCases.

(** ** Reading back what the encoder wrote *)

Lemma is_ascii_digit_code (c : ascii) :
  is_ascii_digit c = true -> 48 <= code c <= 57.
Proof.
  unfold is_ascii_digit, in_class. intros H.
  apply andb_true_iff in H as [H1 H2]. apply Z.leb_le in H1, H2. lia.
Qed.

Lemma number_char_code (c : ascii) :
  number_char c = true ->
  48 <= code c <= 57 \/ code c = 45 \/ code c = 43 \/ code c = 46 \/
  code c = 101 \/ code c = 69.
Proof.
  unfold number_char, in_class. intros H.
  repeat (apply orb_true_iff in H as [H | H]);
    try (apply Z.eqb_eq in H; lia).
  apply andb_true_iff in H as [H1 H2]. apply Z.leb_le in H1, H2. lia.
Qed.

Lemma number_head_code (c : ascii) (r : string) :
  number_head (String c r) = true -> 48 <= code c <= 57 \/ code c = 45.
Proof.
  unfold number_head. intros H. apply orb_true_iff in H as [H | H].
  - left. now apply is_ascii_digit_code.
  - right. now apply Z.eqb_eq.
Qed.

Lemma delimited_code (c : ascii) (r : string) :
  delimited (String c r) = true ->
  code c = 44 \/ code c = 93 \/ code c = 125.
Proof.
  unfold delimited. intros H.
  repeat (apply orb_true_iff in H as [H | H]); apply Z.eqb_eq in H; lia.
Qed.

Lemma ascii_eqb_code (a b : ascii) : Ascii.eqb a b = (code a =? code b).
Proof.
  destruct (Ascii.eqb_spec a b) as [->|Hne].
  - now rewrite Z.eqb_refl.
  - symmetry. apply Z.eqb_neq. intros H. now apply code_inj in H.
Qed.

(** A text whose first character is not the first of [p] does not start
    with [p]. *)
Lemma strip_prefix_head (a c : ascii) (p r : string) :
  code a <> code c -> strip_prefix (String a p) (String c r) = None.
Proof.
  intros H. cbn [strip_prefix]. rewrite ascii_eqb_code.
  now destruct (Z.eqb_spec (code a) (code c)).
Qed.

Lemma skip_ws_value_head (s : string) : value_head s = true -> skip_ws s = s.
Proof.
  destruct s as [|c r]; [discriminate|]. cbn [value_head skip_ws].
  now destruct (is_ws c).
Qed.

Lemma value_head_append (t x : string) :
  value_head t = true -> value_head (t +:+ x) = true.
Proof. now destruct t. Qed.

Lemma skip_ws_delimited (s : string) : delimited s = true -> skip_ws s = s.
Proof.
  destruct s as [|c r]; [reflexivity|]. intros H.
  apply delimited_code in H. cbn [skip_ws]. unfold is_ws.
  destruct (Z.eqb_spec (code c) 32), (Z.eqb_spec (code c) 9),
    (Z.eqb_spec (code c) 10), (Z.eqb_spec (code c) 13);
    first [lia | reflexivity].
Qed.

Lemma number_head_value_head (t : string) :
  number_head t = true -> value_head t = true.
Proof.
  destruct t as [|c r]; [discriminate|]. intros H.
  apply number_head_code in H. unfold value_head, is_ws.
  destruct (Z.eqb_spec (code c) 32), (Z.eqb_spec (code c) 9),
    (Z.eqb_spec (code c) 10), (Z.eqb_spec (code c) 13),
    (Z.eqb_spec (code c) 93), (Z.eqb_spec (code c) 125);
    first [lia | reflexivity].
Qed.

(** The token of a number followed by a delimiter is the number. *)
Lemma read_token_number (t rest : string) :
  number_text t = true -> delimited rest = true ->
  read_token (t +:+ rest) = (t, rest).
Proof.
  intros Ht Hrest. induction t as [|c t IH].
  - rewrite append_nil_l. destruct rest as [|e rest]; [reflexivity|].
    apply delimited_code in Hrest. cbn [read_token].
    unfold number_char, in_class.
    destruct (Z.leb_spec 48 (code e)), (Z.leb_spec (code e) 57),
      (Z.eqb_spec (code e) 45), (Z.eqb_spec (code e) 43),
      (Z.eqb_spec (code e) 46), (Z.eqb_spec (code e) 101),
      (Z.eqb_spec (code e) 69); try lia; reflexivity.
  - cbn [number_text] in Ht. apply andb_true_iff in Ht as [Hc Ht].
    rewrite append_cons. cbn [read_token]. now rewrite Hc, (IH Ht).
Qed.

Lemma strip_Infinity (r rest : string) :
  number_text r = true -> delimited rest = true ->
  strip_prefix "Infinity" (r +:+ rest) = None.
Proof.
  intros Hr Hrest. destruct r as [|d r].
  - rewrite append_nil_l. destruct rest as [|e rest]; [reflexivity|].
    apply delimited_code in Hrest. apply strip_prefix_head.
    change (code "I") with 73. lia.
  - cbn [number_text] in Hr. apply andb_true_iff in Hr as [Hd _].
    apply number_char_code in Hd. rewrite append_cons.
    apply strip_prefix_head. change (code "I") with 73. lia.
Qed.

(** A number is no literal. *)
Lemma read_literal_number (t rest : string) :
  number_head t = true -> number_text t = true -> delimited rest = true ->
  read_literal (t +:+ rest) = None.
Proof.
  intros Hh Ht Hrest. destruct t as [|c r]; [discriminate|].
  pose proof (number_head_code _ _ Hh) as Hc.
  cbn [number_text] in Ht. apply andb_true_iff in Ht as [_ Hr].
  rewrite append_cons. unfold read_literal.
  rewrite (strip_prefix_head "n") by (change (code "n") with 110; lia).
  rewrite (strip_prefix_head "t") by (change (code "t") with 116; lia).
  rewrite (strip_prefix_head "f") by (change (code "f") with 102; lia).
  rewrite (strip_prefix_head "N") by (change (code "N") with 78; lia).
  rewrite (strip_prefix_head "I") by (change (code "I") with 73; lia).
  destruct (Z.eq_dec (code c) 45) as [E|E].
  - assert (c = "-"%char) as -> by (apply code_inj; rewrite E; reflexivity).
    change (strip_prefix "-Infinity" (String "-" (r +:+ rest)))
      with (strip_prefix "Infinity" (r +:+ rest)).
    now rewrite strip_Infinity.
  - rewrite (strip_prefix_head "-") by (change (code "-") with 45; lia).
    reflexivity.
Qed.

(** A number followed by a delimiter is read by [read_number]. *)
Lemma read_value_number (float_parse : string -> option spec_float)
    (fuel : nat) (t rest : string) :
  number_head t = true -> number_text t = true -> delimited rest = true ->
  read_value float_parse (S fuel) (t +:+ rest)
  = read_number float_parse (t +:+ rest).
Proof.
  intros Hh Ht Hrest.
  pose proof (read_literal_number t rest Hh Ht Hrest) as Hlit.
  destruct t as [|c r]; [discriminate|].
  apply number_head_code in Hh. rewrite append_cons in *.
  cbn [read_value].
  destruct (Z.eqb_spec (code c) 34); [lia|].
  destruct (Z.eqb_spec (code c) 91); [lia|].
  destruct (Z.eqb_spec (code c) 123); [lia|].
  now rewrite Hlit.
Qed.

Lemma read_number_int (float_parse : string -> option spec_float)
    (z : Z) (rest : string) :
  delimited rest = true ->
  read_number float_parse (decimal z +:+ rest) = Some (VInt z, rest).
Proof.
  intros Hrest.
  destruct (int_text_number _ (decimal_int_text z)) as (_ & Ht & Hf & _).
  destruct (decimal_read_back z) as [Hread Hback].
  unfold read_number. rewrite (read_token_number _ _ Ht Hrest), Hf, Hread.
  now rewrite Hback, String.eqb_refl.
Qed.

Lemma read_string_escape_char (c : ascii) (t : string) :
  read_string (escape_char c +:+ t) = push c (read_string t).
Proof. destruct c as [[] [] [] [] [] [] [] []]; reflexivity. Qed.

(** A string literal is read back as the string. *)
Lemma read_string_escape (s rest : string) :
  read_string (escape s +:+ String QUOTE rest) = Some (s, rest).
Proof.
  induction s as [|c s IH]; [reflexivity|].
  cbn [escape]. rewrite append_assoc, read_string_escape_char, IH.
  reflexivity.
Qed.

Lemma join_cons2 (sep p q : string) (rest : list string) :
  join sep (p :: q :: rest) = p +:+ sep +:+ join sep (q :: rest).
Proof. reflexivity. Qed.

Lemma join_value_head (t : string) (ts : list string) (x : string) :
  value_head t = true -> value_head (join ", " (t :: ts) +:+ x) = true.
Proof.
  intros Ht. apply value_head_append.
  destruct ts; [exact Ht|]. rewrite join_cons2. now apply value_head_append.
Qed.

(** The length of a joined text bounds the weights of its parts. *)
Lemma join_length_bound (ws : list nat) (ms : list string) :
  Forall2 (fun w m => (w <= String.length m)%nat) ws ms ->
  (length ws + list_sum ws <= String.length (join ", " ms) + 1)%nat.
Proof.
  induction 1 as [|w m ws ms Hw Hrest IH]; [cbn; lia|].
  destruct Hrest as [|w' m' ws' ms' Hw' Hrest'].
  - cbn [join length list_sum fold_right]. lia.
  - rewrite join_cons2, !length_append.
    cbn [length list_sum fold_right String.length] in *. lia.
Qed.

Lemma member_texts_cons (key : string) (v : pyval)
    (entries : list (string * pyval)) (t : string) (texts : list string) :
  member_texts ((key, v) :: entries) (t :: texts)
  = (encode_basestring_ascii key +:+ ": " +:+ t) :: member_texts entries texts.
Proof. reflexivity. Qed.

Lemma member_text_shape (key t x : string) :
  (encode_basestring_ascii key +:+ ": " +:+ t) +:+ x
  = String QUOTE (escape key +:+ String QUOTE
                    (String ":" (String " " (t +:+ x)))).
Proof.
  unfold encode_basestring_ascii.
  rewrite !append_assoc, append_cons, !append_assoc. reflexivity.
Qed.

Section ReadBack.

Variable read : string -> option (pyval * string).

Lemma read_items_join (items : list pyval) (texts : list string)
    (rest : string) :
  Forall2 (reads_back read) items texts -> items <> [] ->
  forall fuel s,
    (length items <= fuel)%nat ->
    skip_ws s = join ", " texts +:+ String "]" rest ->
    read_items read fuel s = Some (items, rest).
Proof.
  induction 1 as [|v t vs ts [Hhead Hread] Hrest IH]; [congruence|].
  intros _ fuel s Hfuel Hs. destruct fuel as [|fuel]; [cbn in Hfuel; lia|].
  cbn [read_items]. rewrite Hs.
  destruct Hrest as [|v2 t2 vs' ts' Hv2 Hrest'].
  - cbn [join]. rewrite (Hread (String "]" rest) eq_refl).
    reflexivity.
  - rewrite join_cons2, !append_assoc.
    change (", " +:+ join ", " (t2 :: ts') +:+ String "]" rest)
      with (String "," (String " " (join ", " (t2 :: ts')
                                    +:+ String "]" rest))).
    rewrite Hread by reflexivity.
    change (skip_ws (String "," ?x)) with (String "," x).
    cbn [skip_ws]. change (is_ws ",") with false. cbn iota.
    change (code "," =? 44) with true. cbn iota.
    rewrite (IH ltac:(congruence) fuel); [reflexivity|cbn in *; lia|].
    cbn [skip_ws]. change (is_ws " ") with true. cbn iota.
    apply skip_ws_value_head, join_value_head. apply Hv2.
Qed.

Lemma read_members_join (entries : list (string * pyval))
    (texts : list string) (rest : string) :
  Forall2 (fun kv t => reads_back read (snd kv) t) entries texts ->
  entries <> [] ->
  forall fuel s,
    (length entries <= fuel)%nat ->
    skip_ws s = join ", " (member_texts entries texts) +:+ String "}" rest ->
    read_members read fuel s = Some (entries, rest).
Proof.
  induction 1 as [|[key v] t vs ts [Hhead Hread] Hrest IH]; [congruence|].
  cbn [snd] in *.
  intros _ fuel s Hfuel Hs. destruct fuel as [|fuel]; [cbn in Hfuel; lia|].
  assert (Hvalue : forall x, delimited x = true ->
            read (skip_ws (String " " (t +:+ x))) = Some (v, x)).
  { intros x Hx. cbn [skip_ws]. change (is_ws " ") with true. cbn iota.
    rewrite skip_ws_value_head by now apply value_head_append.
    now apply Hread. }
  assert (Hone : forall x r,
            delimited x = true ->
            skip_ws s = (encode_basestring_ascii key +:+ ": " +:+ t) +:+ x ->
            (forall c r4, x = String c r4 ->
               (if code c =? 44
                then match read_members read fuel r4 with
                     | Some (kvs, rest') => Some ((key, v) :: kvs, rest')
                     | None => None
                     end
                else if code c =? 125 then Some ([(key, v)], r4) else None)
               = r) ->
            x <> EmptyString ->
            read_members read (S fuel) s = r).
  { intros x r Hx Hsx Hnext Hne. cbn [read_members].
    rewrite Hsx, member_text_shape.
    change (code QUOTE =? 34) with true. cbn [negb]. cbn iota.
    rewrite read_string_escape.
    cbn [skip_ws]. change (is_ws ":") with false. cbn iota.
    change (code ":" =? 58) with true. cbn [negb]. cbn iota.
    rewrite (Hvalue x Hx), (skip_ws_delimited x Hx).
    destruct x as [|c r4]; [congruence|]. now apply Hnext. }
  rewrite member_texts_cons in Hs.
  destruct Hrest as [|[key2 v2] t2 vs' ts' Hv2 Hrest'].
  - cbn [member_texts combine map join] in Hs.
    apply (Hone (String "}" rest)); [reflexivity|exact Hs| |discriminate].
    now intros c r4 [= <- <-].
  - rewrite member_texts_cons, join_cons2, append_assoc in Hs.
    apply (Hone (", " +:+ join ", " ((encode_basestring_ascii key2 +:+ ": "
                                       +:+ t2) :: member_texts vs' ts')
                 +:+ String "}" rest));
      [reflexivity|exact Hs| |discriminate].
    intros c r4 E.
    change (String "," (String " "
              (join ", " ((encode_basestring_ascii key2 +:+ ": " +:+ t2)
                          :: member_texts vs' ts') +:+ String "}" rest))
            = String c r4) in E.
    injection E as <- <-. change (code "," =? 44) with true. cbn iota.
    rewrite (IH ltac:(congruence) fuel); [reflexivity|cbn in *; lia|].
    cbn [skip_ws]. change (is_ws " ") with true. cbn iota.
    rewrite member_texts_cons.
    apply skip_ws_value_head, join_value_head. reflexivity.
Qed.

End ReadBack.

Section RoundTrip.

Variable float_repr : spec_float -> string.
Variable float_parse : string -> option spec_float.

Lemma read_back_literal (v : pyval) (text : string) :
  value_head text = true -> (1 <= String.length text)%nat -> weight v = 1%nat ->
  (forall rest, read_value float_parse 1 (text +:+ rest) = Some (v, rest)) ->
  (forall fuel rest, read_value float_parse (S fuel) (text +:+ rest)
                     = read_value float_parse 1 (text +:+ rest)) ->
  read_back float_repr float_parse v text.
Proof.
  intros Hh Hl Hw Hread Hfuel _. split; [exact Hh|]. split; [lia|].
  intros [|fuel] rest Hle _; [lia|]. now rewrite Hfuel.
Qed.

Ltac literal_case :=
  apply read_back_literal;
  [reflexivity | cbn; lia | reflexivity | intros; reflexivity
  | intros; reflexivity].

Lemma read_back_number (v : pyval) (t : string) :
  number_head t = true -> number_text t = true -> weight v = 1%nat ->
  (forall rest, delimited rest = true ->
                read_number float_parse (t +:+ rest) = Some (v, rest)) ->
  value_head t = true /\
  (weight v <= String.length t)%nat /\
  forall fuel rest,
    (weight v <= fuel)%nat -> delimited rest = true ->
    read_value float_parse fuel (t +:+ rest) = Some (v, rest).
Proof.
  intros Hh Ht Hw Hread.
  split; [now apply number_head_value_head|]. split.
  - rewrite Hw. destruct t; [discriminate|cbn; lia].
  - intros [|fuel] rest Hle Hrest; [lia|].
    rewrite read_value_number by assumption. now apply Hread.
Qed.

Lemma read_back_float (f : spec_float) :
  read_back float_repr float_parse (VFloat f) (floatstr float_repr f).
Proof.
  destruct f as [s| [] | |s m e].
  - intros Hf. specialize (Hf _ (or_introl eq_refl)) as [Ht Hp].
    cbn [floatstr].
    apply andb_true_iff in Ht as [Ht Hfl]. apply andb_true_iff in Ht as [Hh Ht].
    apply read_back_number; auto. intros rest Hrest.
    unfold read_number. now rewrite (read_token_number _ _ Ht Hrest), Hfl, Hp.
  - literal_case.
  - literal_case.
  - literal_case.
  - intros Hf. specialize (Hf _ (or_introl eq_refl)) as [Ht Hp].
    cbn [floatstr].
    apply andb_true_iff in Ht as [Ht Hfl]. apply andb_true_iff in Ht as [Hh Ht].
    apply read_back_number; auto. intros rest Hrest.
    unfold read_number. now rewrite (read_token_number _ _ Ht Hrest), Hfl, Hp.
Qed.

Lemma Forall2_weights (items : list pyval) (texts : list string) :
  Forall2 (fun v t => (weight v <= String.length t)%nat) items texts ->
  Forall2 (fun w m => (w <= String.length m)%nat) (map weight items) texts.
Proof. induction 1; constructor; auto. Qed.

Lemma list_sum_In (w : nat) (ws : list nat) :
  In w ws -> (w <= list_sum ws)%nat.
Proof.
  induction ws as [|x ws IH]; [intros []|].
  cbn [list_sum fold_right]. intros [->|H]; [lia|].
  specialize (IH H). unfold list_sum in IH. lia.
Qed.

Theorem encode_value_read_back (budget : nat) (v : pyval) (text : string) :
  encode_value float_repr budget v = Ok text ->
  read_back float_repr float_parse v text.
Proof.
  apply (encode_value_cases float_repr (read_back float_repr float_parse));
    clear budget v text.
  - literal_case.
  - literal_case.
  - literal_case.
  - intros z _.
    destruct (int_text_number _ (decimal_int_text z)) as (Hh & Ht & _ & _).
    apply read_back_number; auto. intros rest. apply read_number_int.
  - apply read_back_float.
  - intros s. apply read_back_literal;
      [reflexivity| |reflexivity| |intros; reflexivity].
    + unfold encode_basestring_ascii. cbn [String.length]. lia.
    + intros rest. unfold encode_basestring_ascii.
      rewrite append_cons, append_assoc.
      change (String QUOTE "" +:+ rest) with (String QUOTE rest).
      cbn [read_value]. change (code QUOTE =? 34) with true. cbn iota.
      now rewrite read_string_escape.
  - intros items texts Hall Hfloats.
    assert (Hitems : Forall2 (fun v t =>
              value_head t = true /\ (weight v <= String.length t)%nat /\
              forall fuel rest,
                (weight v <= fuel)%nat -> delimited rest = true ->
                read_value float_parse fuel (t +:+ rest) = Some (v, rest))
              items texts).
    { clear - Hall Hfloats. induction Hall as [|v t vs ts Hv _ IH];
        constructor.
      - apply Hv. intros f Hf. apply Hfloats. cbn [floats_of flat_map].
        apply in_or_app. now left.
      - apply IH. intros f Hf. apply Hfloats. cbn [floats_of flat_map] in *.
        apply in_or_app. now right. }
    clear Hall Hfloats.
    assert (Hbound : (length items + list_sum (map weight items)
                      <= String.length (join ", " texts) + 1)%nat).
    { rewrite <- (length_map weight). apply join_length_bound.
      apply Forall2_weights. induction Hitems; constructor; tauto. }
    split; [reflexivity|]. split.
    { cbn [weight]. rewrite append_cons, append_nil_l.
      cbn [String.length]. rewrite length_append. cbn [String.length]. lia. }
    intros [|fuel] rest Hfuel Hrest; [cbn in Hfuel; lia|].
    cbn [weight] in Hfuel.
    rewrite !append_assoc.
    change (read_value float_parse (S fuel)
              (String "[" (join ", " texts +:+ String "]" rest))
            = Some (VList items, rest)).
    cbn [read_value].
    change (code "[" =? 34) with false. cbn iota.
    change (code "[" =? 91) with true. cbn iota.
    destruct Hitems as [|v t vs ts Hv Hrest'] eqn:Eitems; [reflexivity|].
    assert (Hhead : value_head (join ", " (t :: ts) +:+ String "]" rest)
                    = true)
      by (apply join_value_head, Hv).
    rewrite (skip_ws_value_head _ Hhead).
    destruct (join ", " (t :: ts) +:+ String "]" rest) as [|d r] eqn:Etext;
      [discriminate|].
    cbn [value_head] in Hhead.
    destruct (code d =? 93); [now rewrite andb_false_r in Hhead|].
    rewrite <- Etext.
    rewrite (read_items_join (read_value float_parse fuel) (v :: vs) (t :: ts)
               rest); [reflexivity| |discriminate|cbn [length] in *; lia|].
    + clear Eitems. assert (Hall : Forall2 (fun v t =>
                value_head t = true /\ (weight v <= String.length t)%nat /\
                forall fuel rest,
                  (weight v <= fuel)%nat -> delimited rest = true ->
                  read_value float_parse fuel (t +:+ rest) = Some (v, rest))
                (v :: vs) (t :: ts)) by now constructor.
      assert (Hw : forall x, In x (v :: vs) -> (weight x <= fuel)%nat).
      { intros x Hx. apply (in_map weight) in Hx. apply list_sum_In in Hx.
        lia. }
      clear - Hall Hw. induction Hall as [|x p xs ps (Hh & _ & Hr) _ IH];
        constructor.
      * split; [exact Hh|]. intros rest Hrest. apply Hr; [|exact Hrest].
        apply Hw. now left.
      * apply IH. intros y Hy. apply Hw. now right.
    + apply skip_ws_value_head. now apply join_value_head, Hv.
  - intros entries texts Hall Hfloats.
    assert (Hitems : Forall2 (fun kv t =>
              value_head t = true /\
              (weight (snd kv) <= String.length t)%nat /\
              forall fuel rest,
                (weight (snd kv) <= fuel)%nat -> delimited rest = true ->
                read_value float_parse fuel (t +:+ rest)
                = Some (snd kv, rest))
              entries texts).
    { clear - Hall Hfloats. induction Hall as [|v t vs ts Hv _ IH];
        constructor.
      - apply Hv. intros f Hf. apply Hfloats. cbn [floats_of flat_map].
        apply in_or_app. now left.
      - apply IH. intros f Hf. apply Hfloats. cbn [floats_of flat_map] in *.
        apply in_or_app. now right. }
    clear Hall Hfloats.
    assert (Hbound : (length entries
                      + list_sum (map (fun kv => weight (snd kv)) entries)
                      <= String.length
                           (join ", " (member_texts entries texts)) + 1)%nat).
    { rewrite <- (length_map (fun kv => weight (snd kv))).
      apply join_length_bound. clear - Hitems.
      induction Hitems as [|[k v] t vs ts (_ & Hw & _) _ IH];
        [constructor|].
      unfold member_texts. cbn [combine map fst snd]. constructor; [|exact IH].
      rewrite !length_append. cbn [snd] in Hw. lia. }
    split; [reflexivity|]. split.
    { cbn [weight]. rewrite append_cons, append_nil_l.
      cbn [String.length]. rewrite length_append. cbn [String.length]. lia. }
    intros [|fuel] rest Hfuel Hrest; [cbn in Hfuel; lia|].
    cbn [weight] in Hfuel.
    rewrite !append_assoc.
    change (read_value float_parse (S fuel)
              (String "{" (join ", " (member_texts entries texts)
                           +:+ String "}" rest))
            = Some (VDict entries, rest)).
    cbn [read_value].
    change (code "{" =? 34) with false. cbn iota.
    change (code "{" =? 91) with false. cbn iota.
    change (code "{" =? 123) with true. cbn iota.
    destruct Hitems as [|[k v] t vs ts Hv Hrest'] eqn:Eitems; [reflexivity|].
    assert (Hhead : value_head
                      (join ", " (member_texts ((k, v) :: vs) (t :: ts))
                       +:+ String "}" rest) = true).
    { rewrite member_texts_cons. apply join_value_head. reflexivity. }
    rewrite (skip_ws_value_head _ Hhead).
    destruct (join ", " (member_texts ((k, v) :: vs) (t :: ts))
              +:+ String "}" rest) as [|d r] eqn:Etext; [discriminate|].
    cbn [value_head] in Hhead.
    destruct (code d =? 125); [now rewrite andb_false_r in Hhead|].
    rewrite <- Etext.
    rewrite (read_members_join (read_value float_parse fuel) ((k, v) :: vs)
               (t :: ts) rest);
      [reflexivity| |discriminate|cbn [length] in *; lia|].
    + clear Eitems. assert (Hall : Forall2 (fun kv t =>
                value_head t = true /\
                (weight (snd kv) <= String.length t)%nat /\
                forall fuel rest,
                  (weight (snd kv) <= fuel)%nat -> delimited rest = true ->
                  read_value float_parse fuel (t +:+ rest)
                  = Some (snd kv, rest))
                ((k, v) :: vs) (t :: ts)) by now constructor.
      assert (Hw : forall x, In x ((k, v) :: vs) ->
                             (weight (snd x) <= fuel)%nat).
      { intros x Hx. apply (in_map (fun kv => weight (snd kv))) in Hx.
        apply list_sum_In in Hx. lia. }
      clear - Hall Hw. induction Hall as [|x p xs ps (Hh & _ & Hr) _ IH];
        constructor.
      * split; [exact Hh|]. intros rest Hrest. apply Hr; [|exact Hrest].
        apply Hw. now left.
      * apply IH. intros y Hy. apply Hw. now right.
    + apply skip_ws_value_head. rewrite member_texts_cons.
      apply join_value_head. reflexivity.
Qed.

(** The text [json.dumps] returns denotes the value it was given. *)
Theorem json_loads_json_dumps (budget : nat) (v : pyval) (text : string) :
  json_dumps float_repr budget v = Ok text ->
  (forall f, In f (floats_of v) ->
             float_round_trips float_repr float_parse f) ->
  json_loads float_parse text = Some v.
Proof.
  intros Hdumps Hfloats.
  destruct (encode_value_read_back budget v text Hdumps Hfloats)
    as (Hhead & Hweight & Hread).
  unfold json_loads. rewrite (skip_ws_value_head _ Hhead).
  rewrite <- (append_nil_r text) at 2.
  rewrite (Hread (S (String.length text)) "" ltac:(lia) eq_refl).
  reflexivity.
Qed.

End RoundTrip.

(* ===================================================================== *)
(** * The Writer *)
(* ===================================================================== *)

Section EncoderTexts.

Variable float_repr : spec_float -> string.

(** With [json.dumps] escaping every character outside the printable ASCII
    range, the text of a record is printable ASCII whatever strings the
    provider sent, given that the texts of its floats are. *)
Lemma encode_value_printable (budget : nat) (v : pyval) (text : string) :
  encode_value float_repr budget v = Ok text ->
  (forall f, In f (floats_of v) -> printable (floatstr float_repr f) = true) ->
  printable text = true.
Proof.
  apply (encode_value_cases float_repr
           (fun v text =>
              (forall f, In f (floats_of v) ->
                         printable (floatstr float_repr f) = true) ->
              printable text = true)); clear budget v text;
    try reflexivity.
  - intros z _.
    now destruct (int_text_number _ (decimal_int_text z)) as (_ & _ & _ & Hp).
  - intros f Hf. apply Hf. now left.
  - intros s _. apply encode_basestring_ascii_printable.
  - intros items texts Hall Hf. rewrite !printable_append.
    rewrite join_printable; [reflexivity|reflexivity|].
    induction Hall as [|v t vs ts Hv _ IH]; constructor.
    + apply Hv. intros f Hin. apply Hf. cbn [floats_of flat_map].
      apply in_or_app. now left.
    + apply IH. intros f Hin. apply Hf. cbn [floats_of flat_map] in *.
      apply in_or_app. now right.
  - intros entries texts Hall Hf. rewrite !printable_append.
    rewrite join_printable; [reflexivity|reflexivity|].
    induction Hall as [|[k v] t vs ts Hv _ IH];
      [constructor|rewrite member_texts_cons; constructor].
    + rewrite !printable_append, encode_basestring_ascii_printable.
      cbn [snd] in Hv. rewrite Hv; [reflexivity|].
      intros f Hin. apply Hf. cbn [floats_of flat_map snd].
      apply in_or_app. now left.
    + apply IH. intros f Hin. apply Hf. cbn [floats_of flat_map] in *.
      apply in_or_app. now right.
Qed.

(** The text of a float that keeps the contract of [repr] is printable. *)
Lemma float_round_trips_printable
    (float_parse : string -> option spec_float) (f : spec_float) :
  float_round_trips float_repr float_parse f ->
  printable (floatstr float_repr f) = true.
Proof.
  destruct f as [s| [] | |s m e]; try reflexivity;
    intros [Ht _]; cbn [floatstr];
    apply andb_true_iff in Ht as [Ht _]; apply andb_true_iff in Ht as [_ Ht];
    now apply number_text_printable.
Qed.

End EncoderTexts.

Lemma only_file_refl (path : string) (w : world) : only_file path w w.
Proof. unfold only_file; auto. Qed.

Lemma only_file_trans (path : string) (w1 w2 w3 : world) :
  only_file path w1 w2 -> only_file path w2 w3 -> only_file path w1 w3.
Proof.
  unfold only_file. intros (? & ? & ? & H12) (? & ? & ? & H23).
  repeat split; try congruence.
  intros other Hne. now rewrite H23, H12.
Qed.

Section WriterFacts.

Variable float_repr : spec_float -> string.
Variable recursion_budget : nat.
Variable resolve : string -> string.
Variable io_fault : nat -> option exn.

Lemma file_write_frame (filename text : string) (w : world) :
  only_file (resolve filename) w
    (snd (file_write resolve io_fault filename text w)).
Proof.
  unfold file_write, file_op, only_file.
  destruct (io_fault (io_ops w)); cbn; repeat split; auto.
  intros other Hne. now rewrite lookup_insert_ne.
Qed.

Lemma write_record_frame (filename : string) (holiday : pyval) (w : world) :
  only_file (resolve filename) w
    (snd (write_record float_repr recursion_budget resolve io_fault filename
            tt holiday w)).
Proof.
  unfold write_record, bind, lift.
  destruct (json_dumps float_repr recursion_budget holiday) as [text|e].
  - apply file_write_frame.
  - apply only_file_refl.
Qed.

Lemma write_loop_frame (filename : string) (data : list pyval) (w : world) :
  only_file (resolve filename) w
    (snd (for_each data tt
            (write_record float_repr recursion_budget resolve io_fault
               filename) w)).
Proof.
  revert w. induction data as [|h rest IH]; intros w.
  - apply only_file_refl.
  - cbn [for_each]. unfold bind.
    pose proof (write_record_frame filename h w) as Hw.
    destruct (write_record float_repr recursion_budget resolve io_fault
                filename tt h w) as [[[]|e] w1];
      cbn [snd] in *; [|exact Hw].
    eapply only_file_trans; [exact Hw|apply IH].
Qed.

(** Without a fault, and when every record has a text, the loop of the
    Writer appends one line per record. *)
Lemma write_loop (filename content : string) (data : list pyval)
    (texts : list string) (w : world) :
  files w !! resolve filename = Some content ->
  (forall k, (k < length data)%nat -> io_fault (io_ops w + k)%nat = None) ->
  map (json_dumps float_repr recursion_budget) data = map Ok texts ->
  for_each data tt
    (write_record float_repr recursion_budget resolve io_fault filename) w
  = (Ok tt, wrote (resolve filename) (content +:+ unlines texts)
              (length data) w).
Proof.
  revert content texts w.
  induction data as [|h rest IH]; intros content texts w Hfile Hok Htexts.
  - destruct texts; [|discriminate].
    cbn [for_each unlines length]. unfold ret, wrote.
    rewrite append_nil_r, insert_id by exact Hfile.
    rewrite Nat.add_0_r. now destruct w.
  - destruct texts as [|t texts]; [discriminate|].
    cbn [map] in Htexts. injection Htexts as Ht Htexts.
    cbn [for_each]. unfold bind at 1, write_record at 1, bind, lift.
    rewrite Ht. unfold file_write at 1, file_op.
    pose proof (Hok 0%nat ltac:(cbn; lia)) as H0.
    rewrite Nat.add_0_r in H0. rewrite H0, Hfile. cbn [default].
    rewrite (IH (content +:+ (t +:+ String LF "")) texts); [| | |exact Htexts].
    + unfold wrote. cbn [stdout requests opened files io_ops unlines length].
      rewrite insert_insert_eq, append_assoc.
      do 2 f_equal. lia.
    + cbn [files]. apply lookup_insert_eq.
    + intros k Hk. cbn [io_ops].
      replace (S (io_ops w) + k)%nat with (io_ops w + S k)%nat by lia.
      apply Hok. cbn [length]. lia.
Qed.

(** A write without a fault of records that all have a text: the file
    holds the lines of [data] and nothing else, whatever it held before. *)
Lemma save_to_file_ok (filename : string) (data : list pyval)
    (texts : list string) (w : world) :
  (forall k, (k <= S (length data))%nat ->
             io_fault (io_ops w + k)%nat = None) ->
  map (json_dumps float_repr recursion_budget) data = map Ok texts ->
  save_to_file float_repr recursion_budget resolve io_fault filename data w
  = (Ok tt,
     mk_world (stdout w ++ [MsgSaved filename]) (requests w)
              (opened w ++ [filename])
              (<[resolve filename := unlines texts]> (files w))
              (io_ops w + length data + 2)%nat).
Proof.
  intros Hok Htexts. unfold save_to_file. rewrite try_except_bind.
  unfold with_open, open_w. unfold bind at 1. unfold bind at 1.
  unfold file_op at 1. cbn [io_ops files stdout requests opened].
  pose proof (Hok 0%nat ltac:(lia)) as H0. rewrite Nat.add_0_r in H0.
  rewrite H0.
  rewrite (write_loop filename EmptyString data texts); [| | |exact Htexts].
  - unfold file_close, file_op, wrote.
    cbn [io_ops files stdout requests opened].
    replace (S (io_ops w) + length data)%nat
      with (io_ops w + S (length data))%nat by lia.
    rewrite (Hok (S (length data)) ltac:(lia)).
    unfold try_except, print.
    cbn [io_ops files stdout requests opened].
    rewrite insert_insert_eq, append_nil_l.
    do 2 f_equal. lia.
  - cbn [files]. apply lookup_insert_eq.
  - intros k Hk. cbn [io_ops].
    replace (S (io_ops w) + k)%nat with (io_ops w + S k)%nat by lia.
    apply Hok. lia.
Qed.

(** Whatever fails, the Writer returns; it has opened [filename], printed
    one line, and left every other file as it was. *)
Lemma save_to_file_effect (filename : string) (data : list pyval) (w : world) :
  exists msg w',
    save_to_file float_repr recursion_budget resolve io_fault filename data w
    = (Ok tt, w') /\
    stdout w' = stdout w ++ [msg] /\
    requests w' = requests w /\
    opened w' = opened w ++ [filename] /\
    forall other, other <> resolve filename ->
                  files w' !! other = files w !! other.
Proof.
  unfold save_to_file. rewrite try_except_bind.
  unfold with_open, open_w. unfold bind at 1. unfold bind at 1.
  set (w1 := mk_world (stdout w) (requests w) (opened w ++ [filename])
               (files w) (io_ops w)).
  assert (Hhandled : forall e w2,
    only_file (resolve filename) w1 w2 ->
    exists msg w',
      match (if is_IOError e
             then Some (print (MsgWriteFailed filename e))
             else Some (print (MsgSaveUnexpected e))) with
      | Some h => h w2
      | None => (Raise e, w2)
      end = (Ok tt, w') /\
      stdout w' = stdout w ++ [msg] /\ requests w' = requests w /\
      opened w' = opened w ++ [filename] /\
      forall other, other <> resolve filename ->
                    files w' !! other = files w !! other).
  { intros e w2 (Hs & Hr & Ho & Hf).
    destruct (is_IOError e); unfold print; do 2 eexists;
      (split; [reflexivity|]); cbn [stdout requests opened files];
      rewrite Hs, Hr, Ho; repeat split; exact Hf. }
  assert (Hopen : only_file (resolve filename) w1 (snd (file_op io_fault
                    (fun fs => <[resolve filename := EmptyString]> fs) w1))).
  { unfold file_op, only_file. destruct (io_fault (io_ops w1)); cbn;
      repeat split; auto. intros other Hne. now rewrite lookup_insert_ne. }
  destruct (file_op io_fault _ w1) as [[[]|e] w2]; cbn [snd] in Hopen;
    [|now apply Hhandled].
  pose proof (write_loop_frame filename data w2) as Hloop.
  destruct (for_each data tt _ w2) as [[[]|e] w3]; cbn [snd] in Hloop.
  - assert (Hclose : only_file (resolve filename) w3
                       (snd (file_close io_fault w3))).
    { unfold file_close, file_op, only_file.
      destruct (io_fault (io_ops w3)); cbn; repeat split; auto. }
    pose proof (only_file_trans _ _ _ _ Hopen
                  (only_file_trans _ _ _ _ Hloop Hclose)) as Hall.
    destruct (file_close io_fault w3) as [[[]|e] w4]; cbn [snd] in Hall;
      [|now apply Hhandled].
    unfold try_except, print. destruct Hall as (Hs & Hr & Ho & Hf).
    do 2 eexists. split; [reflexivity|].
    cbn [stdout requests opened files]. rewrite Hs, Hr, Ho.
    repeat split; exact Hf.
  - assert (Hclose : only_file (resolve filename) w3
                       (snd (file_close io_fault w3))).
    { unfold file_close, file_op, only_file.
      destruct (io_fault (io_ops w3)); cbn; repeat split; auto. }
    pose proof (only_file_trans _ _ _ _ Hopen
                  (only_file_trans _ _ _ _ Hloop Hclose)) as Hall.
    destruct (file_close io_fault w3) as [[[]|e'] w4]; cbn [snd] in Hall;
      now apply Hhandled.
Qed.

(** The loop either meets no fault and finds a text for every record, or
    raises. *)
Lemma write_loop_cases (filename : string) (data : list pyval) (w : world) :
  ((forall k, (k < length data)%nat -> io_fault (io_ops w + k)%nat = None) /\
   exists texts,
     map (json_dumps float_repr recursion_budget) data = map Ok texts) \/
  exists e w',
    for_each data tt
      (write_record float_repr recursion_budget resolve io_fault filename) w
    = (Raise e, w').
Proof.
  revert w. induction data as [|h rest IH]; intros w.
  - left. split; [cbn [length]; lia|]. now exists [].
  - cbn [for_each]. unfold bind at 1, write_record at 1, bind, lift.
    destruct (json_dumps float_repr recursion_budget h) as [t|e] eqn:Et;
      [|right; eauto].
    unfold file_write at 1, file_op.
    destruct (io_fault (io_ops w)) as [e|] eqn:E0; [right; eauto|].
    match goal with
    | |- _ \/ (exists e w', for_each _ _ _ ?w1 = _) =>
        destruct (IH w1) as [[Hrest [texts Htexts]] | Hfail]
    end.
    + left. split.
      * intros [|k] Hk; [now rewrite Nat.add_0_r|].
        cbn [io_ops] in Hrest.
        replace (io_ops w + S k)%nat with (S (io_ops w) + k)%nat by lia.
        apply Hrest. cbn [length] in Hk. lia.
      * exists (t :: texts). cbn [map]. now rewrite Et, Htexts.
    + right. exact Hfail.
Qed.

(** Either no file operation of the call fails and every record has a
    text, or the Writer reports the failure. *)
Lemma save_to_file_cases (filename : string) (data : list pyval) (w : world) :
  ((forall k, (k <= S (length data))%nat ->
              io_fault (io_ops w + k)%nat = None) /\
   exists texts,
     map (json_dumps float_repr recursion_budget) data = map Ok texts) \/
  exists e,
    stdout (snd (save_to_file float_repr recursion_budget resolve io_fault
                   filename data w))
    = stdout w ++ [write_failure filename e].
Proof.
  unfold save_to_file. rewrite try_except_bind.
  unfold with_open, open_w. unfold bind at 1. unfold bind at 1.
  set (w1 := mk_world (stdout w) (requests w) (opened w ++ [filename])
               (files w) (io_ops w)).
  assert (Hhandled : forall e w2,
    stdout w2 = stdout w ->
    stdout (snd (match (if is_IOError e
                        then Some (print (MsgWriteFailed filename e))
                        else Some (print (MsgSaveUnexpected e))) with
                 | Some h => h w2
                 | None => (@Raise unit e, w2)
                 end))
    = stdout w ++ [write_failure filename e]).
  { intros e w2 Hs. unfold write_failure.
    destruct (is_IOError e); unfold print; cbn [snd stdout]; now rewrite Hs. }
  unfold file_op at 1.
  destruct (io_fault (io_ops w1)) as [e|] eqn:E0.
  { right. exists e. now apply Hhandled. }
  change (io_ops w1) with (io_ops w) in E0.
  set (w2' := mk_world (stdout w1) (requests w1) (opened w1)
                (<[resolve filename := EmptyString]> (files w1))
                (S (io_ops w1))).
  destruct (write_loop_cases filename data w2')
    as [[Hloop [texts Htexts]] | (e & w3 & Hfail)].
  - rewrite (write_loop filename EmptyString data texts w2');
      [|cbn [files]; apply lookup_insert_eq|exact Hloop|exact Htexts].
    unfold file_close, file_op.
    change (io_ops (wrote (resolve filename) ("" +:+ unlines texts)
                      (length data) w2'))
      with (S (io_ops w) + length data)%nat.
    destruct (io_fault (S (io_ops w) + length data)%nat) as [e|] eqn:Ec.
    { right. exists e. now apply Hhandled. }
    left. split; [|now exists texts]. intros k Hk.
    destruct (Nat.eq_dec k 0%nat) as [->|Hk0]; [now rewrite Nat.add_0_r|].
    destruct (Nat.eq_dec k (S (length data))) as [->|Hkn].
    { now replace (io_ops w + S (length data))%nat
        with (S (io_ops w) + length data)%nat by lia. }
    change (io_ops w2') with (S (io_ops w)) in Hloop.
    replace (io_ops w + k)%nat with (S (io_ops w) + (k - 1))%nat by lia.
    apply Hloop. lia.
  - right. rewrite Hfail.
    pose proof (write_loop_frame filename data w2') as Hframe.
    rewrite Hfail in Hframe. cbn [snd] in Hframe.
    destruct Hframe as (Hs & _).
    unfold file_close, file_op.
    destruct (io_fault (io_ops w3)) as [e'|].
    + exists e'. now apply Hhandled.
    + exists e. now apply Hhandled.
Qed.

(** When the Writer reports success, every record had a text, the file
    holds these texts, one per line, and no other file changed. *)
Lemma save_to_file_saved (filename : string) (data : list pyval) (w : world) :
  stdout (snd (save_to_file float_repr recursion_budget resolve io_fault
                 filename data w))
  = stdout w ++ [MsgSaved filename] ->
  exists texts,
    map (json_dumps float_repr recursion_budget) data = map Ok texts /\
    files (snd (save_to_file float_repr recursion_budget resolve io_fault
                  filename data w)) !! resolve filename
    = Some (unlines texts) /\
    forall other, other <> resolve filename ->
      files (snd (save_to_file float_repr recursion_budget resolve io_fault
                    filename data w)) !! other
      = files w !! other.
Proof.
  intros Hsaved.
  destruct (save_to_file_cases filename data w)
    as [[Hok [texts Htexts]] | [e Hfail]].
  - exists texts. split; [exact Htexts|].
    rewrite (save_to_file_ok filename data texts w Hok Htexts).
    cbn [snd files]. split; [apply lookup_insert_eq|].
    intros other Hne. now rewrite lookup_insert_ne.
  - rewrite Hfail in Hsaved. apply app_inv_head in Hsaved.
    unfold write_failure in Hsaved. destruct (is_IOError e); discriminate.
Qed.


End WriterFacts.

Example two_records_written :
  map_to_list
    (files (snd (save_to_file plain_float_repr deep plain_names no_fault
                   "UA.txt"
                   [VDict [("name", VStr "New Year"); ("day", VInt 1)];
                    VDict [("tags", VList [VBool true; VNone])]]
                   empty_world)))
  = [("UA.txt",
      String "{" (String QUOTE "name" +:+ String QUOTE ": "
        +:+ String QUOTE "New Year" +:+ String QUOTE ", "
        +:+ String QUOTE "day" +:+ String QUOTE ": 1}" +:+ String LF "{"
        +:+ String QUOTE "tags" +:+ String QUOTE ": [true, null]}"
        +:+ String LF ""))].
Proof. reflexivity. Qed.

(** The text of a record escapes a line feed inside a string. *)
Example line_feed_escaped :
  json_dumps plain_float_repr deep (VStr (String "a" (String LF "b")))
  = Ok (String QUOTE ("a" +:+ String BACKSLASH "nb" +:+ String QUOTE "")).
Proof. reflexivity. Qed.

Example write_failure_reported :
  stdout (snd (save_to_file plain_float_repr deep plain_names disk_full
                 "UA.txt" [VNone; VNone] empty_world))
  = [MsgWriteFailed "UA.txt" OSError].
Proof. reflexivity. Qed.

(** An integer of 4301 digits has no text: the Writer reports the
    [ValueError] as unexpected, after the records before it were written
    and the file closed. *)
Example integer_too_long_reported :
  let w := snd (save_to_file plain_float_repr deep plain_names no_fault
                  "UA.txt" [VInt 7; VInt (10 ^ 4300); VInt 8] empty_world) in
  stdout w = [MsgSaveUnexpected ValueError] /\
  files w !! "UA.txt" = Some (String "7" (String LF "")) /\
  io_ops w = 3%nat /\
  json_dumps plain_float_repr deep (VInt (10 ^ 4300 - 1))
  = Ok (decimal (10 ^ 4300 - 1)).
Proof. vm_compute. repeat split. Qed.

(** Containers nested deeper than the recursion limit allows have no text
    either. *)
Example nesting_too_deep_reported :
  stdout (snd (save_to_file plain_float_repr 1 plain_names no_fault
                 "UA.txt" [VList [VList []]] empty_world))
  = [MsgSaveUnexpected RecursionError] /\
  json_dumps plain_float_repr 2 (VList [VList []]) = Ok "[[]]".
Proof. split; reflexivity. Qed.

(** With names resolved, two names of one file write the same file. *)
Example two_names_one_file :
  let w := snd (save_to_file plain_float_repr deep without_dot_slash no_fault
                  "./UA.txt" [VInt 2]
                  (snd (save_to_file plain_float_repr deep without_dot_slash
                          no_fault "UA.txt" [VInt 1] empty_world))) in
  map_to_list (files w) = [("UA.txt", String "2" (String LF ""))] /\
  opened w = ["UA.txt"; "./UA.txt"].
Proof. split; reflexivity. Qed.


(** A record with a float, a text outside ASCII and nested containers is
    read back from its line. *)
Example record_read_back :
  let record :=
    VDict [("name", VStr (String (ascii_of_nat 233) (String LF "t")));
           ("score", VFloat (S754_zero false));
           ("tags", VList [VBool true; VNone; VInt (-3); VList []])] in
  match json_dumps plain_float_repr deep record with
  | Ok text => json_loads plain_float_parse text = Some record
  | Raise _ => False
  end.
Proof. reflexivity. Qed.

(* ===================================================================== *)
(** * The Orchestrator *)
(* ===================================================================== *)

(** From the year 1000 on, the year as [%Y] prints it is [YYYY]; checked on
    the years of [datetime]. *)
Lemma decimal_four_digits (y : Z) :
  1000 <= y <= MAXYEAR -> decimal y = four_digits y.
Proof.
  unfold MAXYEAR. intros Hy.
  assert (Hall : forallb (fun y => String.eqb (decimal y) (four_digits y))
                   (range 1000 10000) = true) by (vm_compute; reflexivity).
  rewrite forallb_forall in Hall. apply String.eqb_eq, Hall, range_In. lia.
Qed.

(** The text [strftime] gives a valid date: day and month on two digits,
    the year on as many digits as it has, with dashes between. *)
Lemma strftime_dmY_renders (d : datetime) :
  valid_date d ->
  exists dd mm yyyy,
    strftime_dmY d = dd +:+ "-" +:+ mm +:+ "-" +:+ yyyy /\
    renders dd 2 (day d) /\ renders mm 2 (month d) /\
    renders yyyy (year_width (year d)) (year d).
Proof.
  intros (Hy & Hm & Hd).
  pose proof (days_in_month_bound (year d) (month d)).
  exists (two_digits (day d)), (two_digits (month d)), (decimal (year d)).
  split; [reflexivity|].
  split; [apply two_digits_renders; lia|].
  split; [apply two_digits_renders; lia|now apply decimal_year_renders].
Qed.

Lemma strftime_dmY_dd_mm_yyyy (d : datetime) :
  valid_date d -> 1000 <= year d -> strftime_dmY d = dd_mm_yyyy d.
Proof.
  intros (Hy & _) H1000. unfold strftime_dmY, dd_mm_yyyy.
  rewrite decimal_four_digits; [reflexivity|lia].
Qed.

Section OrchestratorFacts.

Variable unicode_decimal : Z -> option Z.
Variable float_repr : spec_float -> string.
Variable recursion_budget : nat.
Variable API_KEY : option string.
Variable http : nat -> string -> Z -> http_outcome.
Variable resolve : string -> string.
Variable io_fault : nat -> option exn.

(** The loop over the years: one call of the Fetcher per year, in order,
    the results appended in that order. *)
Lemma fetch_years_run (country : string) (years : list Z) (acc : list pyval)
    (w : world) :
  exists msgs,
    for_each years acc
      (fun all_holidays year =>
         let* holidays := fetch_holidays API_KEY http country year in
         ret (all_holidays ++ holidays)) w
    = (Ok (acc ++ concat (map holidays_of
                            (outcomes http country years (length (requests w))))),
       after_requests (map (mk_request API_KEY country) years) msgs w).
Proof.
  revert acc w. induction years as [|y rest IH]; intros acc w.
  - exists []. cbn. now rewrite app_nil_r, after_requests_none.
  - cbn [for_each]. unfold bind at 1. unfold bind at 1.
    destruct (fetch_holidays_run API_KEY http country y w) as [m1 ->].
    unfold ret at 1.
    destruct (IH (acc ++ holidays_of (http (length (requests w)) country y))
                 (after_requests [mk_request API_KEY country y] m1 w))
      as [m2 ->].
    exists (m1 ++ m2). rewrite after_requests_twice.
    cbn [requests after_requests outcomes map concat].
    rewrite length_app, Nat.add_1_r, <- app_assoc. reflexivity.
Qed.

(** One country: the years are fetched, the accumulated records filtered,
    the kept ones written under the output name. *)
Lemma main_country_run (s e : datetime) (country : string) (w : world) :
  exists msgs,
    main_country float_repr recursion_budget API_KEY http resolve io_fault
      s e country w
    = save_to_file float_repr recursion_budget resolve io_fault
        (output_name country s e)
        (List.filter (in_window s e)
           (concat (map holidays_of
                      (outcomes http country (range (year s) (year e + 1))
                                (length (requests w))))))
        (after_requests
           (map (mk_request API_KEY country) (range (year s) (year e + 1)))
           msgs w).
Proof.
  unfold main_country. cbv zeta. unfold bind at 1.
  destruct (fetch_years_run country (range (year s) (year e + 1)) [] w)
    as [m1 ->].
  cbn [app]. unfold bind at 1. rewrite filter_holidays_by_date_run.
  eexists (m1 ++ _). unfold output_name.
  f_equal. unfold say, after_requests; cbn. now rewrite app_assoc.
Qed.

(** One country leaves every file but the one its output name designates
    as it was. *)
Lemma main_country_effect (s e : datetime) (country : string) (w : world) :
  exists w',
    main_country float_repr recursion_budget API_KEY http resolve io_fault
      s e country w = (Ok tt, w') /\
    requests w'
    = requests w
      ++ map (mk_request API_KEY country) (range (year s) (year e + 1)) /\
    opened w' = opened w ++ [output_name country s e] /\
    forall other, other <> resolve (output_name country s e) ->
                  files w' !! other = files w !! other.
Proof.
  destruct (main_country_run s e country w) as [msgs ->].
  match goal with
  | |- exists w', save_to_file _ _ _ _ ?f ?d ?w1 = _ /\ _ =>
      destruct (save_to_file_effect float_repr recursion_budget resolve
                  io_fault f d w1)
        as (msg & w' & -> & _ & Hr & Ho & Hf)
  end.
  exists w'. split; [reflexivity|]. rewrite Hr, Ho.
  repeat split. exact Hf.
Qed.

Lemma countries_loop_effect (s e : datetime) (countries : list string)
    (w : world) :
  exists w',
    for_each countries tt (fun _ country =>
      main_country float_repr recursion_budget API_KEY http resolve io_fault
        s e country) w
    = (Ok tt, w') /\
    requests w'
    = requests w
      ++ flat_map (fun country =>
                     map (mk_request API_KEY country)
                         (range (year s) (year e + 1))) countries /\
    opened w' = opened w ++ map (fun country => output_name country s e)
                              countries /\
    forall other,
      ~ In other (map (fun country => resolve (output_name country s e))
                      countries) ->
      files w' !! other = files w !! other.
Proof.
  revert w. induction countries as [|c rest IH]; intros w.
  - exists w. cbn. now rewrite !app_nil_r.
  - cbn [for_each]. unfold bind at 1.
    destruct (main_country_effect s e c w) as (w1 & -> & Hr1 & Ho1 & Hf1).
    destruct (IH w1) as (w2 & -> & Hr2 & Ho2 & Hf2).
    exists w2. split; [reflexivity|].
    cbn [flat_map map]. rewrite Hr2, Ho2, Hr1, Ho1, <- !app_assoc.
    repeat split. intros other Hother. cbn [In] in Hother.
    rewrite Hf2, Hf1; auto.
Qed.

(** After a valid window the run is the loop over the countries. *)
Lemma main_validated (countries : list string) (start_date end_date : unicode)
    (s e : datetime) (w : world) :
  fst (validate_dates unicode_decimal start_date end_date w) = Ok (s, e) ->
  main unicode_decimal float_repr recursion_budget API_KEY http resolve
    io_fault countries start_date end_date w
  = for_each countries tt (fun _ country =>
      main_country float_repr recursion_budget API_KEY http resolve io_fault
        s e country) w.
Proof.
  intros Hv. apply validate_dates_ok in Hv as (Hrun & _).
  unfold main. unfold bind at 1. rewrite try_except_bind, Hrun.
  reflexivity.
Qed.

(** C4: for a validated window the run calls the Fetcher, for every country
    of the list in turn, exactly once for each year from the year of start
    to the year of end, in that order: N years make N requests per country.
    Per country the results are concatenated in year order and only then
    filtered. *)
Theorem main_fetches_each_year_once (countries : list string)
    (start_date end_date : unicode) (s e : datetime) (w : world) :
  fst (validate_dates unicode_decimal start_date end_date w) = Ok (s, e) ->
  let years := range (year s) (year e + 1) in
  (Z.of_nat (length years) = year e - year s + 1 /\
   forall i, (i < length years)%nat -> nth i years 0 = year s + Z.of_nat i) /\
  requests (snd (main unicode_decimal float_repr recursion_budget API_KEY
                   http resolve io_fault countries start_date end_date w))
  = requests w
    ++ flat_map (fun country => map (mk_request API_KEY country) years)
         countries /\
  main unicode_decimal float_repr recursion_budget API_KEY http resolve
    io_fault countries start_date end_date w
  = for_each countries tt (fun _ country =>
      main_country float_repr recursion_budget API_KEY http resolve io_fault
        s e country) w /\
  forall country w1, exists msgs,
    main_country float_repr recursion_budget API_KEY http resolve io_fault
      s e country w1
    = save_to_file float_repr recursion_budget resolve io_fault
        (output_name country s e)
        (List.filter (in_window s e)
           (concat (map holidays_of
                      (outcomes http country years (length (requests w1))))))
        (after_requests (map (mk_request API_KEY country) years) msgs w1).
Proof.
  intros Hv years.
  pose proof (main_validated countries _ _ _ _ _ Hv) as Hmain.
  apply validate_dates_ok in Hv as (_ & _ & _ & Hle).
  apply datetime_le_date_le in Hle.
  assert (Hyears : year s <= year e) by (unfold date_le in Hle; lia).
  split; [split|split; [|split]].
  - subst years. rewrite range_length. lia.
  - intros i Hi. now apply range_nth.
  - rewrite Hmain.
    destruct (countries_loop_effect s e countries w) as (w' & -> & Hr & _).
    exact Hr.
  - exact Hmain.
  - intros country w1. apply main_country_run.
Qed.

(** C8: when a date string is malformed or start is strictly after end, the
    run ends after the report of the Validator: no request is sent, no file
    is opened, the disk is as before. *)
Theorem main_aborts_on_invalid_dates (countries : list string)
    (start_date end_date : unicode) (w : world) :
  malformed unicode_decimal start_date \/
  malformed unicode_decimal end_date \/
  (exists s e, parses unicode_decimal start_date s /\
               parses unicode_decimal end_date e /\
               datetime_gt s e = true) ->
  main unicode_decimal float_repr recursion_budget API_KEY http resolve
    io_fault countries start_date end_date w
  = (Ok tt, say [MsgInvalidDates ValueError] w) /\
  requests (snd (main unicode_decimal float_repr recursion_budget API_KEY
                   http resolve io_fault countries start_date end_date w))
  = requests w /\
  opened (snd (main unicode_decimal float_repr recursion_budget API_KEY
                 http resolve io_fault countries start_date end_date w))
  = opened w /\
  files (snd (main unicode_decimal float_repr recursion_budget API_KEY
                http resolve io_fault countries start_date end_date w))
  = files w /\
  io_ops (snd (main unicode_decimal float_repr recursion_budget API_KEY
                 http resolve io_fault countries start_date end_date w))
  = io_ops w.
Proof.
  intros Hbad.
  assert (Hmain : main unicode_decimal float_repr recursion_budget API_KEY
                    http resolve io_fault countries start_date end_date w
                  = (Ok tt, say [MsgInvalidDates ValueError] w)).
  { unfold main. unfold bind at 1.
    rewrite try_except_bind, (validate_dates_raises _ _ _ _ Hbad).
    reflexivity. }
  rewrite Hmain. repeat split.
Qed.

(** C9 (amended): for a validated window the run opens, for every country
    of the list in turn, the file named by the country code, the start date
    and the end date, joined by underscores and followed by [.txt]; each
    date is rendered as day, month and year with dashes between, the day
    and the month on two digits, the year in decimal on as many digits as
    it has.  From the year 1000 on that is four digits and the name is
    [{country}_{start:DD-MM-YYYY}_{end:DD-MM-YYYY}.txt].  The name depends
    on nothing else. *)
Theorem output_name_from_country_and_dates (countries : list string)
    (start_date end_date : unicode) (s e : datetime) (w : world) :
  fst (validate_dates unicode_decimal start_date end_date w) = Ok (s, e) ->
  opened (snd (main unicode_decimal float_repr recursion_budget API_KEY
                 http resolve io_fault countries start_date end_date w))
  = opened w ++ map (fun country => output_name country s e) countries /\
  (exists d1 m1 y1 d2 m2 y2,
     (forall country,
        output_name country s e
        = country +:+ "_" +:+ (d1 +:+ "-" +:+ m1 +:+ "-" +:+ y1)
          +:+ "_" +:+ (d2 +:+ "-" +:+ m2 +:+ "-" +:+ y2) +:+ ".txt") /\
     renders d1 2 (day s) /\ renders m1 2 (month s) /\
     renders y1 (year_width (year s)) (year s) /\
     renders d2 2 (day e) /\ renders m2 2 (month e) /\
     renders y2 (year_width (year e)) (year e)) /\
  (1000 <= year s ->
   forall country, output_name country s e = dd_mm_yyyy_name country s e).
Proof.
  intros Hv.
  pose proof (main_validated countries _ _ _ _ _ Hv) as Hmain.
  apply validate_dates_ok in Hv as (_ & Hs & He & Hle).
  apply strptime_valid in Hs as [Hs _]. apply strptime_valid in He as [He _].
  split; [|split].
  - rewrite Hmain.
    destruct (countries_loop_effect s e countries w) as (w' & -> & _ & Ho & _).
    exact Ho.
  - destruct (strftime_dmY_renders s Hs) as (d1 & m1 & y1 & E1 & ? & ? & ?).
    destruct (strftime_dmY_renders e He) as (d2 & m2 & y2 & E2 & ? & ? & ?).
    exists d1, m1, y1, d2, m2, y2.
    split; [intros country; unfold output_name; now rewrite E1, E2|].
    repeat (split; [assumption|]). assumption.
  - intros H1000 country. unfold output_name, dd_mm_yyyy_name.
    apply datetime_le_date_le in Hle.
    rewrite (strftime_dmY_dd_mm_yyyy s Hs H1000).
    rewrite (strftime_dmY_dd_mm_yyyy e He); [reflexivity|].
    unfold date_le in Hle. lia.
Qed.

End OrchestratorFacts.

(** C9, as stated, fails below the year 1000: the window 0999-01-01 ..
    0999-01-02 is validated, and the file the run opens has the years on
    three digits, not [YYYY]. *)
Lemma output_name_year_999 :
  fst (validate_dates ascii_digits_only (codes "0999-01-01")
         (codes "0999-01-02") empty_world)
  = Ok (midnight 999 1 1, midnight 999 1 2) /\
  opened (snd (main ascii_digits_only plain_float_repr deep None
                 sample_provider plain_names no_fault ["UA"]
                 (codes "0999-01-01") (codes "0999-01-02") empty_world))
  = ["UA_01-01-999_02-01-999.txt"] /\
  dd_mm_yyyy_name "UA" (midnight 999 1 1) (midnight 999 1 2)
  = "UA_01-01-0999_02-01-0999.txt" /\
  output_name "UA" (midnight 999 1 1) (midnight 999 1 2)
  <> dd_mm_yyyy_name "UA" (midnight 999 1 1) (midnight 999 1 2).
Proof. repeat split. discriminate. Qed.

Lemma main_fetches_each_year_once_witness :
  requests (snd (main ascii_digits_only plain_float_repr deep None
                   sample_provider plain_names no_fault
                   ["UA"; "US"] (codes "2023-12-20") (codes "2024-01-05")
                   empty_world))
  = [mk_request None "UA" 2023; mk_request None "UA" 2024;
     mk_request None "US" 2023; mk_request None "US" 2024].
Proof.
  exact (proj1 (proj2 (main_fetches_each_year_once ascii_digits_only
                         plain_float_repr deep None sample_provider
                         plain_names no_fault ["UA"; "US"]
                         (codes "2023-12-20") (codes "2024-01-05")
                         (midnight 2023 12 20) (midnight 2024 1 5)
                         empty_world eq_refl))).
Defined.

Lemma main_aborts_on_invalid_dates_witness :
  main ascii_digits_only plain_float_repr deep None sample_provider
    plain_names no_fault ["UA"; "US"]
    (codes "2024-05-10") (codes "2024-01-01") empty_world
  = (Ok tt, say [MsgInvalidDates ValueError] empty_world).
Proof.
  apply (main_aborts_on_invalid_dates ascii_digits_only plain_float_repr
           deep None sample_provider plain_names no_fault ["UA"; "US"]
           (codes "2024-05-10") (codes "2024-01-01") empty_world).
  right. right. exists (midnight 2024 5 10), (midnight 2024 1 1).
  repeat split.
Defined.

Lemma output_name_from_country_and_dates_witness :
  opened (snd (main ascii_digits_only plain_float_repr deep None
                 sample_provider plain_names no_fault
                 ["UA"; "US"] (codes "2023-01-01") (codes "2023-01-02")
                 empty_world))
  = ["UA_01-01-2023_02-01-2023.txt"; "US_01-01-2023_02-01-2023.txt"] /\
  opened (snd (main ascii_digits_only plain_float_repr deep None
                 sample_provider plain_names no_fault
                 ["UA"] (codes "0999-12-31") (codes "1000-01-01")
                 empty_world))
  = ["UA_31-12-999_01-01-1000.txt"].
Proof.
  split.
  - exact (proj1 (output_name_from_country_and_dates ascii_digits_only
                    plain_float_repr deep None sample_provider plain_names
                    no_fault ["UA"; "US"]
                    (codes "2023-01-01") (codes "2023-01-02")
                    (midnight 2023 1 1) (midnight 2023 1 2)
                    empty_world eq_refl)).
  - exact (proj1 (output_name_from_country_and_dates ascii_digits_only
                    plain_float_repr deep None sample_provider plain_names
                    no_fault ["UA"]
                    (codes "0999-12-31") (codes "1000-01-01")
                    (midnight 999 12 31) (midnight 1000 1 1)
                    empty_world eq_refl)).
Defined.

(** The scenario of the specification: one country, two days, the provider
    answers with holidays on 2023-01-01, 2023-06-15 and 2023-12-25. *)
Example scenario_one_country :
  let w := snd (main ascii_digits_only plain_float_repr deep None
                  sample_provider plain_names no_fault
                  ["UA"] (codes "2023-01-01") (codes "2023-01-02")
                  empty_world) in
  requests w = [mk_request None "UA" 2023] /\
  stdout w = [MsgSaved "UA_01-01-2023_02-01-2023.txt"] /\
  option_map (map (json_loads plain_float_parse))
    (option_map lines (files w !! "UA_01-01-2023_02-01-2023.txt"))
  = Some [Some (holiday_on "New Year" 2023 1 1)].
Proof. repeat split. Qed.

(** A window across the turn of the year: both years are fetched, the
    undated record is reported and skipped. *)
Example scenario_two_years :
  let w := snd (main ascii_digits_only plain_float_repr deep None
                  sample_provider plain_names no_fault
                  ["UA"] (codes "2023-12-20") (codes "2024-01-05")
                  empty_world) in
  requests w = [mk_request None "UA" 2023; mk_request None "UA" 2024] /\
  stdout w = [MsgMissingKey (KeyError "date");
              MsgSaved "UA_20-12-2023_05-01-2024.txt"] /\
  option_map (map (json_loads plain_float_parse))
    (option_map lines (files w !! "UA_20-12-2023_05-01-2024.txt"))
  = Some [Some (holiday_on "Christmas" 2023 12 25);
          Some (holiday_on "New Year" 2024 1 1)].
Proof. repeat split. Qed.

(** A country whose requests fail still gets its (empty) file, and the next
    country is processed. *)
Example scenario_unreachable :
  let w := snd (main ascii_digits_only plain_float_repr deep None
                  (fun n country year =>
                     if String.eqb country "UA" then GetRaises RequestException
                     else sample_provider n country year)
                  plain_names no_fault ["UA"; "US"]
                  (codes "2023-01-01") (codes "2023-01-02") empty_world) in
  stdout w = [MsgRequestError RequestException;
              MsgSaved "UA_01-01-2023_02-01-2023.txt";
              MsgSaved "US_01-01-2023_02-01-2023.txt"] /\
  files w !! "UA_01-01-2023_02-01-2023.txt" = Some EmptyString.
Proof. repeat split. Qed.

(** Two country arguments that name one file: the second run of the loop
    truncates what the first wrote. *)
Example scenario_two_names_one_file :
  let w := snd (main ascii_digits_only plain_float_repr deep None
                  (fun n country year =>
                     if String.eqb country "UA"
                     then sample_provider n country year
                     else GetRaises RequestException)
                  without_dot_slash no_fault ["UA"; "./UA"]
                  (codes "2023-01-01") (codes "2023-01-02") empty_world) in
  opened w = ["UA_01-01-2023_02-01-2023.txt";
              "./UA_01-01-2023_02-01-2023.txt"] /\
  map_to_list (files w) = [("UA_01-01-2023_02-01-2023.txt", EmptyString)].
Proof. repeat split. Qed.
(** * Further properties of the Filter *)
(* ===================================================================== *)

(** The tuple comparison is transitive on tuples of one length. *)
Lemma lex_compare_le_trans (a b c : list Z) :
  length a = length b -> length b = length c ->
  lex_compare a b <> Gt -> lex_compare b c <> Gt -> lex_compare a c <> Gt.
Proof.
  revert b c. induction a as [|x a IH]; intros [|y b] [|z c];
    cbn [length lex_compare]; intros Hab Hbc;
    try discriminate Hab; try discriminate Hbc; [congruence|].
  simpl in Hab, Hbc. apply Nat.succ_inj in Hab, Hbc.
  destruct (Z.compare_spec x y), (Z.compare_spec y z); try congruence;
    subst; intros H1 H2.
  - rewrite Z.compare_refl. now apply (IH b c).
  - now rewrite (proj2 (Z.compare_lt_iff _ _)).
  - now rewrite (proj2 (Z.compare_lt_iff _ _)).
  - rewrite (proj2 (Z.compare_lt_iff x z)) by lia. discriminate.
Qed.

Lemma datetime_le_trans (a b c : datetime) :
  datetime_le a b = true -> datetime_le b c = true -> datetime_le a c = true.
Proof.
  unfold datetime_le, datetime_cmp. intros Hab Hbc.
  assert (Hac : lex_compare (fields a) (fields c) <> Gt).
  { apply (lex_compare_le_trans _ (fields b)); try reflexivity;
      intros E; [rewrite E in Hab|rewrite E in Hbc]; discriminate. }
  destruct (lex_compare (fields a) (fields c)); congruence.
Qed.

(** X1: the Filter distributes over concatenation: filtering two lists one
    after the other keeps the same records, and prints the same lines, as
    filtering them joined.  So filtering the records of several years at
    once, as the Orchestrator does, is filtering each year. *)
Theorem filter_of_concatenation (first second : list pyval)
    (start_date end_date : datetime) (w : world) :
  exists kept1 kept2 w1 w2,
    filter_holidays_by_date first start_date end_date w = (Ok kept1, w1) /\
    filter_holidays_by_date second start_date end_date w1 = (Ok kept2, w2) /\
    filter_holidays_by_date (first ++ second) start_date end_date w
    = (Ok (kept1 ++ kept2), w2).
Proof.
  do 4 eexists.
  split; [apply filter_holidays_by_date_run|].
  split; [apply filter_holidays_by_date_run|].
  rewrite filter_holidays_by_date_run.
  now rewrite List.filter_app, List.flat_map_app, say_say.
Qed.

(** X2: narrowing the window.  When the window [start1, end1] lies inside
    [start2, end2], every record kept for the narrow window is kept for the
    wide one, and filtering the wide result with the narrow window gives
    the narrow result. *)
Theorem filter_nested_windows (holidays : list pyval)
    (start1 end1 start2 end2 : datetime) (w w' : world) :
  datetime_le start2 start1 = true -> datetime_le end1 end2 = true ->
  exists narrow wide,
    fst (filter_holidays_by_date holidays start1 end1 w) = Ok narrow /\
    fst (filter_holidays_by_date holidays start2 end2 w) = Ok wide /\
    filter_holidays_by_date wide start1 end1 w' = (Ok narrow, w') /\
    forall h, In h narrow -> In h wide.
Proof.
  intros Hs He. rewrite !filter_holidays_by_date_run. cbn [fst].
  assert (Hsub : forall h, in_window start1 end1 h = true ->
                           in_window start2 end2 h = true).
  { intros h. rewrite !in_window_true. intros (d & Hd & H1 & H2).
    exists d. split; [exact Hd|].
    split; eauto using datetime_le_trans. }
  do 2 eexists. split; [reflexivity|]. split; [reflexivity|].
  split.
  - rewrite filter_holidays_by_date_run. f_equal.
    + f_equal. induction holidays as [|h hs IH]; [reflexivity|].
      cbn [List.filter].
      destruct (in_window start2 end2 h) eqn:H2; cbn [List.filter].
      * now rewrite IH.
      * destruct (in_window start1 end1 h) eqn:H1; [|exact IH].
        apply Hsub in H1. congruence.
    + rewrite <- (say_nil w') at 2. f_equal.
      induction holidays as [|h hs IH]; [reflexivity|].
      cbn [List.filter].
      destruct (in_window start2 end2 h) eqn:H2; [|exact IH].
      cbn [flat_map]. now rewrite (skip_report_in_window _ _ _ H2), IH.
  - intros h. rewrite !filter_In. intros [Hin H1]. auto.
Qed.

Lemma filter_nested_windows_witness :
  exists narrow wide,
    fst (filter_holidays_by_date boundary_sample
           (midnight 2023 1 1) (midnight 2023 1 2) empty_world) = Ok narrow /\
    fst (filter_holidays_by_date boundary_sample
           (midnight 2022 12 1) (midnight 2023 1 31) empty_world) = Ok wide /\
    filter_holidays_by_date wide (midnight 2023 1 1) (midnight 2023 1 2)
      empty_world = (Ok narrow, empty_world) /\
    forall h, In h narrow -> In h wide.
Proof.
  apply (filter_nested_windows boundary_sample
           (midnight 2023 1 1) (midnight 2023 1 2)
           (midnight 2022 12 1) (midnight 2023 1 31) empty_world empty_world);
    reflexivity.
Defined.

(** X3: a window whose start is after its end keeps no record; the records
    whose date does not resolve are still reported. *)
Theorem filter_empty_window (holidays : list pyval)
    (start_date end_date : datetime) (w : world) :
  datetime_gt start_date end_date = true ->
  filter_holidays_by_date holidays start_date end_date w
  = (Ok [], say (flat_map skip_report holidays) w).
Proof.
  intros Hgt. rewrite filter_holidays_by_date_run. f_equal. f_equal.
  induction holidays as [|h hs IH]; [reflexivity|]. cbn [List.filter].
  destruct (in_window start_date end_date h) eqn:Hw; [|exact IH].
  apply in_window_true in Hw as (d & _ & H1 & H2).
  pose proof (datetime_le_trans _ _ _ H1 H2) as Hle.
  rewrite datetime_gt_le, Hle in Hgt. discriminate.
Qed.

Lemma filter_empty_window_witness :
  filter_holidays_by_date boundary_sample
    (midnight 2023 1 2) (midnight 2023 1 1) empty_world
  = (Ok [], say (flat_map skip_report boundary_sample) empty_world).
Proof.
  apply (filter_empty_window boundary_sample
           (midnight 2023 1 2) (midnight 2023 1 1) empty_world).
  reflexivity.
Defined.

(** X4: every record is accounted for once: it is kept, or dropped without
    a line because its date is outside the window, or reported by exactly
    one line because its date does not resolve.  The Filter changes nothing
    of the world but the standard output. *)
Theorem filter_accounts_for_every_record (holidays : list pyval)
    (start_date end_date : datetime) (w : world) :
  exists kept reports,
    filter_holidays_by_date holidays start_date end_date w
    = (Ok kept, say reports w) /\
    (length kept + length reports
     + length (List.filter (outside_window start_date end_date) holidays)
     = length holidays)%nat /\
    length reports
    = length (List.filter
                (fun h => match holiday_datetime h with
                          | Ok _ => false
                          | Raise _ => true
                          end) holidays).
Proof.
  rewrite filter_holidays_by_date_run. do 2 eexists.
  split; [reflexivity|].
  induction holidays as [|h hs [IH1 IH2]]; [split; reflexivity|].
  cbn [List.filter flat_map length].
  unfold in_window at 1, outside_window at 1, skip_report at 1 3.
  destruct (holiday_datetime h) as [d|e].
  - destruct (datetime_le start_date d && datetime_le d end_date);
      cbn [negb length app]; split; lia.
  - cbn [length app]. split; lia.
Qed.

(** X5: what a kept record looks like: the three date fields are present,
    each is an integer (or a boolean) that fits a C int, and together they
    are a calendar date inside the window. *)
Theorem filter_kept_record_has_valid_date (holidays : list pyval)
    (start_date end_date : datetime) (w : world) (kept : list pyval)
    (h : pyval) :
  fst (filter_holidays_by_date holidays start_date end_date w) = Ok kept ->
  In h kept ->
  In h holidays /\
  exists vy vm vd y m d,
    date_field "year" h = Some vy /\ date_field "month" h = Some vm /\
    date_field "day" h = Some vd /\
    as_c_int vy = Ok y /\ as_c_int vm = Ok m /\ as_c_int vd = Ok d /\
    valid_date (midnight y m d) /\
    datetime_le start_date (midnight y m d) = true /\
    datetime_le (midnight y m d) end_date = true.
Proof.
  rewrite filter_holidays_by_date_run. cbn [fst]. intros [= <-] Hin.
  apply filter_In in Hin as [Hin Hw]. split; [exact Hin|].
  apply in_window_true in Hw as (dt & Hdt & H1 & H2).
  pose proof (holiday_datetime_valid h dt Hdt) as [Hvalid _].
  unfold holiday_datetime in Hdt.
  pose proof (subscript_chain "year" h) as Cy.
  pose proof (subscript_chain "month" h) as Cm.
  pose proof (subscript_chain "day" h) as Cd.
  destruct (date_field "year" h) as [vy|];
    [rewrite Cy in Hdt | destruct Cy as [e Cy]; rewrite Cy in Hdt;
                         discriminate].
  destruct (date_field "month" h) as [vm|];
    [rewrite Cm in Hdt | destruct Cm as [e Cm]; rewrite Cm in Hdt;
                         discriminate].
  destruct (date_field "day" h) as [vd|];
    [rewrite Cd in Hdt | destruct Cd as [e Cd]; rewrite Cd in Hdt;
                         discriminate].
  cbn [rbind] in Hdt. unfold datetime_new in Hdt.
  destruct (as_c_int vy) as [y|] eqn:Ey; [cbn [rbind] in Hdt|discriminate].
  destruct (as_c_int vm) as [m|] eqn:Em; [cbn [rbind] in Hdt|discriminate].
  destruct (as_c_int vd) as [d|] eqn:Ed; [cbn [rbind] in Hdt|discriminate].
  destruct (check_date_args y m d); [cbn [rbind] in Hdt|discriminate].
  injection Hdt as <-.
  exists vy, vm, vd, y, m, d. unfold midnight.
  do 3 (split; [reflexivity|]). do 3 (split; [assumption|]).
  split; [exact Hvalid|]. split; assumption.
Qed.

Lemma filter_kept_record_has_valid_date_witness :
  In (holiday_on "first" 2023 1 1) boundary_sample /\
  exists vy vm vd y m d,
    date_field "year" (holiday_on "first" 2023 1 1) = Some vy /\
    date_field "month" (holiday_on "first" 2023 1 1) = Some vm /\
    date_field "day" (holiday_on "first" 2023 1 1) = Some vd /\
    as_c_int vy = Ok y /\ as_c_int vm = Ok m /\ as_c_int vd = Ok d /\
    valid_date (midnight y m d) /\
    datetime_le (midnight 2023 1 1) (midnight y m d) = true /\
    datetime_le (midnight y m d) (midnight 2023 1 2) = true.
Proof.
  apply (filter_kept_record_has_valid_date boundary_sample
           (midnight 2023 1 1) (midnight 2023 1 2) empty_world
           [holiday_on "first" 2023 1 1; holiday_on "second" 2023 1 2]
           (holiday_on "first" 2023 1 1));
    [reflexivity|cbn; tauto].
Defined.


(* ===================================================================== *)
(** * Further properties of the Validator *)
(* ===================================================================== *)

Section ValidatorReports.

Variable unicode_decimal : Z -> option Z.

(** X6: what the Validator guarantees its caller.  When it returns, the
    two dates are calendar dates at midnight with start <= end (so the year
    of start is not after the year of end) and nothing was printed; when it
    raises, the exception is a [ValueError] and one line was printed. *)
Theorem validate_dates_postcondition (start_date end_date : unicode)
    (w : world) :
  (forall s e,
     fst (validate_dates unicode_decimal start_date end_date w) = Ok (s, e) ->
     snd (validate_dates unicode_decimal start_date end_date w) = w /\
     valid_date s /\ at_midnight s /\ valid_date e /\ at_midnight e /\
     datetime_le s e = true /\ year s <= year e) /\
  (forall err,
     fst (validate_dates unicode_decimal start_date end_date w) = Raise err ->
     err = ValueError /\
     snd (validate_dates unicode_decimal start_date end_date w)
     = say [MsgInvalidDates ValueError] w).
Proof.
  split.
  - intros s e Hv. apply validate_dates_ok in Hv as (Hrun & Hs & He & Hle).
    rewrite Hrun. cbn [snd].
    apply strptime_valid in Hs as [Hvs Hms].
    apply strptime_valid in He as [Hve Hme].
    split; [reflexivity|]. do 5 (split; [assumption|]).
    apply datetime_le_date_le in Hle. unfold date_le in Hle. lia.
  - intros err. rewrite validate_dates_run.
    destruct (strptime unicode_decimal start_date) as [s|];
      [|now intros [= <-]].
    destruct (strptime unicode_decimal end_date) as [e|];
      [|now intros [= <-]].
    destruct (datetime_gt s e); [now intros [= <-]|discriminate].
Qed.


End ValidatorReports.

Lemma validate_dates_postcondition_witness :
  (snd (validate_dates ascii_digits_only (codes "2023-12-20")
          (codes "2024-01-05") empty_world) = empty_world /\
   valid_date (midnight 2023 12 20) /\ at_midnight (midnight 2023 12 20) /\
   valid_date (midnight 2024 1 5) /\ at_midnight (midnight 2024 1 5) /\
   datetime_le (midnight 2023 12 20) (midnight 2024 1 5) = true /\
   year (midnight 2023 12 20) <= year (midnight 2024 1 5)) /\
  (ValueError = ValueError /\
   snd (validate_dates ascii_digits_only (codes "2024-02-30")
          (codes "2024-03-01") empty_world)
   = say [MsgInvalidDates ValueError] empty_world).
Proof.
  split.
  - apply (proj1 (validate_dates_postcondition ascii_digits_only
                    (codes "2023-12-20") (codes "2024-01-05") empty_world)
             (midnight 2023 12 20) (midnight 2024 1 5)).
    reflexivity.
  - apply (proj2 (validate_dates_postcondition ascii_digits_only
                    (codes "2024-02-30") (codes "2024-03-01") empty_world)
             ValueError).
    reflexivity.
Defined.

Example validate_dates_lenient :
  fst (validate_dates ascii_digits_only (codes "2024-1- 5")
         (codes "2024-01-5") empty_world)
  = Ok (midnight 2024 1 5, midnight 2024 1 5) /\
  fst (validate_dates ascii_digits_only (codes "2024-01-05 ")
         (codes "2024-01-06") empty_world)
  = Raise ValueError /\
  fst (validate_dates ascii_digits_only (codes "24-01-05")
         (codes "2024-01-06") empty_world)
  = Raise ValueError /\
  fst (validate_dates fullwidth_digits
         ([65298; 65296; 65298; 65300] ++ codes "-01-05")
         (codes "2024-01-06") empty_world)
  = Ok (midnight 2024 1 5, midnight 2024 1 6).
Proof. repeat split. Qed.
(* ===================================================================== *)
(** * Further properties of the Fetcher *)
(* ===================================================================== *)

Lemma say_after_requests (reqs : list request) (msgs : list message)
    (w : world) :
  say msgs (after_requests reqs [] w) = after_requests reqs msgs w.
Proof. unfold say, after_requests; cbn. now rewrite app_nil_r. Qed.

Section FetcherReports.

Variable API_KEY : option string.
Variable http : nat -> string -> Z -> http_outcome.

(** The [try] block of the Fetcher, from the outcome of its request on. *)
Lemma fetch_holidays_after_request (country : string) (year : Z) (w : world) :
  fetch_holidays API_KEY http country year w
  = let w1 := after_requests [mk_request API_KEY country year] [] w in
    match http (length (requests w)) country year with
    | GetRaises e => (Ok [], say [fetch_failure e] w1)
    | Response status_code body =>
        if error_status status_code
        then (Ok [], say [fetch_failure (HTTPError status_code)] w1)
        else match body with
             | Raise e => (Ok [], say [fetch_failure e] w1)
             | Ok data =>
                 let (r, w2) :=
                   try_except
                     (let* has_response := lift (contains "response" data) in
                      let* has_holidays :=
                        (if has_response
                         then lift (rbind (getitem data "response")
                                          (contains "holidays"))
                         else ret false) in
                      if has_holidays
                      then let* items :=
                             lift (rbind (rbind (getitem data "response")
                                            (fun r => getitem r "holidays"))
                                         iterate) in
                           ret ([] ++ items)
                      else let* _ := print (MsgNoHolidays country year) in
                           ret [])
                     (fun err => Some (let* _ := print (fetch_failure err) in
                                       ret [])) w1 in
                 match r with
                 | Ok holidays => (Ok holidays, w2)
                 | Raise e => (Raise e, w2)
                 end
             end
    end.
Proof.
  cbv zeta.
  assert (Hw1 : mk_world (stdout w)
                  (requests w ++ [mk_request API_KEY country year])
                  (opened w) (files w) (io_ops w)
                = after_requests [mk_request API_KEY country year] [] w).
  { unfold after_requests. now rewrite app_nil_r. }
  assert (Hh : forall e (w' : world),
    match (if is_HTTPError e
           then Some (let* _ := print (MsgHTTPError e) in ret [])
           else if is_RequestException e
           then Some (let* _ := print (MsgRequestError e) in ret [])
           else Some (let* _ := print (MsgFetchUnexpected e) in ret [])) with
    | Some h => h w'
    | None => (@Raise (list pyval) e, w')
    end = (Ok [], say [fetch_failure e] w')).
  { intros e w'. unfold fetch_failure.
    destruct (is_HTTPError e); [|destruct (is_RequestException e)];
      reflexivity. }
  unfold fetch_holidays. cbv zeta. unfold bind at 1.
  rewrite try_except_bind. unfold requests_get at 1. rewrite Hw1.
  destruct (http (length (requests w)) country year) as [e|status_code body].
  - now rewrite Hh.
  - rewrite try_except_bind. unfold lift at 1, raise_for_status, error_status.
    cbn [fst snd].
    destruct ((400 <=? status_code) && (status_code <? 600)).
    { now rewrite Hh. }
    rewrite try_except_bind. unfold lift at 1.
    destruct body as [data|e]; [|now rewrite Hh].
    unfold try_except.
    match goal with
    | |- (let (r, w') := let (r0, w0) := ?run in _ in _) = _ =>
        destruct run as [[holidays|e] w2]
    end.
    + reflexivity.
    + rewrite Hh. unfold fetch_failure, bind, print, ret, say.
      destruct (is_HTTPError e); [|destruct (is_RequestException e)];
        reflexivity.
Qed.

(** X7: on an answer that is no error status and whose body holds a list
    under [response.holidays], the Fetcher returns the items of that list,
    in the provider's order, and prints nothing. *)
Theorem fetch_holidays_returns_provider_list (country : string) (year : Z)
    (w : world) (status_code : Z) (data : pyval) (items : list pyval) :
  http (length (requests w)) country year = Response status_code (Ok data) ->
  error_status status_code = false ->
  lookup_path ["response"; "holidays"] data = Some (VList items) ->
  fetch_holidays API_KEY http country year w
  = (Ok items, after_requests [mk_request API_KEY country year] [] w).
Proof.
  intros Hhttp Hstatus Hpath.
  rewrite fetch_holidays_after_request, Hhttp, Hstatus. cbv zeta.
  cbn [lookup_path] in Hpath.
  destruct data as [| | | | |?|entries]; try discriminate.
  destruct (assoc "response" entries) as [r|] eqn:Er; [|discriminate].
  destruct r as [| | | | |?|inner]; try discriminate.
  destruct (assoc "holidays" inner) as [v|] eqn:Eh; [|discriminate].
  injection Hpath as ->.
  unfold try_except, bind, lift, ret, contains, getitem.
  rewrite Er. cbn [rbind]. rewrite Eh. cbn [rbind iterate app].
  reflexivity.
Qed.

(** X8: a failed call is reported by exactly one line, chosen by the class
    of the exception: an error status is an HTTP error whatever the body
    holds, any other exception of [requests] is a request error, the rest
    is unexpected.  The call returns the empty list. *)
Theorem fetch_holidays_reports_failure (country : string) (year : Z)
    (w : world) (e : exn) :
  failure_of (http (length (requests w)) country year) = Some e ->
  fetch_holidays API_KEY http country year w
  = (Ok [], after_requests [mk_request API_KEY country year]
              [if is_HTTPError e then MsgHTTPError e
               else if is_RequestException e then MsgRequestError e
               else MsgFetchUnexpected e] w).
Proof.
  intros Hfail. rewrite fetch_holidays_after_request. cbv zeta.
  fold (fetch_failure e). unfold failure_of in Hfail.
  destruct (http (length (requests w)) country year) as [e'|status_code body].
  - injection Hfail as ->. now rewrite say_after_requests.
  - destruct (error_status status_code).
    + injection Hfail as <-. now rewrite say_after_requests.
    + destruct body as [data|e']; [discriminate|].
      injection Hfail as ->. now rewrite say_after_requests.
Qed.

(** X9: a decoded body that is a [dict] without the key [response], or
    whose [response] is a [dict] without the key [holidays], gives the
    empty list and the line that no holidays were found for the country
    and the year. *)
Theorem fetch_holidays_reports_no_holidays (country : string) (year : Z)
    (w : world) (status_code : Z) (entries : list (string * pyval)) :
  http (length (requests w)) country year
  = Response status_code (Ok (VDict entries)) ->
  error_status status_code = false ->
  (assoc "response" entries = None \/
   exists inner, assoc "response" entries = Some (VDict inner) /\
                 assoc "holidays" inner = None) ->
  fetch_holidays API_KEY http country year w
  = (Ok [], after_requests [mk_request API_KEY country year]
              [MsgNoHolidays country year] w).
Proof.
  intros Hhttp Hstatus Hshape.
  rewrite fetch_holidays_after_request, Hhttp, Hstatus. cbv zeta.
  unfold try_except, bind, lift, ret, contains, getitem.
  rewrite <- (say_after_requests _ [MsgNoHolidays country year]).
  destruct Hshape as [Er | (inner & Er & Eh)]; rewrite Er; cbn [rbind].
  - reflexivity.
  - rewrite Eh. reflexivity.
Qed.

(** X10: when the path [response.holidays] exists but holds no iterable
    ([null], a number, a boolean), extending the accumulator raises a
    [TypeError]; the Fetcher reports it as unexpected and returns the empty
    list. *)
Theorem fetch_holidays_reports_not_iterable (country : string) (year : Z)
    (w : world) (status_code : Z) (data v : pyval) :
  http (length (requests w)) country year = Response status_code (Ok data) ->
  error_status status_code = false ->
  lookup_path ["response"; "holidays"] data = Some v ->
  iterate v = Raise TypeError ->
  fetch_holidays API_KEY http country year w
  = (Ok [], after_requests [mk_request API_KEY country year]
              [MsgFetchUnexpected TypeError] w).
Proof.
  intros Hhttp Hstatus Hpath Hiter.
  rewrite fetch_holidays_after_request, Hhttp, Hstatus. cbv zeta.
  cbn [lookup_path] in Hpath.
  destruct data as [| | | | |?|entries]; try discriminate.
  destruct (assoc "response" entries) as [r|] eqn:Er; [|discriminate].
  destruct r as [| | | | |?|inner]; try discriminate.
  destruct (assoc "holidays" inner) as [v'|] eqn:Eh; [|discriminate].
  injection Hpath as ->.
  unfold try_except, bind, lift, ret, contains, getitem.
  rewrite Er. cbn [rbind]. rewrite Eh. cbn [rbind]. rewrite Hiter.
  rewrite <- (say_after_requests _ [MsgFetchUnexpected TypeError]).
  reflexivity.
Qed.

End FetcherReports.

Lemma fetch_holidays_returns_provider_list_witness :
  fetch_holidays None sample_provider "UA" 2023 empty_world
  = (Ok [holiday_on "New Year" 2023 1 1; holiday_on "Midsummer" 2023 6 15;
         holiday_on "Christmas" 2023 12 25],
     after_requests [mk_request None "UA" 2023] [] empty_world).
Proof.
  apply (fetch_holidays_returns_provider_list None sample_provider "UA" 2023
           empty_world 200
           (VDict [("meta", VDict [("code", VInt 200)]);
                   ("response",
                    VDict [("holidays",
                            VList [holiday_on "New Year" 2023 1 1;
                                   holiday_on "Midsummer" 2023 6 15;
                                   holiday_on "Christmas" 2023 12 25])])]));
    reflexivity.
Defined.

Lemma fetch_holidays_reports_failure_witness :
  fetch_holidays None
    (fun _ _ _ => Response 404 (Ok (VDict [("response", VDict [])])))
    "XX" 2023 empty_world
  = (Ok [], after_requests [mk_request None "XX" 2023]
              [MsgHTTPError (HTTPError 404)] empty_world) /\
  fetch_holidays None (fun _ _ _ => Response 200 (Raise JSONDecodeError))
    "XX" 2023 empty_world
  = (Ok [], after_requests [mk_request None "XX" 2023]
              [MsgRequestError JSONDecodeError] empty_world).
Proof.
  split.
  - apply (fetch_holidays_reports_failure None
             (fun _ _ _ => Response 404 (Ok (VDict [("response", VDict [])])))
             "XX" 2023 empty_world (HTTPError 404)).
    reflexivity.
  - apply (fetch_holidays_reports_failure None
             (fun _ _ _ => Response 200 (Raise JSONDecodeError))
             "XX" 2023 empty_world JSONDecodeError).
    reflexivity.
Defined.

Lemma fetch_holidays_reports_no_holidays_witness :
  fetch_holidays None bare_answer "UA" 2023 empty_world
  = (Ok [], after_requests [mk_request None "UA" 2023]
              [MsgNoHolidays "UA" 2023] empty_world).
Proof.
  apply (fetch_holidays_reports_no_holidays None bare_answer "UA" 2023
           empty_world 200 [("meta", VDict [("code", VInt 200)])]);
    [reflexivity|reflexivity|left; reflexivity].
Defined.

Lemma fetch_holidays_reports_not_iterable_witness :
  fetch_holidays None
    (fun _ _ _ => Response 200
       (Ok (VDict [("response", VDict [("holidays", VNone)])])))
    "UA" 2023 empty_world
  = (Ok [], after_requests [mk_request None "UA" 2023]
              [MsgFetchUnexpected TypeError] empty_world).
Proof.
  apply (fetch_holidays_reports_not_iterable None
           (fun _ _ _ => Response 200
              (Ok (VDict [("response", VDict [("holidays", VNone)])])))
           "UA" 2023 empty_world 200
           (VDict [("response", VDict [("holidays", VNone)])]) VNone);
    reflexivity.
Defined.


(* ===================================================================== *)
(** * Further properties of the Writer *)
(* ===================================================================== *)

Lemma unlines_ascii (texts : list string) :
  Forall (fun t => printable t = true) texts ->
  ascii_text (unlines texts) = true.
Proof.
  induction 1 as [|t rest Ht _ IH]; [reflexivity|].
  cbn [unlines]. rewrite !ascii_text_append, IH.
  now rewrite (printable_ascii_text _ Ht).
Qed.

Section WriterReports.

Variable float_repr : spec_float -> string.
Variable recursion_budget : nat.
Variable resolve : string -> string.
Variable io_fault : nat -> option exn.


(** X12: the Writer never raises, whatever file operation fails and
    whatever record has no text.  It opens the destination once, prints
    exactly one line (success, or the failure it met), sends no request and
    leaves every other file as it was. *)
Theorem save_to_file_never_raises (filename : string) (data : list pyval)
    (w : world) :
  exists msg w',
    save_to_file float_repr recursion_budget resolve io_fault filename data w
    = (Ok tt, w') /\
    stdout w' = stdout w ++ [msg] /\
    (msg = MsgSaved filename \/ exists e, msg = write_failure filename e) /\
    requests w' = requests w /\
    opened w' = opened w ++ [filename] /\
    forall other, other <> resolve filename ->
                  files w' !! other = files w !! other.
Proof.
  destruct (save_to_file_effect float_repr recursion_budget resolve io_fault
              filename data w)
    as (msg & w' & Hrun & Hout & Hreq & Hopen & Hfiles).
  exists msg, w'. repeat (split; [assumption|]).
  split; [|auto].
  destruct (save_to_file_cases float_repr recursion_budget resolve io_fault
              filename data w) as [[Hok [texts Htexts]] | [e Hfail]].
  - left. rewrite (save_to_file_ok float_repr recursion_budget resolve
                     io_fault filename data texts w Hok Htexts) in Hrun.
    injection Hrun as <-. cbn [stdout] in Hout.
    apply app_inv_head in Hout. congruence.
  - right. exists e. rewrite Hrun in Hfail. cbn [snd] in Hfail.
    rewrite Hout in Hfail. apply app_inv_head in Hfail. congruence.
Qed.

(** X13: the Writer reports success exactly when [json.dumps] returned a
    text for every record and opening the file, every write and closing it
    all succeeded. *)
Theorem save_to_file_success_iff_no_fault (filename : string)
    (data : list pyval) (w : world) :
  stdout (snd (save_to_file float_repr recursion_budget resolve io_fault
                 filename data w))
  = stdout w ++ [MsgSaved filename]
  <->
  (forall k, (k <= S (length data))%nat ->
             io_fault (io_ops w + k)%nat = None) /\
  (forall holiday, In holiday data ->
     exists text, json_dumps float_repr recursion_budget holiday = Ok text).
Proof.
  split.
  - intros Hsaved.
    destruct (save_to_file_cases float_repr recursion_budget resolve io_fault
                filename data w) as [[Hok [texts Htexts]] | [e Hfail]].
    + split; [exact Hok|]. intros h Hin.
      apply map_Ok_Forall2 in Htexts. clear - Htexts Hin.
      induction Htexts as [|x t xs ts Ht _ IH]; [destruct Hin|].
      destruct Hin as [<-|Hin]; eauto.
    + rewrite Hfail in Hsaved. apply app_inv_head in Hsaved.
      unfold write_failure in Hsaved. destruct (is_IOError e); discriminate.
  - intros [Hok Hall].
    assert (Htexts : exists texts,
              map (json_dumps float_repr recursion_budget) data
              = map Ok texts).
    { clear - Hall. induction data as [|h rest IH]; [now exists []|].
      destruct (Hall h (or_introl eq_refl)) as [t Ht].
      destruct IH as [texts Htexts]; [intros x Hx; apply Hall; now right|].
      exists (t :: texts). cbn [map]. now rewrite Ht, Htexts. }
    destruct Htexts as [texts Htexts].
    now rewrite (save_to_file_ok float_repr recursion_budget resolve io_fault
                   filename data texts w Hok Htexts).
Qed.

(** X14: when the file cannot be opened, the disk is left as it was (an
    earlier file of that name keeps its content), nothing is written, and
    the failure is reported: as a write failure for an [OSError], as
    unexpected otherwise. *)
Theorem save_to_file_open_failure (filename : string) (data : list pyval)
    (w : world) (e : exn) :
  io_fault (io_ops w) = Some e ->
  save_to_file float_repr recursion_budget resolve io_fault filename data w
  = (Ok tt,
     mk_world (stdout w ++ [if is_IOError e then MsgWriteFailed filename e
                            else MsgSaveUnexpected e])
              (requests w) (opened w ++ [filename]) (files w)
              (S (io_ops w))).
Proof.
  intros Hfault. unfold save_to_file. rewrite try_except_bind.
  unfold with_open, open_w. unfold bind at 1. unfold bind at 1.
  unfold file_op at 1. cbn [io_ops]. rewrite Hfault.
  destruct (is_IOError e); reflexivity.
Qed.

End WriterReports.


Lemma save_to_file_open_failure_witness :
  save_to_file plain_float_repr deep plain_names (fun _ => Some OSError)
    "UA.txt" [holiday_on "first" 2023 1 1]
    (mk_world [] [] [] {["UA.txt" := "kept"]} 0)
  = (Ok tt,
     mk_world [MsgWriteFailed "UA.txt" OSError] [] ["UA.txt"]
              {["UA.txt" := "kept"]} 1).
Proof.
  exact (save_to_file_open_failure plain_float_repr deep plain_names
           (fun _ => Some OSError) "UA.txt" [holiday_on "first" 2023 1 1]
           (mk_world [] [] [] {["UA.txt" := "kept"]} 0) OSError eq_refl).
Defined.

(* ===================================================================== *)
(** * Further properties of the Orchestrator *)
(* ===================================================================== *)

Lemma number_text_append (a b : string) :
  number_text (a +:+ b) = number_text a && number_text b.
Proof.
  induction a as [|x a IH]; [reflexivity|].
  rewrite append_cons. cbn [number_text]. now rewrite IH, andb_assoc.
Qed.

Lemma number_text_no_underscore (s : string) :
  number_text s = true -> mentions "_" s = false.
Proof.
  induction s as [|c s IH]; [reflexivity|]. cbn [number_text mentions].
  intros H. apply andb_true_iff in H as [Hc Hs]. rewrite (IH Hs).
  apply number_char_code in Hc. rewrite ascii_eqb_code.
  change (code "_") with 95. destruct (Z.eqb_spec (code c) 95); [lia|].
  reflexivity.
Qed.

Lemma two_digits_number_text (n : Z) : number_text (two_digits n) = true.
Proof.
  apply all_digits_number_text. unfold two_digits. cbn [all_digits].
  now rewrite !digit_char_is_digit.
Qed.

(** The text of a date has digits and dashes only. *)
Lemma strftime_dmY_number_text (d : datetime) :
  number_text (strftime_dmY d) = true.
Proof.
  unfold strftime_dmY. rewrite !number_text_append, !two_digits_number_text.
  now destruct (int_text_number _ (decimal_int_text (year d)))
    as (_ & -> & _).
Qed.

Lemma two_digits_inj (a b : Z) :
  0 <= a < 100 -> 0 <= b < 100 -> two_digits a = two_digits b -> a = b.
Proof.
  intros Ha Hb Heq.
  destruct (two_digits_renders a Ha) as (_ & _ & Ia).
  destruct (two_digits_renders b Hb) as (_ & _ & Ib).
  rewrite <- Ia, <- Ib. now rewrite Heq.
Qed.

Lemma strftime_dmY_same_day (a b : datetime) :
  valid_date a -> valid_date b ->
  strftime_dmY a = strftime_dmY b -> same_day a b.
Proof.
  unfold valid_date, MINYEAR, MAXYEAR.
  intros (Hya & Hma & Hda) (Hyb & Hmb & Hdb) Heq.
  pose proof (days_in_month_bound (year a) (month a)).
  pose proof (days_in_month_bound (year b) (month b)).
  unfold strftime_dmY in Heq.
  apply append_eq_prefix in Heq as [Hd Heq]; [|reflexivity].
  apply append_eq_prefix in Heq as [_ Heq]; [|reflexivity].
  apply append_eq_prefix in Heq as [Hm Heq]; [|reflexivity].
  apply append_eq_prefix in Heq as [_ Hy]; [|reflexivity].
  unfold same_day. split; [now apply decimal_inj|].
  split; apply two_digits_inj; auto; lia.
Qed.

(** X15: the output name determines the country and the window: for valid
    dates, two names are the same text only if the country codes are equal
    and the windows start on the same day and end on the same day.  (Two
    different names can still designate one file.) *)
Theorem output_name_injective (country1 country2 : string)
    (start1 end1 start2 end2 : datetime) :
  valid_date start1 -> valid_date end1 ->
  valid_date start2 -> valid_date end2 ->
  output_name country1 start1 end1 = output_name country2 start2 end2 ->
  country1 = country2 /\ same_day start1 start2 /\ same_day end1 end2.
Proof.
  intros Hs1 He1 Hs2 He2 Heq. unfold output_name in Heq.
  assert (Hsplit : forall c s e,
            c +:+ "_" +:+ strftime_dmY s +:+ "_" +:+ strftime_dmY e +:+ ".txt"
            = (c +:+ String "_" (strftime_dmY s))
              +:+ String "_" (strftime_dmY e +:+ ".txt"))
    by (intros c s e; now rewrite append_assoc).
  rewrite !Hsplit in Heq.
  assert (Hlast : forall e, mentions "_" (strftime_dmY e +:+ ".txt") = false).
  { intros e. rewrite mentions_append.
    now rewrite (number_text_no_underscore _ (strftime_dmY_number_text e)). }
  apply (append_eq_last "_") in Heq as [Hhead Htail]; [|apply Hlast ..].
  apply (append_eq_last "_") in Hhead as [Hc Hs];
    [|apply number_text_no_underscore, strftime_dmY_number_text ..].
  apply append_eq_suffix in Htail as [He _]; [|reflexivity].
  split; [exact Hc|]. split; now apply strftime_dmY_same_day.
Qed.

Lemma output_name_injective_witness :
  "UA" = "UA" /\
  same_day (midnight 999 1 1) (mk_datetime 999 1 1 8 30 0 0) /\
  same_day (mk_datetime 2023 1 2 23 59 59 0) (midnight 2023 1 2).
Proof.
  apply (output_name_injective "UA" "UA"
           (midnight 999 1 1) (mk_datetime 2023 1 2 23 59 59 0)
           (mk_datetime 999 1 1 8 30 0 0) (midnight 2023 1 2));
    try reflexivity; repeat split; vm_compute; congruence.
Defined.

(** Names that differ in the country, or in a day of the window, differ. *)
Example output_names_differ :
  output_name "UA" (midnight 2023 1 1) (midnight 2023 1 2)
  <> output_name "US" (midnight 2023 1 1) (midnight 2023 1 2) /\
  output_name "UA_01-01-999" (midnight 999 1 1) (midnight 999 1 2)
  <> output_name "UA" (midnight 999 1 1) (midnight 999 1 2).
Proof. split; discriminate. Qed.

(** A loop over a concatenation is the loop over the first list followed
    by the loop over the second. *)
Lemma for_each_app {A S} (l1 l2 : list A) (s : S) (body : S -> A -> M S)
    (w : world) :
  for_each (l1 ++ l2) s body w
  = match for_each l1 s body w with
    | (Ok s', w') => for_each l2 s' body w'
    | (Raise e, w') => (Raise e, w')
    end.
Proof.
  revert s w. induction l1 as [|x l1 IH]; intros s w; [reflexivity|].
  cbn [app for_each]. unfold bind.
  destruct (body s x w) as [[s'|e] w']; [apply IH|reflexivity].
Qed.

Section OrchestratorReports.

Variable unicode_decimal : Z -> option Z.
Variable float_repr : spec_float -> string.
Variable recursion_budget : nat.
Variable API_KEY : option string.
Variable http : nat -> string -> Z -> http_outcome.
Variable resolve : string -> string.
Variable io_fault : nat -> option exn.

Lemma countries_loop_requests (s e : datetime) (countries : list string)
    (w : world) :
  length (requests (snd (for_each countries tt (fun _ country =>
            main_country float_repr recursion_budget API_KEY http resolve
              io_fault s e country) w)))
  = (length (requests w)
     + length countries * length (range (year s) (year e + 1)))%nat.
Proof.
  destruct (countries_loop_effect float_repr recursion_budget API_KEY http
              resolve io_fault s e countries w) as (w' & -> & Hr & _).
  cbn [snd]. rewrite Hr, length_app. f_equal. clear.
  induction countries as [|c rest IH]; [reflexivity|].
  cbn [flat_map length]. rewrite length_app, length_map, IH.
  cbn [Nat.mul]. reflexivity.
Qed.

(** X16: the run never raises: whatever the arguments, the answers of the
    provider and the faults of the disk, [main] returns.  A bad window ends
    the run; a failed request or a failed write does not. *)
Theorem main_never_raises (countries : list string)
    (start_date end_date : unicode) (w : world) :
  exists w',
    main unicode_decimal float_repr recursion_budget API_KEY http resolve
      io_fault countries start_date end_date w
    = (Ok tt, w').
Proof.
  unfold main. unfold bind at 1. rewrite try_except_bind.
  rewrite validate_dates_run.
  destruct (strptime unicode_decimal start_date) as [s|]; [|cbn; eauto].
  destruct (strptime unicode_decimal end_date) as [e|]; [|cbn; eauto].
  destruct (datetime_gt s e); [cbn; eauto|].
  unfold try_except, ret.
  destruct (countries_loop_effect float_repr recursion_budget API_KEY http
              resolve io_fault s e countries w) as (w' & Hrun & _).
  exists w'. exact Hrun.
Qed.

(** X17: the run changes no file but those the output names of the listed
    countries designate, for the window of the run: any other file keeps
    its content, or stays absent; and a run whose window is refused changes
    no file at all. *)
Theorem main_touches_only_output_files (countries : list string)
    (start_date end_date : unicode) (w : world) (path : string) :
  (forall s e country,
     fst (validate_dates unicode_decimal start_date end_date w) = Ok (s, e) ->
     In country countries -> path <> resolve (output_name country s e)) ->
  files (snd (main unicode_decimal float_repr recursion_budget API_KEY http
                resolve io_fault countries start_date end_date w)) !! path
  = files w !! path.
Proof.
  intros Hother. unfold main. unfold bind at 1. rewrite try_except_bind.
  pose proof (fun s e c => Hother s e c) as Hv.
  rewrite validate_dates_run in Hv |- *.
  destruct (strptime unicode_decimal start_date) as [s|]; [|reflexivity].
  destruct (strptime unicode_decimal end_date) as [e|]; [|reflexivity].
  destruct (datetime_gt s e); [reflexivity|].
  unfold try_except, ret.
  destruct (countries_loop_effect float_repr recursion_budget API_KEY http
              resolve io_fault s e countries w) as (w' & -> & _ & _ & Hf).
  cbn [snd]. apply Hf. rewrite in_map_iff.
  intros (c & Hname & Hc). now apply (Hv s e c eq_refl Hc).
Qed.

(** X18: end to end, on a disk without faults.  After a run over a valid
    window, the file the output name of a country designates holds one line
    per record of that country inside the window, each line the text
    [json.dumps] gives the record: the records are those the provider
    returned for the years of the window, in year order, provided every one
    of them has a text and no country later in the list has an output name
    that designates the same file (a later one would overwrite it). *)
Theorem main_writes_country_file (before after : list string)
    (country : string) (start_date end_date : unicode) (s e : datetime)
    (w : world) (texts : list string) :
  fst (validate_dates unicode_decimal start_date end_date w) = Ok (s, e) ->
  (forall later, In later after ->
     resolve (output_name later s e) <> resolve (output_name country s e)) ->
  (forall n, io_fault n = None) ->
  let years := range (year s) (year e + 1) in
  map (json_dumps float_repr recursion_budget)
    (List.filter (in_window s e)
       (concat (map holidays_of
                  (outcomes http country years
                     (length (requests w) + length before * length years)))))
  = map Ok texts ->
  files (snd (main unicode_decimal float_repr recursion_budget API_KEY http
                resolve io_fault (before ++ country :: after)
                start_date end_date w))
    !! resolve (output_name country s e)
  = Some (unlines texts).
Proof.
  intros Hv Hlast Hdisk years Htexts.
  rewrite (main_validated unicode_decimal float_repr recursion_budget API_KEY
             http resolve io_fault _ _ _ _ _ _ Hv).
  rewrite for_each_app.
  pose proof (countries_loop_requests s e before w) as Hr1.
  destruct (countries_loop_effect float_repr recursion_budget API_KEY http
              resolve io_fault s e before w) as (w1 & E1 & _).
  rewrite E1 in Hr1 |- *. cbn [snd] in Hr1.
  cbn [for_each]. unfold bind at 1.
  destruct (main_country_run float_repr recursion_budget API_KEY http resolve
              io_fault s e country w1) as [msgs ->].
  cbn [requests after_requests] in *. fold years. rewrite Hr1.
  rewrite (save_to_file_ok float_repr recursion_budget resolve io_fault
             _ _ texts) by (intros; apply Hdisk) || exact Htexts.
  match goal with
  | |- files (snd (for_each after tt _ ?w2)) !! _ = _ =>
      destruct (countries_loop_effect float_repr recursion_budget API_KEY
                  http resolve io_fault s e after w2)
        as (w3 & -> & _ & _ & Hf)
  end.
  cbn [snd]. rewrite Hf.
  - cbn [files]. apply lookup_insert_eq.
  - rewrite in_map_iff. intros (c & Hname & Hc). now apply (Hlast c Hc).
Qed.

(** X19: a country for which every request fails still gets its file: on a
    disk without faults the file is created empty and the write is reported
    as a success. *)
Theorem main_country_all_requests_fail (s e : datetime) (country : string)
    (w : world) :
  (forall n y, transport_failure (http n country y)) ->
  (forall n, io_fault n = None) ->
  files (snd (main_country float_repr recursion_budget API_KEY http resolve
                io_fault s e country w))
    !! resolve (output_name country s e) = Some EmptyString /\
  last (stdout (snd (main_country float_repr recursion_budget API_KEY http
                       resolve io_fault s e country w)))
  = Some (MsgSaved (output_name country s e)).
Proof.
  intros Hfail Hdisk.
  destruct (main_country_run float_repr recursion_budget API_KEY http resolve
              io_fault s e country w) as [msgs ->].
  assert (Hnone : forall years n,
            concat (map holidays_of (outcomes http country years n)) = []).
  { induction years as [|y ys IH]; intros n; [reflexivity|].
    cbn [outcomes map concat]. rewrite IH, app_nil_r.
    specialize (Hfail n y). unfold holidays_of, transport_failure in *.
    destruct (http n country y) as [|st body]; [reflexivity|].
    destruct Hfail as [-> | [err ->]]; [reflexivity|].
    now destruct (error_status st). }
  rewrite Hnone. cbn [List.filter].
  rewrite (save_to_file_ok float_repr recursion_budget resolve io_fault
             _ [] []) by (intros; apply Hdisk) || reflexivity.
  cbn [snd files stdout unlines]. split.
  - apply lookup_insert_eq.
  - apply last_snoc.
Qed.

End OrchestratorReports.

Lemma main_touches_only_output_files_witness :
  files (snd (main ascii_digits_only plain_float_repr deep None
                sample_provider without_dot_slash no_fault
                ["UA"; "./US"] (codes "2023-01-01") (codes "2023-01-02")
                (mk_world [] [] []
                   {["notes" := "mine"; "UA_01-01-2022_02-01-2022.txt" := "old"]}
                   0)))
    !! "UA_01-01-2022_02-01-2022.txt"
  = files (mk_world [] [] []
             {["notes" := "mine"; "UA_01-01-2022_02-01-2022.txt" := "old"]} 0)
      !! "UA_01-01-2022_02-01-2022.txt".
Proof.
  apply (main_touches_only_output_files ascii_digits_only plain_float_repr
           deep None sample_provider without_dot_slash no_fault
           ["UA"; "./US"] (codes "2023-01-01") (codes "2023-01-02")
           (mk_world [] [] []
              {["notes" := "mine"; "UA_01-01-2022_02-01-2022.txt" := "old"]}
              0)
           "UA_01-01-2022_02-01-2022.txt").
  intros s e country Hv. injection Hv as <- <-.
  intros [<-|[<-|[]]]; discriminate.
Defined.

Lemma main_writes_country_file_witness :
  files (snd (main ascii_digits_only plain_float_repr deep None
                sample_provider without_dot_slash no_fault
                (["US"] ++ "./UA" :: ["PL"])
                (codes "2023-12-20") (codes "2024-01-05") empty_world))
    !! without_dot_slash
         (output_name "./UA" (midnight 2023 12 20) (midnight 2024 1 5))
  = Some (unlines
            [String "{" (String QUOTE "name" +:+ String QUOTE ": "
               +:+ String QUOTE "Christmas" +:+ String QUOTE ", "
               +:+ String QUOTE "date" +:+ String QUOTE ": {"
               +:+ String QUOTE "iso" +:+ String QUOTE ": "
               +:+ String QUOTE "Christmas" +:+ String QUOTE ", "
               +:+ String QUOTE "datetime" +:+ String QUOTE ": {"
               +:+ String QUOTE "year" +:+ String QUOTE ": 2023, "
               +:+ String QUOTE "month" +:+ String QUOTE ": 12, "
               +:+ String QUOTE "day" +:+ String QUOTE ": 25}}}");
             String "{" (String QUOTE "name" +:+ String QUOTE ": "
               +:+ String QUOTE "New Year" +:+ String QUOTE ", "
               +:+ String QUOTE "date" +:+ String QUOTE ": {"
               +:+ String QUOTE "iso" +:+ String QUOTE ": "
               +:+ String QUOTE "New Year" +:+ String QUOTE ", "
               +:+ String QUOTE "datetime" +:+ String QUOTE ": {"
               +:+ String QUOTE "year" +:+ String QUOTE ": 2024, "
               +:+ String QUOTE "month" +:+ String QUOTE ": 1, "
               +:+ String QUOTE "day" +:+ String QUOTE ": 1}}}")]).
Proof.
  apply (main_writes_country_file ascii_digits_only plain_float_repr deep
           None sample_provider without_dot_slash no_fault ["US"] ["PL"]
           "./UA" (codes "2023-12-20") (codes "2024-01-05")
           (midnight 2023 12 20) (midnight 2024 1 5) empty_world).
  - reflexivity.
  - intros later [<-|[]]. discriminate.
  - intros n. reflexivity.
  - reflexivity.
Defined.

Lemma main_country_all_requests_fail_witness :
  files (snd (main_country plain_float_repr deep None unreachable plain_names
                no_fault (midnight 2023 1 1) (midnight 2023 1 2) "XX"
                empty_world))
    !! plain_names
         (output_name "XX" (midnight 2023 1 1) (midnight 2023 1 2))
  = Some EmptyString /\
  last (stdout (snd (main_country plain_float_repr deep None unreachable
                       plain_names no_fault
                       (midnight 2023 1 1) (midnight 2023 1 2) "XX"
                       empty_world)))
  = Some (MsgSaved
            (output_name "XX" (midnight 2023 1 1) (midnight 2023 1 2))).
Proof.
  apply (main_country_all_requests_fail plain_float_repr deep None
           unreachable plain_names no_fault
           (midnight 2023 1 1) (midnight 2023 1 2) "XX" empty_world).
  - intros n y. exact I.
  - intros n. reflexivity.
Defined.
